(** * url_shortener: the cache, rate-limiter and redirect services

    A shallow embedding of [app/redis_cache.py], [app/services/cache_service.py],
    [app/services/rate_limiter.py], [app/services/url_service.py] and the parts
    of [app/models/url_models.py] and [app/database.py] they rely on.

    Every [async def] of the source is a computation in the monad [M]: it reads
    and writes the world (the relational store and the Redis key space) and
    ends by returning, by raising, or not at all.  Calling an [async def]
    builds such a computation; only [await] (the monadic bind) runs it. *)

From Stdlib Require Import ZArith String Ascii List Lia Bool.
From stdpp Require Import gmap strings list fin_maps pretty.

Set Warnings "-register-all".

Local Open Scope string_scope.
Local Open Scope Z_scope.

(** ** Python values *)

(** [datetime]: the wall-clock reading in microseconds since the epoch and the
    UTC offset of its [tzinfo] in microseconds ([None] for a naive value). *)
Record datetime := { wall : Z; tzinfo : option Z }.

(** [timezone.utc] *)
Definition utc : Z := 0.

(** The Python values that the services pass around: what [json.loads] can
    produce, and the [datetime] read from a row.  A float is kept as the
    decimal [mant * 10^exp10] it was read from. *)
Inductive pyobj :=
| PNone
| PBool (b : bool)
| PInt (z : Z)
| PFloat (mant exp10 : Z)
| PStr (s : string)
| PList (l : list pyobj)
| PDict (items : list (string * pyobj))
| PDatetime (d : datetime).

(** The double nearest to [mant * 10^exp10] is zero when [mant] is, or when the
    magnitude does not exceed half of the least subnormal, [2^-1075]. *)
Definition float_is_zero (mant exp10 : Z) : bool :=
  if mant =? 0 then true
  else if 0 <=? exp10 then false
  else Z.abs mant * 2 ^ 1075 <=? 10 ^ (- exp10).

(** Truth value testing ([if x:], [not x]). *)
Definition truthy (v : pyobj) : bool :=
  match v with
  | PNone => false
  | PBool b => b
  | PInt z => negb (z =? 0)
  | PFloat m e => negb (float_is_zero m e)
  | PStr s => negb (String.eqb s "")
  | PList l => match l with [] => false | _ => true end
  | PDict l => match l with [] => false | _ => true end
  | PDatetime _ => true
  end.

(** [d.get(key)]: the value bound last wins, [None] when absent. *)
Fixpoint dict_get (items : list (string * pyobj)) (key : string) : option pyobj :=
  match items with
  | [] => None
  | (k, v) :: rest =>
      match dict_get rest key with
      | Some v' => Some v'
      | None => if String.eqb k key then Some v else None
      end
  end.

(** ** Exceptions and outcomes *)

Inductive exn :=
| HTTPException (status_code : Z) (detail : string)
| RedisError
| IntegrityError
| MultipleResultsFound
| JSONDecodeError
| NameError (name : string)
| KeyError (key : string)
| TypeError
| AttributeError
| ValueError
| DBAPIError.

Definition HTTP_400_BAD_REQUEST : Z := 400.
Definition HTTP_404_NOT_FOUND : Z := 404.
Definition HTTP_410_GONE : Z := 410.
Definition HTTP_429_TOO_MANY_REQUESTS : Z := 429.

(** How a computation ends: it returns, it raises, or it is still running when
    the fuel of its loop is spent. *)
Inductive outcome (A : Type) :=
| Return (a : A)
| Raise (e : exn)
| Hang.
Arguments Return {A} a.
Arguments Raise {A} e.
Arguments Hang {A}.

(** A plain (stateless) result. *)
Definition res (A : Type) : Type := outcome A.

(** ** The relational store (app/models/url_models.py) *)

Module url_models.

(** A row of [urls]; the primary key [id] is the key of the table map. *)
Record URL := {
  original_url : string;
  short_code : string;
  custom_alias : option string;
  created_at : option datetime;
  expires_at : option datetime;
  is_active : option bool;
  clicks : option Z
}.

(** A row of [clicks]. *)
Record Click := {
  url_id : Z;
  timestamp : option datetime;
  ip_address : string;
  user_agent : option string;
  country : option string;
  referrer : option string
}.

End url_models.
Import url_models.

Record Database := {
  urls : gmap Z URL;
  click_rows : gmap Z Click
}.

(** ** The Redis key space (the server behind app/redis_cache.py) *)

Inductive command :=
| GET | SET | DEL | INCR | ZADD | ZREMRANGEBYSCORE | ZCARD | EXPIRE.

(** A key holds a string or a sorted set (member to score). *)
Inductive rvalue :=
| RString (s : string)
| RZSet (z : gmap string Z).

(** [ttl]: the time to live given at the last SET or EXPIRE, in seconds. *)
Record entry := { value : rvalue; ttl : option Z }.

(** [keys] is the live content of the server; [faulty c] tells whether command
    [c] currently fails (connection refused, timeout). *)
Record Redis := {
  keys : gmap string entry;
  faulty : command -> bool
}.

Record World := { db : Database; redis : Redis }.

(** ** The monad of [async def] bodies *)

Definition M (A : Type) : Type := World -> outcome A * World.

Definition ret {A} (a : A) : M A := fun w => (Return a, w).
Definition raise {A} (e : exn) : M A := fun w => (Raise e, w).
Definition hang {A} : M A := fun w => (Hang, w).

(** [x = await c; k x] *)
Definition bind {A B} (c : M A) (k : A -> M B) : M B :=
  fun w =>
    match c w with
    | (Return a, w') => k a w'
    | (Raise e, w') => (Raise e, w')
    | (Hang, w') => (Hang, w')
    end.

(** [try: c  except Exception as e: h e] *)
Definition try_except {A} (c : M A) (h : exn -> M A) : M A :=
  fun w =>
    match c w with
    | (Raise e, w') => h e w'
    | r => r
    end.

(** An expression that may raise, evaluated inside a computation. *)
Definition lift {A} (r : res A) : M A := fun w => (r, w).

Declare Scope py_scope.
Delimit Scope py_scope with py.
Notation "x <- c ;; k" := (bind c (fun x => k))
  (at level 100, c at next level, right associativity) : py_scope.
Notation "c ;;; k" := (bind c (fun _ => k))
  (at level 100, right associativity) : py_scope.
Local Open Scope py_scope.

(** ** Redis commands *)

Module RedisServer.

Definition int64_min : Z := - 2 ^ 63.
Definition int64_max : Z := 2 ^ 63 - 1.

Definition is_digit (c : ascii) : bool :=
  let n := Z.of_N (N_of_ascii c) in (48 <=? n) && (n <=? 57).

Fixpoint digits_value (acc : Z) (s : string) : option Z :=
  match s with
  | EmptyString => Some acc
  | String c rest =>
      if is_digit c
      then digits_value (10 * acc + (Z.of_N (N_of_ascii c) - 48)) rest
      else None
  end.

(** A stored string read as an integer: an optional minus sign, then digits
    with no leading zero (except "0" itself), within 64 bits. *)
Definition string2ll (s : string) : option Z :=
  let unsigned (t : string) : option Z :=
    match t with
    | EmptyString => None
    | String c rest =>
        if (Ascii.eqb c "0") && negb (String.eqb rest "") then None
        else digits_value 0 t
    end in
  let r :=
    match s with
    | String "-" rest =>
        match unsigned rest with
        | Some 0 => None
        | Some n => Some (- n)
        | None => None
        end
    | _ => unsigned s
    end in
  match r with
  | Some n => if (int64_min <=? n) && (n <=? int64_max) then Some n else None
  | None => None
  end.

Definition run (c : command) {A} (body : Redis -> res A * Redis) (r : Redis)
  : res A * Redis :=
  if faulty r c then (Raise RedisError, r) else body r.

Definition with_keys (r : Redis) (k : gmap string entry) : Redis :=
  {| keys := k; faulty := faulty r |}.

(** GET key *)
Definition get (key : string) : Redis -> res (option string) * Redis :=
  run GET (fun r =>
    match keys r !! key with
    | None => (Return None, r)
    | Some {| value := RString s |} => (Return (Some s), r)
    | Some {| value := RZSet _ |} => (Raise RedisError, r)
    end).

(** SET key value [EX seconds] *)
Definition set (key val : string) (ex : option Z) : Redis -> res unit * Redis :=
  run SET (fun r =>
    match ex with
    | Some t =>
        if t <=? 0 then (Raise RedisError, r)
        else (Return tt, with_keys r (<[key := {| value := RString val; ttl := Some t |}]> (keys r)))
    | None =>
        (Return tt, with_keys r (<[key := {| value := RString val; ttl := None |}]> (keys r)))
    end).

(** DEL key *)
Definition del (key : string) : Redis -> res unit * Redis :=
  run DEL (fun r => (Return tt, with_keys r (delete key (keys r)))).

(** INCR key *)
Definition incr (key : string) : Redis -> res Z * Redis :=
  run INCR (fun r =>
    match keys r !! key with
    | None =>
        (Return 1, with_keys r (<[key := {| value := RString "1"; ttl := None |}]> (keys r)))
    | Some {| value := RString s; ttl := t |} =>
        match string2ll s with
        | Some n =>
            if n + 1 <=? int64_max
            then (Return (n + 1),
                  with_keys r (<[key := {| value := RString (pretty (n + 1)); ttl := t |}]> (keys r)))
            else (Raise RedisError, r)
        | None => (Raise RedisError, r)
        end
    | Some {| value := RZSet _ |} => (Raise RedisError, r)
    end).

Definition zadd_all (mapping : list (string * Z)) (z : gmap string Z) : gmap string Z :=
  fold_left (fun acc p => <[p.1 := p.2]> acc) mapping z.

(** ZADD key score member [score member ...] *)
Definition zadd (key : string) (mapping : list (string * Z)) : Redis -> res unit * Redis :=
  run ZADD (fun r =>
    match mapping with
    | [] => (Raise RedisError, r)
    | _ =>
        match keys r !! key with
        | None =>
            (Return tt, with_keys r (<[key := {| value := RZSet (zadd_all mapping ∅); ttl := None |}]> (keys r)))
        | Some {| value := RZSet z; ttl := t |} =>
            (Return tt, with_keys r (<[key := {| value := RZSet (zadd_all mapping z); ttl := t |}]> (keys r)))
        | Some {| value := RString _ |} => (Raise RedisError, r)
        end
    end).

(** The members that ZREMRANGEBYSCORE key min max keeps: both bounds are
    inclusive, so a member goes when [min <= score <= max]. *)
Definition outside (min_score max_score : Z) (p : string * Z) : Prop :=
  ¬ (min_score ≤ p.2 ∧ p.2 ≤ max_score).

Definition zset_trim (min_score max_score : Z) (z : gmap string Z) : gmap string Z :=
  filter (outside min_score max_score) z.

(** ZREMRANGEBYSCORE key min max; a sorted set left empty is removed. *)
Definition zremrangebyscore (key : string) (min_score max_score : Z)
  : Redis -> res unit * Redis :=
  run ZREMRANGEBYSCORE (fun r =>
    match keys r !! key with
    | None => (Return tt, r)
    | Some {| value := RZSet z; ttl := t |} =>
        let z' := zset_trim min_score max_score z in
        if bool_decide (z' = ∅)
        then (Return tt, with_keys r (delete key (keys r)))
        else (Return tt, with_keys r (<[key := {| value := RZSet z'; ttl := t |}]> (keys r)))
    | Some {| value := RString _ |} => (Raise RedisError, r)
    end).

(** ZCARD key *)
Definition zcard (key : string) : Redis -> res Z * Redis :=
  run ZCARD (fun r =>
    match keys r !! key with
    | None => (Return 0, r)
    | Some {| value := RZSet z |} => (Return (Z.of_nat (size z)), r)
    | Some {| value := RString _ |} => (Raise RedisError, r)
    end).

(** EXPIRE key seconds; a timeout that is not positive deletes the key. *)
Definition expire (key : string) (time : Z) : Redis -> res unit * Redis :=
  run EXPIRE (fun r =>
    match keys r !! key with
    | None => (Return tt, r)
    | Some e =>
        if time <=? 0
        then (Return tt, with_keys r (delete key (keys r)))
        else (Return tt, with_keys r (<[key := {| value := value e; ttl := Some time |}]> (keys r)))
    end).

End RedisServer.

(** ** app/redis_cache.py: class RedisCache, and the global [cache] *)

Module RedisCache.

(** One round trip of the shared client. *)
Definition call {A} (f : Redis -> res A * Redis) : M A :=
  fun w => let '(r, rd) := f (redis w) in (r, {| db := db w; redis := rd |}).

Definition set_key (key value : string) (expire : option Z) : M unit :=
  call (RedisServer.set key value expire).

Definition get_key (key : string) : M (option string) :=
  call (RedisServer.get key).

Definition delete_key (key : string) : M unit :=
  call (RedisServer.del key).

Definition increment_key (key : string) : M Z :=
  call (RedisServer.incr key).

Definition zadd (key : string) (mapping : list (string * Z)) : M unit :=
  call (RedisServer.zadd key mapping).

Definition zremrangebyscore (key : string) (min_score max_score : Z) : M unit :=
  call (RedisServer.zremrangebyscore key min_score max_score).

Definition zcard (key : string) : M Z :=
  call (RedisServer.zcard key).

Definition expire (key : string) (time : Z) : M unit :=
  call (RedisServer.expire key time).

End RedisCache.

(** ** app/services/rate_limiter.py *)

Record RateLimiter := { requests : Z; window : Z }.

(** [RateLimiter()]: 100 requests per hour. *)
Definition rate_limiter : RateLimiter := {| requests := 100; window := 3600 |}.

(** [int(time.time())] for a clock reading [now] in microseconds. *)
Definition time_time (now : Z) : Z := now `quot` 1000000.

(** [RateLimiter.check_rate_limit]; the handler of [except Exception] prints
    and falls through. *)
Definition check_rate_limit (self : RateLimiter) (ip endpoint : string) (now : Z) : M unit :=
  let key := "rate_limit:" +:+ ip +:+ ":" +:+ endpoint in
  let current := time_time now in
  let window_start := current - window self in
  try_except
    (RedisCache.zremrangebyscore key 0 window_start ;;;
     request_count <- RedisCache.zcard key ;;
     (if request_count >=? requests self
      then raise (HTTPException HTTP_429_TOO_MANY_REQUESTS "Rate limit exceeded")
      else ret tt) ;;;
     RedisCache.zadd key [(pretty current, current)] ;;;
     RedisCache.expire key (window self))
    (fun e => ret tt).

(** ** Library functions the services call

    [json], [datetime.fromisoformat], [datetime.isoformat] and [validators.url]
    belong to the Python libraries, not to this repository: the services are
    defined over any behaviour of theirs. *)

Class PyLib := {
  json_loads : string -> res pyobj;
  json_dumps : pyobj -> string;
  fromisoformat : string -> res datetime;
  isoformat : datetime -> string;
  validators_url : string -> bool
}.

(** [a < b] on datetimes: aware values compare as instants, naive values as
    wall-clock readings, and the two kinds do not compare. *)
Definition datetime_lt (a b : datetime) : res bool :=
  match tzinfo a, tzinfo b with
  | Some oa, Some ob => Return (wall a - oa <? wall b - ob)
  | None, None => Return (wall a <? wall b)
  | _, _ => Raise TypeError
  end.

(** [datetime.now(timezone.utc)] and [datetime.utcnow()] at clock reading [now]. *)
Definition datetime_now_utc (now : Z) : datetime := {| wall := now; tzinfo := Some utc |}.
Definition datetime_utcnow (now : Z) : datetime := {| wall := now; tzinfo := None |}.

(** [d + timedelta(days=n)] *)
Definition add_days (d : datetime) (n : Z) : datetime :=
  {| wall := wall d + n * 86400000000; tzinfo := tzinfo d |}.

(** [v[key]] for a string key. *)
Definition subscript (v : pyobj) (key : string) : res pyobj :=
  match v with
  | PDict items =>
      match dict_get items key with
      | Some x => Return x
      | None => Raise (KeyError key)
      end
  | _ => Raise TypeError
  end.

(** [v.get(key)] *)
Definition method_get (v : pyobj) (key : string) : res pyobj :=
  match v with
  | PDict items =>
      match dict_get items key with
      | Some x => Return x
      | None => Return PNone
      end
  | _ => Raise AttributeError
  end.

(** Truth value of an [Optional[str]] and of an [Optional[int]]. *)
Definition truthy_str (s : option string) : bool :=
  match s with
  | Some t => negb (String.eqb t "")
  | None => false
  end.

Definition truthy_int (n : option Z) : bool :=
  match n with
  | Some k => negb (k =? 0)
  | None => false
  end.

(** ** app/services/cache_service.py *)

Module CacheService.

Definition CACHE_TTL : Z := 3600.

Definition generate_url_key (short_code : string) : string := "url:" +:+ short_code.

Definition generate_analytics_key (short_code : string) : string :=
  "analytics:" +:+ short_code.

Definition generate_rate_limit_key (ip endpoint : string) : string :=
  "rate_limit:" +:+ ip +:+ ":" +:+ endpoint.

(** [cache_url]: line 24 calls [cache.set_key(...)] without [await]; the
    coroutine it builds is dropped, so the SET is never sent. *)
Definition cache_url `{PyLib} (short_code : string) (url_data : pyobj) : M unit :=
  let cache_key := generate_url_key short_code in
  let _coroutine : M unit :=
    RedisCache.set_key cache_key (json_dumps url_data) (Some CACHE_TTL) in
  ret tt.

(** [get_cached_url]: [None] is [PNone]. *)
Definition get_cached_url `{PyLib} (short_code : string) : M pyobj :=
  let cache_key := generate_url_key short_code in
  cached <- RedisCache.get_key cache_key ;;
  if truthy_str cached
  then match cached with
       | Some payload => lift (json_loads payload)
       | None => ret PNone
       end
  else ret PNone.

Definition delete_cached_url (short_code : string) : M unit :=
  let cache_key := generate_url_key short_code in
  RedisCache.delete_key cache_key.

Definition increment_click_count (short_code : string) : M Z :=
  let cache_key := generate_analytics_key short_code in
  RedisCache.increment_key cache_key.

End CacheService.

(** ** The session of app/database.py *)

Module Session.

(** What [await db.execute(select(URL).where(...))] returns: the matching
    rows, each with its primary key. *)
Record Result := { rows : list (Z * URL) }.

(** Truth value of a [Result]: the class defines neither [__bool__] nor
    [__len__], so the object is true whatever rows it holds. *)
Definition Result_bool (r : Result) : bool := true.

(** A mapped [URL] object is true for the same reason. *)
Definition object_bool (o : option (Z * URL)) : bool :=
  match o with Some _ => true | None => false end.

Definition execute_select (where_ : Z -> URL -> bool) : M Result :=
  fun w =>
    (Return {| rows := map_to_list (filter (fun kv => where_ kv.1 kv.2 = true) (urls (db w))) |}, w).

Definition scalar_one_or_none (r : Result) : res (option (Z * URL)) :=
  match rows r with
  | [] => Return None
  | [x] => Return (Some x)
  | _ => Raise MultipleResultsFound
  end.

(** The unique constraints of [urls]: [short_code], and [custom_alias] when
    it is not NULL. *)
Definition collides (u r : URL) : Prop :=
  short_code r = short_code u ∨
  (is_Some (custom_alias u) ∧ custom_alias r = custom_alias u).

#[global] Instance collides_dec u r : Decision (collides u r).
Proof. unfold collides. apply _. Defined.

(** The next value of a table's id sequence: an id no row holds. *)
Definition next_id {A} (tbl : gmap Z A) : Z := fresh (dom tbl).

(** [db.add(u); await db.flush()]: the INSERT, with the column defaults
    [is_active = True], [clicks = 0] and [created_at = now()]. *)
Definition add_flush (u : URL) (now : Z) : M (Z * URL) :=
  fun w =>
    let tbl := urls (db w) in
    if bool_decide (map_Exists (fun _ r => collides u r) tbl)
    then (Raise IntegrityError, w)
    else
      let row := {| original_url := original_url u;
                    short_code := short_code u;
                    custom_alias := custom_alias u;
                    created_at := Some (datetime_now_utc now);
                    expires_at := expires_at u;
                    is_active := match is_active u with Some b => Some b | None => Some true end;
                    clicks := match clicks u with Some n => Some n | None => Some 0 end |} in
      let id := next_id tbl in
      (Return (id, row),
       {| db := {| urls := <[id := row]> tbl; click_rows := click_rows (db w) |};
          redis := redis w |}).

(** An attribute write on the mapped object with primary key [id]. *)
Definition write (id : Z) (u : URL) : M unit :=
  fun w =>
    (Return tt,
     {| db := {| urls := <[id := u]> (urls (db w)); click_rows := click_rows (db w) |};
        redis := redis w |}).

(** [db.add(click)]: inserted with [timestamp = now()]. *)
Definition add_click (c : Click) (now : Z) : M unit :=
  fun w =>
    let tbl := click_rows (db w) in
    let row := {| url_id := url_id c;
                  timestamp := Some (datetime_now_utc now);
                  ip_address := ip_address c;
                  user_agent := user_agent c;
                  country := country c;
                  referrer := referrer c |} in
    (Return tt,
     {| db := {| urls := urls (db w); click_rows := <[next_id tbl := row]> tbl |};
        redis := redis w |}).

(** [await db.delete(db_url)] *)
Definition delete (id : Z) : M unit :=
  fun w =>
    (Return tt,
     {| db := {| urls := base.delete id (urls (db w)); click_rows := click_rows (db w) |};
        redis := redis w |}).

(** The range of an [Integer] column. *)
Definition int32_min : Z := - 2 ^ 31.
Definition int32_max : Z := 2 ^ 31 - 1.

Definition fits_integer (n : option Z) : bool :=
  match n with
  | Some k => (int32_min <=? k) && (k <=? int32_max)
  | None => true
  end.

(** The session is made with [autoflush=False], so the attribute writes and
    the [db.add(click)] of a handler stay pending until the commit.  Its
    flush sends the [clicks] of a row whose count the handler changed (the
    UPDATE carries the changed columns only); a row the handler inserted was
    sent by the handler's own [flush]. *)
Definition sends_clicks (before : gmap Z URL) (id : Z) (u : URL) : bool :=
  match before !! id with
  | Some u0 => negb (bool_decide (clicks u0 = clicks u))
  | None => false
  end.

(** [await session.commit()]: the flush is refused when a count it sends is
    outside the range of the column (the driver refuses the argument, and
    SQLAlchemy raises DBAPIError). *)
Definition commit_fails (before after : Database) : bool :=
  bool_decide
    (map_Exists
       (fun id u => sends_clicks (urls before) id u && negb (fits_integer (clicks u)) = true)
       (urls after)).

(** [get_db]: commit when the handler returns, roll back when it raises or
    when the commit does; a handler that never returns never commits. *)
Definition get_db {A} (handler : M A) : M A :=
  fun w =>
    match handler w with
    | (Return a, w') =>
        if commit_fails (db w) (db w')
        then (Raise DBAPIError, {| db := db w; redis := redis w' |})
        else (Return a, w')
    | (Raise e, w') => (Raise e, {| db := db w; redis := redis w' |})
    | (Hang, w') => (Hang, {| db := db w; redis := redis w' |})
    end.

End Session.

(** ** app/models/url_models.py: the methods of [URL] *)

(** [string.ascii_letters + string.digits] *)
Definition characters : string :=
  "abcdefghijklmnopqrstuvwxyzABCDEFGHIJKLMNOPQRSTUVWXYZ0123456789".

(** [secrets.choice(characters)], for the draw [n] of the system's generator. *)
Definition secrets_choice (n : nat) : ascii :=
  match String.get (n mod 62) characters with
  | Some c => c
  | None => "a"%char
  end.

(** [URL.generate_short_code]: [length] draws, starting at draw [pos] of the
    stream [rand]. *)
Fixpoint generate_short_code (rand : nat -> nat) (pos length : nat) : string :=
  match length with
  | O => EmptyString
  | S n => String (secrets_choice (rand pos)) (generate_short_code rand (S pos) n)
  end.

Definition with_short_code (u : URL) (code : string) : URL :=
  {| original_url := original_url u; short_code := code;
     custom_alias := custom_alias u; created_at := created_at u;
     expires_at := expires_at u; is_active := is_active u; clicks := clicks u |}.

Definition with_custom_alias (u : URL) (alias : option string) : URL :=
  {| original_url := original_url u; short_code := short_code u;
     custom_alias := alias; created_at := created_at u;
     expires_at := expires_at u; is_active := is_active u; clicks := clicks u |}.

Definition with_expires_at (u : URL) (e : option datetime) : URL :=
  {| original_url := original_url u; short_code := short_code u;
     custom_alias := custom_alias u; created_at := created_at u;
     expires_at := e; is_active := is_active u; clicks := clicks u |}.

Definition with_clicks (u : URL) (n : option Z) : URL :=
  {| original_url := original_url u; short_code := short_code u;
     custom_alias := custom_alias u; created_at := created_at u;
     expires_at := expires_at u; is_active := is_active u; clicks := n |}.

(** [URL.set_expiration] *)
Definition set_expiration (u : URL) (days : option Z) (now : Z) : URL :=
  match days with
  | Some n =>
      if truthy_int days
      then with_expires_at u (Some (add_days (datetime_utcnow now) n))
      else u
  | None => u
  end.

(** ** app/schemas/url_schemas.py *)

Record URLCreate := {
  create_original_url : string;
  create_custom_alias : option string;
  create_expiration_days : option Z
}.

Record URLUpdate := {
  update_custom_alias : option string;
  update_expiration_days : option Z
}.

(** ** app/services/url_service.py *)

Module URLService.

(** The names bound at module level in url_service.py (its imports and its
    two definitions). *)
Definition module_globals : list string :=
  [ "or_"; "select"; "AsyncSession"; "Session"; "get_db"; "db_dependency";
    "URL"; "Click"; "URLCreate"; "URLUpdate"; "CacheService"; "rate_limiter";
    "HTTPException"; "status"; "Depends"; "validators"; "datetime"; "timezone";
    "URLService"; "get_url_service" ].

(** Evaluating a name that is neither a local of the function nor a module
    global (nor a builtin). *)
Definition load_global (name : string) : M unit :=
  if bool_decide (name ∈ module_globals) then ret tt else raise (NameError name).

Definition opt_bool (b : option bool) : pyobj :=
  match b with Some x => PBool x | None => PNone end.

Definition opt_datetime (d : option datetime) : pyobj :=
  match d with Some x => PDatetime x | None => PNone end.

(** The dictionary handed to [cache_url] (lines 72-76 and 103-107). *)
Definition url_data_dict `{PyLib} (u : URL) : pyobj :=
  PDict [ ("original_url", PStr (original_url u));
          ("is_active", opt_bool (is_active u));
          ("expires_at", match expires_at u with
                         | Some d => PStr (isoformat d)
                         | None => PNone
                         end) ].

(** Lines 58-63: the [while True] loop of [create_short_url]; [fuel] bounds
    the iterations that are followed. *)
Fixpoint generate_unique (fuel : nat) (rand : nat -> nat) (pos : nat) : M string :=
  match fuel with
  | O => hang
  | S fuel' =>
      let short_code := generate_short_code rand pos 6 in
      existing <- Session.execute_select
                    (fun _ r => String.eqb (url_models.short_code r) short_code) ;;
      if negb (Session.Result_bool existing)
      then ret short_code
      else generate_unique fuel' rand (pos + 6)
  end.

Definition create_short_url `{PyLib} (fuel : nat) (rand : nat -> nat)
    (url_data : URLCreate) (ip : string) (now : Z) : M (Z * URL) :=
  check_rate_limit rate_limiter ip "create_url" now ;;;
  (if negb (validators_url (create_original_url url_data))
   then raise (HTTPException HTTP_400_BAD_REQUEST "Invalid URL provided")
   else ret tt) ;;;
  let alias := default "" (create_custom_alias url_data) in
  (if truthy_str (create_custom_alias url_data)
   then
     result <- Session.execute_select
                 (fun _ r =>
                    String.eqb (short_code r) alias
                    || bool_decide (custom_alias r = Some alias)) ;;
     existing <- lift (Session.scalar_one_or_none result) ;;
     if Session.object_bool existing
     then raise (HTTPException HTTP_400_BAD_REQUEST "Custom alias already exists")
     else ret tt
   else ret tt) ;;;
  let db_url := {| original_url := create_original_url url_data;
                   short_code := "";
                   custom_alias := create_custom_alias url_data;
                   created_at := None; expires_at := None;
                   is_active := None; clicks := None |} in
  code <- (if truthy_str (create_custom_alias url_data)
           then ret alias
           else generate_unique fuel rand 0) ;;
  let db_url := with_short_code db_url code in
  let db_url := set_expiration db_url (create_expiration_days url_data) now in
  created <- Session.add_flush db_url now ;;
  CacheService.cache_url (short_code created.2) (url_data_dict created.2) ;;;
  ret created.

(** Lines 83-107 of [get_original_url]: the entry from the cache, or from
    the table. *)
Definition get_original_url_lookup `{PyLib} (short_code : string)
  : M (pyobj * pyobj * pyobj) :=
  cached_url <- CacheService.get_cached_url short_code ;;
  if truthy cached_url
  then
    original_url <- lift (subscript cached_url "original_url") ;;
    is_active <- lift (subscript cached_url "is_active") ;;
    expires_at <- lift (method_get cached_url "expires_at") ;;
    ret (original_url, is_active, expires_at)
  else
    result <- Session.execute_select
                (fun _ r => String.eqb (url_models.short_code r) short_code) ;;
    db_url <- lift (Session.scalar_one_or_none result) ;;
    match db_url with
    | None => raise (HTTPException HTTP_404_NOT_FOUND "URL not found")
    | Some (_, u) =>
        CacheService.cache_url short_code (url_data_dict u) ;;;
        ret (PStr (original_url u), opt_bool (is_active u), opt_datetime (expires_at u))
    end.

(** Lines 109-131 of [get_original_url]: active, and not expired. *)
Definition get_original_url_check `{PyLib} (is_active expires_at : pyobj) (now : Z)
  : M unit :=
  (if negb (truthy is_active)
   then raise (HTTPException HTTP_410_GONE "URL has been deactivated")
   else ret tt) ;;;
  if truthy expires_at
  then
    expires_dt <- (match expires_at with
                   | PStr s => d <- lift (fromisoformat s) ;; ret (PDatetime d)
                   | _ => ret expires_at
                   end) ;;
    let current_time := datetime_now_utc now in
    match expires_dt with
    | PDatetime d =>
        let expires_dt :=
          match tzinfo d with
          | None => {| wall := wall d; tzinfo := Some utc |}
          | Some _ => d
          end in
        expired <- lift (datetime_lt expires_dt current_time) ;;
        if expired
        then raise (HTTPException HTTP_410_GONE "URL has expired")
        else ret tt
    | _ => raise AttributeError
    end
  else ret tt.

Definition _track_click (short_code ip : string) (user_agent : option string) (now : Z)
  : M unit :=
  result <- Session.execute_select
              (fun _ r => String.eqb (url_models.short_code r) short_code) ;;
  db_url <- lift (Session.scalar_one_or_none result) ;;
  match db_url with
  | Some (id, u) =>
      match clicks u with
      | Some n =>
          Session.write id (with_clicks u (Some (n + 1))) ;;;
          let click := {| url_id := id; timestamp := None; ip_address := ip;
                          user_agent := user_agent; country := None;
                          referrer := None |} in
          Session.add_click click now ;;;
          CacheService.increment_click_count short_code ;;;
          ret tt
      | None => raise TypeError
      end
  | None => ret tt
  end.

Definition get_original_url `{PyLib} (short_code ip : string)
    (user_agent : option string) (now : Z) : M pyobj :=
  found <- get_original_url_lookup short_code ;;
  let '(original_url, is_active, expires_at) := found in
  get_original_url_check is_active expires_at now ;;;
  _track_click short_code ip user_agent now ;;;
  ret original_url.

Definition update_url (short_code : string) (update_data : URLUpdate) (now : Z)
  : M (Z * URL) :=
  result <- Session.execute_select
              (fun _ r => String.eqb (url_models.short_code r) short_code) ;;
  db_url <- (if Session.Result_bool result
             then lift (Session.scalar_one_or_none result)
             else ret None) ;;
  match db_url with
  | None => raise (HTTPException HTTP_404_NOT_FOUND "URL not found")
  | Some (id, u) =>
      let alias := default "" (update_custom_alias update_data) in
      u <- (if truthy_str (update_custom_alias update_data)
            then
              (* line 170: [await db.execute(...)], where [db] is no name
                 of this scope *)
              load_global "db" ;;;
              result <- Session.execute_select
                          (fun id' r =>
                             bool_decide (custom_alias r = Some alias)
                             && negb (id' =? id)) ;;
              existing <- (if Session.Result_bool result
                           then lift (Session.scalar_one_or_none result)
                           else ret None) ;;
              if Session.object_bool existing
              then raise (HTTPException HTTP_400_BAD_REQUEST "Custom alias already exists")
              else
                let u := with_custom_alias u (Some alias) in
                let u := with_short_code u alias in
                Session.write id u ;;; ret u
            else ret u) ;;
      u <- (if truthy_int (update_expiration_days update_data)
            then
              let u := set_expiration u (update_expiration_days update_data) now in
              Session.write id u ;;; ret u
            else ret u) ;;
      CacheService.delete_cached_url short_code ;;;
      ret (id, u)
  end.

Definition delete_url (short_code : string) : M unit :=
  result <- Session.execute_select
              (fun _ r => String.eqb (url_models.short_code r) short_code) ;;
  db_url <- (if Session.Result_bool result
             then lift (Session.scalar_one_or_none result)
             else ret None) ;;
  match db_url with
  | None => raise (HTTPException HTTP_404_NOT_FOUND "URL not found")
  | Some (id, _) =>
      Session.delete id ;;;
      CacheService.delete_cached_url short_code
  end.

End URLService.

(** ** app/controllers/url_controller.py

    Each endpoint runs its service call inside the session that
    [db_dependency] opens; building the [URLResponse] is left out. *)

Module url_controller.

Definition create_short_url `{PyLib} (fuel : nat) (rand : nat -> nat)
    (url_data : URLCreate) (client_ip : string) (now : Z) : M (Z * URL) :=
  Session.get_db (URLService.create_short_url fuel rand url_data client_ip now).

Definition redirect_to_original `{PyLib} (short_code client_ip : string)
    (user_agent : option string) (now : Z) : M pyobj :=
  Session.get_db (URLService.get_original_url short_code client_ip user_agent now).

Definition update_short_url (short_code : string) (update_data : URLUpdate) (now : Z)
  : M (Z * URL) :=
  Session.get_db (URLService.update_url short_code update_data now).

Definition delete_short_url (short_code : string) : M unit :=
  Session.get_db (URLService.delete_url short_code).

End url_controller.

(** ** A decoder for JSON text

    The grammar [json.loads] reads: surrounding blanks, the three literals and
    the constants NaN and Infinity, numbers, strings with their escapes,
    arrays and objects.  Text is kept in UTF-8. *)

Module Json.

Definition is_ws (c : ascii) : bool :=
  let n := N_of_ascii c in
  (n =? 32)%N || (n =? 9)%N || (n =? 10)%N || (n =? 13)%N.

Fixpoint skip_ws (s : string) : string :=
  match s with
  | String c r => if is_ws c then skip_ws r else s
  | EmptyString => s
  end.

Definition hex_value (c : ascii) : option Z :=
  let n := Z.of_N (N_of_ascii c) in
  if (48 <=? n) && (n <=? 57) then Some (n - 48)
  else if (97 <=? n) && (n <=? 102) then Some (n - 87)
  else if (65 <=? n) && (n <=? 70) then Some (n - 55)
  else None.

Definition byte (n : Z) : ascii := ascii_of_N (Z.to_N n).

(** The UTF-8 bytes of a code point. *)
Definition utf8 (cp : Z) : string :=
  if cp <? 128 then String (byte cp) EmptyString
  else if cp <? 2048 then
    String (byte (192 + cp / 64)) (String (byte (128 + cp mod 64)) EmptyString)
  else if cp <? 65536 then
    String (byte (224 + cp / 4096))
      (String (byte (128 + (cp / 64) mod 64)) (String (byte (128 + cp mod 64)) EmptyString))
  else
    String (byte (240 + cp / 262144))
      (String (byte (128 + (cp / 4096) mod 64))
         (String (byte (128 + (cp / 64) mod 64)) (String (byte (128 + cp mod 64)) EmptyString))).

(** A scanned piece of a string literal: a character taken as it stands, or
    the code unit of a [\uXXXX] escape. *)
Inductive piece := Raw (c : ascii) | Unit16 (n : Z).

(** The body of a string literal, after its opening quote. *)
Fixpoint scan_pieces (s : string) : option (list piece * string) :=
  match s with
  | EmptyString => None
  | String c r =>
      if Ascii.eqb c "034" then Some ([], r)
      else if (N_of_ascii c <? 32)%N then None
      else if Ascii.eqb c "\" then
        match r with
        | String e r' =>
            if Ascii.eqb e "u" then
              match r' with
              | String a (String b (String c' (String d r''))) =>
                  match hex_value a, hex_value b, hex_value c', hex_value d with
                  | Some x3, Some x2, Some x1, Some x0 =>
                      match scan_pieces r'' with
                      | Some (ps, rest) =>
                          Some (Unit16 (4096 * x3 + 256 * x2 + 16 * x1 + x0) :: ps, rest)
                      | None => None
                      end
                  | _, _, _, _ => None
                  end
              | _ => None
              end
            else
              let simple (x : ascii) :=
                match scan_pieces r' with
                | Some (ps, rest) => Some (Raw x :: ps, rest)
                | None => None
                end in
              if Ascii.eqb e "034" then simple "034"%char
              else if Ascii.eqb e "\" then simple "\"%char
              else if Ascii.eqb e "/" then simple "/"%char
              else if Ascii.eqb e "b" then simple "008"%char
              else if Ascii.eqb e "f" then simple "012"%char
              else if Ascii.eqb e "n" then simple "010"%char
              else if Ascii.eqb e "r" then simple "013"%char
              else if Ascii.eqb e "t" then simple "009"%char
              else None
        | EmptyString => None
        end
      else
        match scan_pieces r with
        | Some (ps, rest) => Some (Raw c :: ps, rest)
        | None => None
        end
  end.

Definition is_high (n : Z) : bool := (55296 <=? n) && (n <=? 56319).
Definition is_low (n : Z) : bool := (56320 <=? n) && (n <=? 57343).

(** A high surrogate escape followed by a low one is one code point. *)
Fixpoint join_pieces (ps : list piece) : string :=
  match ps with
  | [] => EmptyString
  | Raw c :: rest => String c (join_pieces rest)
  | Unit16 hi :: rest =>
      match rest with
      | Unit16 lo :: rest' =>
          if is_high hi && is_low lo
          then utf8 (65536 + (1024 * (hi - 55296) + (lo - 56320))) +:+ join_pieces rest'
          else utf8 hi +:+ join_pieces rest
      | _ => utf8 hi +:+ join_pieces rest
      end
  end.

Definition scan_string (s : string) : option (string * string) :=
  match scan_pieces s with
  | Some (ps, rest) => Some (join_pieces ps, rest)
  | None => None
  end.

Fixpoint take_digits (s : string) : string * string :=
  match s with
  | String c r =>
      if RedisServer.is_digit c
      then let '(ds, rest) := take_digits r in (String c ds, rest)
      else (EmptyString, s)
  | EmptyString => (EmptyString, s)
  end.

Definition digits_Z (ds : string) : Z := default 0 (RedisServer.digits_value 0 ds).

(** A number: an optional minus sign, an integer part (a lone zero, or
    digits that do not start with zero), then optionally a dot with digits and
    an exponent with digits; an [int] when it has neither of the last two. *)
Definition scan_number (s : string) : option (pyobj * string) :=
  let '(neg, s1) := match s with
                    | String "-" r => (true, r)
                    | _ => (false, s)
                    end in
  let int_part :=
    match s1 with
    | String c r =>
        if Ascii.eqb c "0" then Some ("0", r)
        else if RedisServer.is_digit c then Some (take_digits s1)
        else None
    | EmptyString => None
    end in
  match int_part with
  | None => None
  | Some (ip, s2) =>
      let '(frac, s3) :=
        match s2 with
        | String "." r =>
            let '(ds, rest) := take_digits r in
            if String.eqb ds "" then (None, s2) else (Some ds, rest)
        | _ => (None, s2)
        end in
      let '(ex, s4) :=
        match s3 with
        | String e r =>
            if Ascii.eqb e "e" || Ascii.eqb e "E" then
              let '(sign, r1) := match r with
                                 | String "-" r' => (-1, r')
                                 | String "+" r' => (1, r')
                                 | _ => (1, r)
                                 end in
              let '(ds, rest) := take_digits r1 in
              if String.eqb ds "" then (None, s3) else (Some (sign * digits_Z ds), rest)
            else (None, s3)
        | EmptyString => (None, s3)
        end in
      let sgn (n : Z) := if neg : bool then - n else n in
      match frac, ex with
      | None, None => Some (PInt (sgn (digits_Z ip)), s4)
      | _, _ =>
          let fd := default "" frac in
          Some (PFloat (sgn (digits_Z (ip +:+ fd)))
                       (default 0 ex - Z.of_nat (String.length fd)), s4)
      end
  end.

(** [prefix +:+ rest = s] *)
Fixpoint strip_prefix (prefix s : string) : option string :=
  match prefix, s with
  | EmptyString, _ => Some s
  | String a p, String b r => if Ascii.eqb a b then strip_prefix p r else None
  | _, EmptyString => None
  end.

(** The items of an array after the first, up to the closing bracket. *)
Fixpoint array_items (scan : string -> option (pyobj * string)) (fuel : nat)
    (s : string) : option (list pyobj * string) :=
  match fuel with
  | O => None
  | S f =>
      match skip_ws s with
      | String "]" r => Some ([], r)
      | String "," r =>
          match scan (skip_ws r) with
          | Some (v, r') =>
              match array_items scan f r' with
              | Some (vs, rest) => Some (v :: vs, rest)
              | None => None
              end
          | None => None
          end
      | _ => None
      end
  end.

(** One pair of an object: the key in quotes, a colon, the value. *)
Definition object_pair (scan : string -> option (pyobj * string)) (s : string)
  : option ((string * pyobj) * string) :=
  match s with
  | String "034" r =>
      match scan_string r with
      | Some (k, r1) =>
          match skip_ws r1 with
          | String ":" r2 =>
              match scan (skip_ws r2) with
              | Some (v, r3) => Some ((k, v), r3)
              | None => None
              end
          | _ => None
          end
      | None => None
      end
  | _ => None
  end.

(** The pairs of an object after the first, up to the closing brace. *)
Fixpoint object_items (scan : string -> option (pyobj * string)) (fuel : nat)
    (s : string) : option (list (string * pyobj) * string) :=
  match fuel with
  | O => None
  | S f =>
      match skip_ws s with
      | String "}" r => Some ([], r)
      | String "," r =>
          match object_pair scan (skip_ws r) with
          | Some (kv, r') =>
              match object_items scan f r' with
              | Some (kvs, rest) => Some (kv :: kvs, rest)
              | None => None
              end
          | None => None
          end
      | _ => None
      end
  end.

Definition literal (word : string) (v : pyobj) (s : string) : option (pyobj * string) :=
  match strip_prefix word s with
  | Some rest => Some (v, rest)
  | None => None
  end.

(** One value at the head of [s]. *)
Fixpoint scan_once (fuel : nat) (s : string) : option (pyobj * string) :=
  match fuel with
  | O => None
  | S f =>
      match s with
      | EmptyString => None
      | String c r =>
          if Ascii.eqb c "034" then
            match scan_string r with
            | Some (t, rest) => Some (PStr t, rest)
            | None => None
            end
          else if Ascii.eqb c "{" then
            match skip_ws r with
            | String "}" rest => Some (PDict [], rest)
            | r1 =>
                match object_pair (scan_once f) r1 with
                | Some (kv, r2) =>
                    match object_items (scan_once f) f r2 with
                    | Some (kvs, rest) => Some (PDict (kv :: kvs), rest)
                    | None => None
                    end
                | None => None
                end
            end
          else if Ascii.eqb c "[" then
            match skip_ws r with
            | String "]" rest => Some (PList [], rest)
            | r1 =>
                match scan_once f r1 with
                | Some (v, r2) =>
                    match array_items (scan_once f) f r2 with
                    | Some (vs, rest) => Some (PList (v :: vs), rest)
                    | None => None
                    end
                | None => None
                end
            end
          else if Ascii.eqb c "n" then literal "null" PNone s
          else if Ascii.eqb c "t" then literal "true" (PBool true) s
          else if Ascii.eqb c "f" then literal "false" (PBool false) s
          else if Ascii.eqb c "N" then literal "NaN" (PFloat 1 0) s
          else if Ascii.eqb c "I" then literal "Infinity" (PFloat 1 400) s
          else
            match literal "-Infinity" (PFloat (-1) 400) s with
            | Some x => Some x
            | None => scan_number s
            end
      end
  end.

(** [json.loads]: one value, blanks around it, nothing else. *)
Definition loads (s : string) : res pyobj :=
  match scan_once (S (String.length s)) (skip_ws s) with
  | Some (v, rest) =>
      if String.eqb (skip_ws rest) "" then Return v else Raise JSONDecodeError
  | None => Raise JSONDecodeError
  end.

End Json.

(** ** ISO 8601 text of a datetime

    The text [isoformat()] writes, [YYYY-MM-DDTHH:MM:SS] with microseconds when
    they are not zero and the offset of an aware value, and the reader of that
    text. *)

Module Iso8601.

Definition us_per_second : Z := 1000000.
Definition us_per_day : Z := 86400 * us_per_second.

(** Days since the epoch of a date of the proleptic Gregorian calendar. *)
Definition days_from_civil (y m d : Z) : Z :=
  let y' := if m <=? 2 then y - 1 else y in
  let era := y' / 400 in
  let yoe := y' - era * 400 in
  let mp := if m <=? 2 then m + 9 else m - 3 in
  let doy := (153 * mp + 2) / 5 + d - 1 in
  let doe := yoe * 365 + yoe / 4 - yoe / 100 + doy in
  era * 146097 + doe - 719468.

(** The date of a day count. *)
Definition civil_from_days (z : Z) : Z * Z * Z :=
  let z' := z + 719468 in
  let era := z' / 146097 in
  let doe := z' - era * 146097 in
  let yoe := (doe - doe / 1460 + doe / 36524 - doe / 146096) / 365 in
  let doy := doe - (365 * yoe + yoe / 4 - yoe / 100) in
  let mp := (5 * doy + 2) / 153 in
  let d := doy - (153 * mp + 2) / 5 + 1 in
  let m := if mp <? 10 then mp + 3 else mp - 9 in
  let y := yoe + era * 400 in
  (if m <=? 2 then y + 1 else y, m, d).

Definition is_leap (y : Z) : bool :=
  ((y mod 4 =? 0) && negb (y mod 100 =? 0)) || (y mod 400 =? 0).

Definition days_in_month (y m : Z) : Z :=
  if m =? 2 then (if is_leap y then 29 else 28)
  else if (m =? 4) || (m =? 6) || (m =? 9) || (m =? 11) then 30
  else 31.

Fixpoint zeros (n : nat) : string :=
  match n with
  | O => EmptyString
  | S k => String "0" (zeros k)
  end.

(** [n] in decimal, padded with zeros to [width] digits. *)
Definition padded (width : nat) (n : Z) : string :=
  let s := pretty n in zeros (width - String.length s) +:+ s.

Definition clock_text (us : Z) : string :=
  let secs := us / us_per_second in
  let frac := us mod us_per_second in
  padded 2 (secs / 3600) +:+ ":" +:+ padded 2 ((secs / 60) mod 60)
  +:+ ":" +:+ padded 2 (secs mod 60)
  +:+ (if frac =? 0 then "" else "." +:+ padded 6 frac).

Definition offset_text (off : Z) : string :=
  let a := Z.abs off in
  let secs := a / us_per_second in
  let frac := a mod us_per_second in
  (if off <? 0 then "-" else "+")
  +:+ padded 2 (secs / 3600) +:+ ":" +:+ padded 2 ((secs / 60) mod 60)
  +:+ (if (secs mod 60 =? 0) && (frac =? 0) then ""
       else ":" +:+ padded 2 (secs mod 60)
            +:+ (if frac =? 0 then "" else "." +:+ padded 6 frac)).

(** [d.isoformat()] *)
Definition isoformat (d : datetime) : string :=
  let '(y, m, dd) := civil_from_days (wall d / us_per_day) in
  padded 4 y +:+ "-" +:+ padded 2 m +:+ "-" +:+ padded 2 dd +:+ "T"
  +:+ clock_text (wall d mod us_per_day)
  +:+ match tzinfo d with
      | Some off => offset_text off
      | None => ""
      end.

(** [count] digits at the head of [s]. *)
Fixpoint fixed_digits (count : nat) (acc : Z) (s : string) : option (Z * string) :=
  match count with
  | O => Some (acc, s)
  | S k =>
      match s with
      | String c r =>
          if RedisServer.is_digit c
          then fixed_digits k (10 * acc + (Z.of_N (N_of_ascii c) - 48)) r
          else None
      | EmptyString => None
      end
  end.

(** [HH[:MM[:SS[.fff[fff]]]]] filling the whole of [s], in microseconds, with
    its hour, minute and second for the range checks. *)
Definition read_clock (s : string) : option (Z * Z * Z * Z) :=
  match fixed_digits 2 0 s with
  | Some (h, EmptyString) => Some (h, 0, 0, 0)
  | Some (h, String ":" r1) =>
      match fixed_digits 2 0 r1 with
      | Some (mi, EmptyString) => Some (h, mi, 0, 0)
      | Some (mi, String ":" r2) =>
          match fixed_digits 2 0 r2 with
          | Some (sec, EmptyString) => Some (h, mi, sec, 0)
          | Some (sec, String "." r3) =>
              match fixed_digits 6 0 r3 with
              | Some (f, EmptyString) => Some (h, mi, sec, f)
              | Some _ => None
              | None =>
                  match fixed_digits 3 0 r3 with
                  | Some (f, EmptyString) => Some (h, mi, sec, 1000 * f)
                  | _ => None
                  end
              end
          | _ => None
          end
      | _ => None
      end
  | _ => None
  end.

(** The text before the first sign, the sign, and the text after it. *)
Fixpoint split_sign (s : string) : string * option (bool * string) :=
  match s with
  | EmptyString => (EmptyString, None)
  | String c r =>
      if Ascii.eqb c "-" then (EmptyString, Some (true, r))
      else if Ascii.eqb c "+" then (EmptyString, Some (false, r))
      else let '(before, after) := split_sign r in (String c before, after)
  end.

Definition in_range (lo hi x : Z) : bool := (lo <=? x) && (x <=? hi).

(** [datetime.fromisoformat(s)]: the date, one separator, the time of day and
    an offset of five, eight or fifteen characters, below a day. *)
Definition fromisoformat (s : string) : res datetime :=
  match fixed_digits 4 0 s with
  | Some (y, String "-" r1) =>
      match fixed_digits 2 0 r1 with
      | Some (m, String "-" r2) =>
          match fixed_digits 2 0 r2 with
          | Some (d, rest) =>
              if in_range 1 9999 y && in_range 1 12 m && in_range 1 (days_in_month y m) d
              then
                let day_us := days_from_civil y m d * us_per_day in
                match rest with
                | EmptyString => Return {| wall := day_us; tzinfo := None |}
                | String _ t =>
                    let '(clock, zone) := split_sign t in
                    match read_clock clock with
                    | Some (h, mi, sec, f) =>
                        if in_range 0 23 h && in_range 0 59 mi && in_range 0 59 sec
                        then
                          let w := day_us + ((h * 60 + mi) * 60 + sec) * us_per_second + f in
                          match zone with
                          | None => Return {| wall := w; tzinfo := None |}
                          | Some (negative, z) =>
                              match read_clock z with
                              | Some (zh, zm, zs, zf) =>
                                  let off := ((zh * 60 + zm) * 60 + zs) * us_per_second + zf in
                                  let n := String.length z in
                                  if ((n =? 5) || (n =? 8) || (n =? 15))%nat && (off <? us_per_day)
                                  then
                                    Return {| wall := w;
                                              tzinfo := Some (if negative : bool then - off else off) |}
                                  else Raise ValueError
                              | None => Raise ValueError
                              end
                          end
                        else Raise ValueError
                    | None => Raise ValueError
                    end
                end
              else Raise ValueError
          | None => Raise ValueError
          end
      | _ => Raise ValueError
      end
  | _ => Raise ValueError
  end.

End Iso8601.

(** ** An encoder of JSON text

    [json.dumps] with its defaults, for the values the services hand to it
    (dictionaries of strings, booleans and None). *)

Module JsonEncoder.

Definition hex_digit (n : Z) : ascii :=
  Json.byte (if n <? 10 then 48 + n else 87 + n).

(** The escape of one 16-bit unit, [\uXXXX]. *)
Definition escape_unit (n : Z) : string :=
  String "\" (String "u"
    (String (hex_digit (n / 4096)) (String (hex_digit ((n / 256) mod 16))
      (String (hex_digit ((n / 16) mod 16)) (String (hex_digit (n mod 16)) EmptyString))))).

Definition escape_code_point (cp : Z) : string :=
  if cp <? 65536 then escape_unit cp
  else escape_unit (55296 + (cp - 65536) / 1024) +:+ escape_unit (56320 + (cp - 65536) mod 1024).

Definition code (c : ascii) : Z := Z.of_N (N_of_ascii c).

(** The body of a string literal: every character outside the printable ASCII
    range is escaped. *)
Fixpoint escape (s : string) : string :=
  match s with
  | EmptyString => EmptyString
  | String c r =>
      let n := code c in
      if n =? 34 then String "\" (String "034" (escape r))
      else if n =? 92 then String "\" (String "\" (escape r))
      else if n =? 10 then String "\" (String "n" (escape r))
      else if n =? 13 then String "\" (String "r" (escape r))
      else if n =? 9 then String "\" (String "t" (escape r))
      else if n =? 8 then String "\" (String "b" (escape r))
      else if n =? 12 then String "\" (String "f" (escape r))
      else if (32 <=? n) && (n <=? 126) then String c (escape r)
      else if n <? 192 then escape_unit n +:+ escape r
      else if n <? 224 then
        match r with
        | String c2 r' => escape_code_point ((n - 192) * 64 + (code c2 - 128)) +:+ escape r'
        | EmptyString => escape_unit n
        end
      else if n <? 240 then
        match r with
        | String c2 (String c3 r') =>
            escape_code_point ((n - 224) * 4096 + (code c2 - 128) * 64 + (code c3 - 128))
            +:+ escape r'
        | _ => escape_unit n +:+ escape r
        end
      else
        match r with
        | String c2 (String c3 (String c4 r')) =>
            escape_code_point ((n - 240) * 262144 + (code c2 - 128) * 4096
                               + (code c3 - 128) * 64 + (code c4 - 128))
            +:+ escape r'
        | _ => escape_unit n +:+ escape r
        end
  end.

Definition quoted (s : string) : string :=
  String "034" (escape s +:+ String "034" EmptyString).

Fixpoint dumps (v : pyobj) : string :=
  match v with
  | PNone => "null"
  | PBool true => "true"
  | PBool false => "false"
  | PInt z => pretty z
  | PFloat m e => pretty m +:+ "e" +:+ pretty e
  | PStr s => quoted s
  | PList l =>
      "[" +:+ (fix items (l : list pyobj) : string :=
                 match l with
                 | [] => ""
                 | [x] => dumps x
                 | x :: r => dumps x +:+ ", " +:+ items r
                 end) l +:+ "]"
  | PDict l =>
      "{" +:+ (fix items (l : list (string * pyobj)) : string :=
                 match l with
                 | [] => ""
                 | [(k, x)] => quoted k +:+ ": " +:+ dumps x
                 | (k, x) :: r => quoted k +:+ ": " +:+ dumps x +:+ ", " +:+ items r
                 end) l +:+ "}"
  | PDatetime d => quoted (Iso8601.isoformat d)
  end.

End JsonEncoder.

(** ** A reference library

    The library functions as the worked examples below use them.
    [validators.url] is stood for by its first test, the scheme. *)

Definition has_web_scheme (s : string) : bool :=
  match Json.strip_prefix "http://" s, Json.strip_prefix "https://" s with
  | Some rest, _ | None, Some rest => negb (String.eqb rest "")
  | None, None => false
  end.

Definition python_lib : PyLib :=
  {| json_loads := Json.loads;
     json_dumps := JsonEncoder.dumps;
     fromisoformat := Iso8601.fromisoformat;
     isoformat := Iso8601.isoformat;
     validators_url := has_web_scheme |}.

(** ** The service as a transition system

    What can happen to the world: the four endpoints of the controller, the
    availability of the Redis commands changing, and a key leaving the key
    space (its time to live ran out). *)

Inductive event :=
| Create (fuel : nat) (rand : nat -> nat) (url_data : URLCreate) (client_ip : string)
| Redirect (short_code client_ip : string) (user_agent : option string)
| Update (short_code : string) (update_data : URLUpdate)
| Delete (short_code : string)
| Outage (failing : command -> bool)
| Expire (key : string).

Definition step `{PyLib} (e : event) (now : Z) (w : World) : World :=
  match e with
  | Create fuel rand url_data ip =>
      (url_controller.create_short_url fuel rand url_data ip now w).2
  | Redirect code ip ua => (url_controller.redirect_to_original code ip ua now w).2
  | Update code data => (url_controller.update_short_url code data now w).2
  | Delete code => (url_controller.delete_short_url code w).2
  | Outage failing =>
      {| db := db w; redis := {| keys := keys (redis w); faulty := failing |} |}
  | Expire key =>
      {| db := db w; redis := RedisServer.with_keys (redis w) (delete key (keys (redis w))) |}
  end.

(** The world after a history of events, each at its clock reading. *)
Fixpoint run `{PyLib} (history : list (event * Z)) (w : World) : World :=
  match history with
  | [] => w
  | (e, now) :: rest => run rest (step e now w)
  end.

(** A deployment before its first request: no rows, no keys. *)
Definition fresh_world (failing : command -> bool) : World :=
  {| db := {| urls := ∅; click_rows := ∅ |};
     redis := {| keys := ∅; faulty := failing |} |}.

(** ** Observations used in the statements *)

(** The members of the sorted set at [key] (none when the key is absent). *)
Definition zset_at (w : World) (key : string) : gmap string Z :=
  match keys (redis w) !! key with
  | Some {| value := RZSet z |} => z
  | _ => ∅
  end.

(** [key] holds no string: the sorted-set commands accept it. *)
Definition zset_or_absent (w : World) (key : string) : Prop :=
  match keys (redis w) !! key with
  | Some {| value := RString _ |} => False
  | _ => True
  end.

(** The instant of a datetime, a naive one being read as UTC. *)
Definition utc_instant (d : datetime) : Z := wall d - default utc (tzinfo d).

(** The datetime that an [expires_at] value stands for: the datetime of a
    row, or the text of a cached entry as [fromisoformat] reads it. *)
Definition denotes `{PyLib} (expires_at : pyobj) (d : datetime) : Prop :=
  match expires_at with
  | PDatetime d' => d' = d
  | PStr s => s ≠ "" ∧ fromisoformat s = Return d
  | _ => False
  end.

(** The rows that [select(URL).where(URL.short_code == code)] finds. *)
Definition rows_with_code (w : World) (code : string) : list (Z * URL) :=
  map_to_list (filter (fun kv => String.eqb (short_code kv.2) code = true) (urls (db w))).

Definition no_faults (w : World) : Prop := ∀ c, faulty (redis w) c = false.

(** Every link of the table is active. *)
Definition all_active (w : World) : Prop :=
  ∀ id u, urls (db w) !! id = Some u → is_active u = Some true.

(** No key of the [url:] namespace is present. *)
Definition no_cached_links (w : World) : Prop :=
  ∀ code, keys (redis w) !! CacheService.generate_url_key code = None.

(** ** Specifications of computations *)

(** A computation that only talks to Redis: it ends, the tables and the
    availability of the commands are as before. *)
Definition cache_only {A} (c : M A) : Prop :=
  ∀ w, ∃ r w', c w = (r, w') ∧ r ≠ Hang ∧ db w' = db w
               ∧ faulty (redis w') = faulty (redis w).

(** [{P} c {Q | E}]: from a world satisfying [P], a return of [c] satisfies
    [Q] and any other ending satisfies [E]. *)
Definition triple {A} (P : World → Prop) (c : M A) (Q : A → World → Prop)
    (E : World → Prop) : Prop :=
  ∀ w, P w → match c w with
             | (Return a, w') => Q a w'
             | (_, w') => E w'
             end.

(** The invariant of the service: every link is active, and the cache holds
    no link entry. *)
Definition inv (w : World) : Prop := all_active w ∧ no_cached_links w.

(** A Redis command that leaves every key of the [url:] namespace alone. *)
Definition spares_links {A} (f : Redis → res A * Redis) : Prop :=
  ∀ r code, keys r !! CacheService.generate_url_key code = None →
            keys (f r).2 !! CacheService.generate_url_key code = None.

(** ** Worlds and requests of the worked examples *)

#[global] Instance command_eq_dec : EqDecision command.
Proof. solve_decision. Defined.

Definition healthy : command → bool := fun _ => false.

Definition failing_only (c : command) : command → bool := fun c' => bool_decide (c' = c).

(** 2025-01-01T00:00:00Z, in microseconds. *)
Definition new_year : Z := 1735689600000000.

(** A link with the alias promo1 and five clicks. *)
Definition example_link (expires : option datetime) : URL :=
  {| original_url := "https://example.com/page";
     short_code := "promo1";
     custom_alias := Some "promo1";
     created_at := Some (datetime_now_utc (new_year - 1000000));
     expires_at := expires;
     is_active := Some true;
     clicks := Some 5 |}.

Definition world_with_link (failing : command → bool) (expires : option datetime) : World :=
  {| db := {| urls := {[ 1 := example_link expires ]}; click_rows := ∅ |};
     redis := {| keys := ∅; faulty := failing |} |}.

(** A cache entry for the code ghost, and no row for it. *)
Definition cached_only_world (payload : string) : World :=
  {| db := {| urls := ∅; click_rows := ∅ |};
     redis := {| keys := {[ "url:ghost" := {| value := RString payload; ttl := Some 3600 |} ]};
                 faulty := healthy |} |}.

(** The JSON text of an entry: original_url https://example.com/page,
    is_active true, expires_at null. *)
Definition ghost_payload : string :=
  JsonEncoder.dumps
    (PDict [ ("original_url", PStr "https://example.com/page");
             ("is_active", PBool true);
             ("expires_at", PNone) ]).

(** The sorted set of the client 1.2.3.4 on the creation endpoint. *)
Definition window_world (members : gmap string Z) : World :=
  {| db := {| urls := ∅; click_rows := ∅ |};
     redis := {| keys := {[ "rate_limit:1.2.3.4:create_url"
                            := {| value := RZSet members; ttl := Some 3600 |} ]};
                 faulty := healthy |} |}.

(** One request a second, from second 1000 to second 1099. *)
Definition hundred_requests : gmap string Z :=
  list_to_map ((fun s => (pretty s, s)) <$> seqZ 1000 100).

Definition page_request : URLCreate :=
  {| create_original_url := "https://example.com/page";
     create_custom_alias := None;
     create_expiration_days := Some 30 |}.

Definition rename_request : URLUpdate :=
  {| update_custom_alias := Some "newname"; update_expiration_days := None |}.

Definition extend_request : URLUpdate :=
  {| update_custom_alias := None; update_expiration_days := Some 7 |}.

Definition expires_now : datetime := datetime_utcnow new_year.

(** ** Observations of the further properties *)

(** A letter of either case, or a digit. *)
Definition is_alphanumeric (c : ascii) : bool :=
  let n := Z.of_N (N_of_ascii c) in
  ((48 <=? n) && (n <=? 57)) || ((65 <=? n) && (n <=? 90)) || ((97 <=? n) && (n <=? 122)).

(** Every character of [s] satisfies [p]. *)
Fixpoint all_chars (p : ascii → bool) (s : string) : bool :=
  match s with
  | EmptyString => true
  | String c rest => p c && all_chars p rest
  end.

(** No two rows of [urls] carry the same short code. *)
Definition codes_unique (w : World) : Prop :=
  ∀ id id' u u', urls (db w) !! id = Some u → urls (db w) !! id' = Some u' →
                 short_code u = short_code u' → id = id'.

(** Every row of [urls] has its custom alias as short code, and a click
    count that is set and not negative. *)
Definition links_well_formed (w : World) : Prop :=
  ∀ id u, urls (db w) !! id = Some u →
          custom_alias u = Some (short_code u) ∧ short_code u ≠ ""
          ∧ ∃ n, clicks u = Some n ∧ 0 ≤ n.

(** Every row of [clicks] has its timestamp, and neither country nor
    referrer. *)
Definition clicks_well_formed (w : World) : Prop :=
  ∀ id c, click_rows (db w) !! id = Some c →
          is_Some (timestamp c) ∧ country c = None ∧ referrer c = None.

(** The three together: the shape of the tables. *)
Definition store_inv (w : World) : Prop :=
  codes_unique w ∧ links_well_formed w ∧ clicks_well_formed w.

(** The ways in which one request may change the tables. *)
Inductive table_change (d d' : Database) : Prop :=
| unchanged :
    d' = d → table_change d d'
| link_inserted id row :
    urls d !! id = None → clicks row = Some 0 →
    d' = {| urls := <[id := row]> (urls d); click_rows := click_rows d |} →
    table_change d d'
| click_recorded id u n cid c :
    urls d !! id = Some u → clicks u = Some n →
    click_rows d !! cid = None → url_id c = id →
    d' = {| urls := <[id := with_clicks u (Some (n + 1))]> (urls d);
            click_rows := <[cid := c]> (click_rows d) |} →
    table_change d d'
| expiry_set id u e :
    urls d !! id = Some u →
    d' = {| urls := <[id := with_expires_at u e]> (urls d);
            click_rows := click_rows d |} →
    table_change d d'
| link_deleted id u :
    urls d !! id = Some u →
    d' = {| urls := delete id (urls d); click_rows := click_rows d |} →
    table_change d d'.

(** The sum of the click counts of the links. *)
Definition counted_clicks (w : World) : Z :=
  map_fold (fun _ u acc => acc + default 0 (clicks u)) 0 (urls (db w)).

(** ** Worlds and requests of their witnesses *)

(** The request of the scenarios with the alias promo1. *)
Definition alias_request : URLCreate :=
  {| create_original_url := "https://example.com/page";
     create_custom_alias := Some "promo1";
     create_expiration_days := Some 30 |}.

(** The same request with a target that has no scheme. *)
Definition bad_request : URLCreate :=
  {| create_original_url := "example";
     create_custom_alias := Some "promo1";
     create_expiration_days := Some 30 |}.

(** The link promo1, deactivated. *)
Definition inactive_link : URL :=
  {| original_url := "https://example.com/page";
     short_code := "promo1";
     custom_alias := Some "promo1";
     created_at := Some (datetime_now_utc (new_year - 1000000));
     expires_at := None;
     is_active := Some false;
     clicks := Some 5 |}.

(** A deployment whose only row is [u], under the id 1. *)
Definition world_with_row (u : URL) : World :=
  {| db := {| urls := {[ 1 := u ]}; click_rows := ∅ |};
     redis := {| keys := ∅; faulty := healthy |} |}.

(** The row that the creation of promo1 at the new year stores. *)
Definition promo_row : URL :=
  {| original_url := "https://example.com/page";
     short_code := "promo1";
     custom_alias := Some "promo1";
     created_at := Some (datetime_now_utc new_year);
     expires_at := Some {| wall := new_year + 30 * 86400000000; tzinfo := None |};
     is_active := Some true;
     clicks := Some 0 |}.

(** A creation of promo1 at the new year, and a redirect one second later. *)
Definition promo_history : list (event * Z) :=
  [ (Create 0 (fun n => n) alias_request "1.2.3.4", new_year);
    (Redirect "promo1" "9.9.9.9" (Some "UA"), new_year + 1000000) ].

(** The link promo1 with the largest count the column holds. *)
Definition saturated_link : URL :=
  {| original_url := "https://example.com/page";
     short_code := "promo1";
     custom_alias := Some "promo1";
     created_at := Some (datetime_now_utc (new_year - 1000000));
     expires_at := None;
     is_active := Some true;
     clicks := Some Session.int32_max |}.

(** A row with the short code promo1 and no alias, and a second row that
    carries promo1 as its alias. *)
Definition plain_link : URL :=
  {| original_url := "https://example.com/page";
     short_code := "promo1";
     custom_alias := None;
     created_at := Some (datetime_now_utc (new_year - 1000000));
     expires_at := None;
     is_active := Some true;
     clicks := Some 0 |}.

Definition renamed_link : URL :=
  {| original_url := "https://example.com/other";
     short_code := "other1";
     custom_alias := Some "promo1";
     created_at := Some (datetime_now_utc (new_year - 1000000));
     expires_at := None;
     is_active := Some true;
     clicks := Some 0 |}.

Definition world_with_two_matches : World :=
  {| db := {| urls := {[ 1 := plain_link; 2 := renamed_link ]}; click_rows := ∅ |};
     redis := {| keys := ∅; faulty := healthy |} |}.


(** The JSON text of an entry without the key expires_at. *)
Definition short_payload : string :=
  JsonEncoder.dumps
    (PDict [ ("original_url", PStr "https://example.com/page");
             ("is_active", PBool true) ]).

(** * Proofs *)

Ltac run_redis :=
  unfold RedisCache.zremrangebyscore, RedisCache.zcard, RedisCache.zadd,
    RedisCache.expire, RedisCache.get_key, RedisCache.set_key,
    RedisCache.delete_key, RedisCache.increment_key, RedisCache.call,
    RedisServer.zremrangebyscore, RedisServer.zcard, RedisServer.zadd,
    RedisServer.expire, RedisServer.get, RedisServer.set, RedisServer.del,
    RedisServer.incr, RedisServer.run.

Lemma cache_only_ret {A} (a : A) : cache_only (ret a).
Proof. intros w. exists (Return a), w. by repeat split. Qed.

Lemma cache_only_raise {A} e : cache_only (@raise A e).
Proof. intros w. exists (Raise e), w. by repeat split. Qed.

Lemma cache_only_bind {A B} (c : M A) (k : A → M B) :
  cache_only c → (∀ a, cache_only (k a)) → cache_only (bind c k).
Proof.
  intros Hc Hk w. destruct (Hc w) as (r & w1 & E & Hr & Hd & Hf).
  unfold bind. rewrite E. destruct r as [a| e |]; [| |done].
  - destruct (Hk a w1) as (r2 & w2 & E2 & ? & ? & ?).
    exists r2, w2. repeat split; [done|done|congruence|congruence].
  - exists (Raise e), w1. by repeat split.
Qed.

Lemma cache_only_call {A} (f : Redis → res A * Redis) :
  (∀ r, (f r).1 ≠ Hang ∧ faulty (f r).2 = faulty r) → cache_only (RedisCache.call f).
Proof.
  intros Hf w. unfold RedisCache.call. pose proof (Hf (redis w)) as Hr.
  destruct (f (redis w)) as [r rd]; simpl in *. destruct Hr as [Hr1 Hr2].
  exists r, {| db := db w; redis := rd |}. by repeat split.
Qed.

Lemma cache_only_zremrangebyscore key lo hi : cache_only (RedisCache.zremrangebyscore key lo hi).
Proof.
  apply cache_only_call. intros r0. unfold RedisServer.zremrangebyscore, RedisServer.run.
  repeat case_match; simpl; done.
Qed.

Lemma cache_only_zcard key : cache_only (RedisCache.zcard key).
Proof.
  apply cache_only_call. intros r0. unfold RedisServer.zcard, RedisServer.run.
  repeat case_match; simpl; done.
Qed.

Lemma cache_only_zadd key mapping : cache_only (RedisCache.zadd key mapping).
Proof.
  apply cache_only_call. intros r0. unfold RedisServer.zadd, RedisServer.run.
  repeat case_match; simpl; done.
Qed.

Lemma cache_only_expire key t : cache_only (RedisCache.expire key t).
Proof.
  apply cache_only_call. intros r0. unfold RedisServer.expire, RedisServer.run.
  repeat case_match; simpl; done.
Qed.

Lemma cache_only_increment_key key : cache_only (RedisCache.increment_key key).
Proof.
  apply cache_only_call. intros r0. unfold RedisServer.incr, RedisServer.run.
  repeat case_match; simpl; done.
Qed.

(** The handler of [check_rate_limit] turns every exception of its body,
    the 429 included, into a normal return. *)
Lemma check_rate_limit_returns (self : RateLimiter) ip endpoint now w :
  ∃ w', check_rate_limit self ip endpoint now w = (Return tt, w')
        ∧ db w' = db w ∧ faulty (redis w') = faulty (redis w).
Proof.
  unfold check_rate_limit, try_except.
  match goal with |- context [match ?c w with _ => _ end] =>
    assert (cache_only c) as Hc end.
  { apply cache_only_bind; [apply cache_only_zremrangebyscore|intros _].
    apply cache_only_bind; [apply cache_only_zcard|intros n].
    apply cache_only_bind.
    { case_match; [apply cache_only_raise|apply cache_only_ret]. }
    intros _. apply cache_only_bind; [apply cache_only_zadd|intros _].
    apply cache_only_expire. }
  destruct (Hc w) as (r & w' & E & Hr & Hd & Hf). rewrite E.
  destruct r as [[]|e|]; [| |done]; eauto.
Qed.

(** C1 (the defect): [check_rate_limit] returns normally on every world, for
    every limit, window, client and clock reading.  The 429 of line 25 is
    raised inside the [try] whose [except Exception] swallows it, so a client
    that has reached the limit is let through like any other. *)
Theorem check_rate_limit_never_rejects (self : RateLimiter) ip endpoint now w :
  (check_rate_limit self ip endpoint now w).1 = Return tt.
Proof.
  destruct (check_rate_limit_returns self ip endpoint now w) as (w' & E & _).
  by rewrite E.
Qed.

(** *** The sorted-set commands on a healthy backend *)

Lemma zremrangebyscore_spec key lo hi w :
  no_faults w → zset_or_absent w key →
  ∃ w', RedisCache.zremrangebyscore key lo hi w = (Return tt, w')
        ∧ zset_at w' key = filter (RedisServer.outside lo hi) (zset_at w key)
        ∧ no_faults w' ∧ zset_or_absent w' key.
Proof.
  intros Hnf Hz. unfold zset_at, zset_or_absent, no_faults in *. run_redis.
  destruct w as [d [k f]]; simpl in *. rewrite Hnf.
  destruct (k !! key) as [[[s|z] t]|] eqn:Ek; [done| |].
  - unfold RedisServer.zset_trim. case_bool_decide as Hz'.
    + eexists; split; [done|]. simpl. rewrite lookup_delete_eq. by rewrite Hz'.
    + eexists; split; [done|]. simpl. by rewrite lookup_insert_eq.
  - eexists; split; [done|]. simpl. rewrite Ek. by rewrite map_filter_empty.
Qed.

Lemma zcard_spec key w :
  no_faults w → zset_or_absent w key →
  RedisCache.zcard key w = (Return (Z.of_nat (size (zset_at w key))), w).
Proof.
  intros Hnf Hz. unfold zset_at, zset_or_absent, no_faults in *. run_redis.
  destruct w as [d [k f]]; simpl in *. rewrite Hnf.
  destruct (k !! key) as [[[s|z] t]|] eqn:Ek; [done| |]; by rewrite ?map_size_empty.
Qed.

Lemma zadd_spec key member score w :
  no_faults w → zset_or_absent w key →
  ∃ w', RedisCache.zadd key [(member, score)] w = (Return tt, w')
        ∧ zset_at w' key = <[member := score]> (zset_at w key)
        ∧ no_faults w' ∧ zset_or_absent w' key.
Proof.
  intros Hnf Hz. unfold zset_at, zset_or_absent, no_faults in *. run_redis.
  destruct w as [d [k f]]; simpl in *. rewrite Hnf.
  destruct (k !! key) as [[[s|z] t]|] eqn:Ek; [done| |];
    (eexists; split; [done|]); simpl; by rewrite lookup_insert_eq.
Qed.

Lemma expire_spec key t w :
  no_faults w → 0 < t →
  ∃ w', RedisCache.expire key t w = (Return tt, w')
        ∧ zset_at w' key = zset_at w key.
Proof.
  intros Hnf Ht. unfold zset_at, no_faults in *. run_redis.
  destruct w as [d [k f]]; simpl in *. rewrite Hnf.
  destruct (k !! key) as [[v t']|] eqn:Ek.
  - assert ((t <=? 0) = false) as -> by lia.
    eexists; split; [done|]. simpl. by rewrite lookup_insert_eq.
  - eexists; split; [done|]. simpl. by rewrite Ek.
Qed.

(** C9 (as amended): on a healthy backend, a check at second [T] with window
    [W > 0] keeps exactly the members whose score is outside [0, T - W], both
    bounds included; so a member scored exactly [T - W] is removed.  The
    request is recorded (member [T], score [T]) exactly when fewer than [L]
    members are kept, and the set is the kept members otherwise. *)
Theorem trim_is_inclusive (self : RateLimiter) ip endpoint now w :
  let key := "rate_limit:" +:+ ip +:+ ":" +:+ endpoint in
  let T := time_time now in
  let kept := filter (fun p : string * Z => ¬ (0 ≤ p.2 ∧ p.2 ≤ T - window self))
                     (zset_at w key) in
  no_faults w → zset_or_absent w key → 0 < window self →
  zset_at (check_rate_limit self ip endpoint now w).2 key
  = if Z.of_nat (size kept) <? requests self then <[pretty T := T]> kept else kept.
Proof.
  intros key T kept Hnf Hz Hw.
  unfold check_rate_limit, try_except, bind. fold key T.
  destruct (zremrangebyscore_spec key 0 (T - window self) w Hnf Hz)
    as (w1 & -> & Hset1 & Hnf1 & Hz1).
  change (filter _ (zset_at w key)) with kept in Hset1.
  rewrite (zcard_spec key w1 Hnf1 Hz1), Hset1.
  destruct (Z.of_nat (size kept) >=? requests self) eqn:Hcount.
  - assert ((Z.of_nat (size kept) <? requests self) = false) as -> by lia.
    change (zset_at w1 key = kept). exact Hset1.
  - assert ((Z.of_nat (size kept) <? requests self) = true) as -> by lia.
    unfold ret at 1.
    destruct (zadd_spec key (pretty T) T w1 Hnf1 Hz1) as (w2 & -> & Hset2 & Hnf2 & _).
    destruct (expire_spec key (window self) w2 Hnf2 Hw) as (w3 & -> & Hset3).
    change (zset_at w3 key = <[pretty T := T]> kept).
    by rewrite Hset3, Hset2, Hset1.
Qed.

(** *** The cache of link entries *)

Lemma cache_url_skips `{PyLib} code data w :
  CacheService.cache_url code data w = (Return tt, w).
Proof. reflexivity. Qed.

(** C2 (the defect): [cache_url] returns without changing the world, so reading
    a code back after caching it gives what reading it did before: nothing,
    when the cache held no entry for the code.  Line 24 builds the coroutine
    of [set_key] and never awaits it. *)
Theorem cache_url_stores_nothing `{PyLib} code data w :
  CacheService.cache_url code data w = (Return tt, w)
  ∧ (CacheService.cache_url code data ;;; CacheService.get_cached_url code) w
    = CacheService.get_cached_url code w.
Proof. split; reflexivity. Qed.

(** *** Short-code generation *)

Lemma execute_select_returns where_ w :
  Session.execute_select where_ w
  = (Return {| Session.rows :=
                 map_to_list (filter (fun kv => where_ kv.1 kv.2 = true) (urls (db w))) |}, w).
Proof. reflexivity. Qed.

Lemma generate_unique_hangs fuel rand pos w :
  URLService.generate_unique fuel rand pos w = (Hang, w).
Proof.
  revert pos. induction fuel as [|fuel IH]; intros pos; [reflexivity|].
  cbn [URLService.generate_unique]. unfold bind.
  rewrite execute_select_returns. cbn [Session.Result_bool negb]. apply IH.
Qed.

(** C3 (the defect): a creation request without a custom alias, whose URL is
    valid, never leaves the generation loop, however many iterations are
    followed: line 61 tests the [Result] object, which is always true, and
    not the rows it holds. *)
Theorem create_without_alias_hangs `{PyLib} fuel rand url_data ip now w :
  truthy_str (create_custom_alias url_data) = false →
  validators_url (create_original_url url_data) = true →
  (URLService.create_short_url fuel rand url_data ip now w).1 = Hang.
Proof.
  intros Halias Hvalid. unfold URLService.create_short_url, bind.
  destruct (check_rate_limit_returns rate_limiter ip "create_url" now w)
    as (w1 & -> & _).
  rewrite Hvalid, Halias. cbn [negb]. unfold ret at 1 2.
  by rewrite generate_unique_hangs.
Qed.

(** *** Updating a link *)

Lemma rows_with_code_select w code :
  Session.execute_select (fun _ r => String.eqb (short_code r) code) w
  = (Return {| Session.rows := rows_with_code w code |}, w).
Proof. reflexivity. Qed.

(** C4 (the defect): an update that carries a custom alias, for a code that has
    its row, raises NameError at line 170 ([db] is not a name of the scope)
    and leaves the world as it was: no uniqueness check, no new short code,
    no cache invalidation. *)
Theorem update_with_alias_raises_NameError code update_data now w id u :
  rows_with_code w code = [(id, u)] →
  truthy_str (update_custom_alias update_data) = true →
  URLService.update_url code update_data now w = (Raise (NameError "db"), w).
Proof.
  intros Hrows Halias. unfold URLService.update_url, bind.
  rewrite rows_with_code_select. cbn [Session.Result_bool].
  unfold lift, Session.scalar_one_or_none. cbn [Session.rows].
  rewrite Hrows, Halias. reflexivity.
Qed.

(** *** Expiry *)

Lemma check_expiry_spec `{PyLib} is_active expires_at d now w :
  truthy is_active = true → denotes expires_at d →
  URLService.get_original_url_check is_active expires_at now w
  = (if utc_instant d <? now
     then Raise (HTTPException HTTP_410_GONE "URL has expired")
     else Return tt, w).
Proof.
  intros Hact Hden. unfold URLService.get_original_url_check, bind.
  rewrite Hact. cbn [negb]. unfold ret at 1.
  assert (∀ dt : datetime,
            (let expires_dt :=
               match tzinfo dt with
               | None => {| wall := wall dt; tzinfo := Some utc |}
               | Some _ => dt
               end in
             expired <- lift (datetime_lt expires_dt (datetime_now_utc now)) ;;
             if expired
             then raise (HTTPException HTTP_410_GONE "URL has expired")
             else ret tt) w
            = (if utc_instant dt <? now
               then Raise (HTTPException HTTP_410_GONE "URL has expired")
               else Return tt, w)) as Hcmp.
  { intros [wl [off|]]; unfold bind, lift, datetime_lt, datetime_now_utc, utc_instant, utc;
      simpl; replace (now - 0) with now by lia.
    - by destruct (wl - off <? now).
    - replace (wl - 0) with wl by lia. by destruct (wl <? now). }
  destruct expires_at; simpl in Hden; try done.
  - destruct Hden as [Hne Hiso].
    assert (truthy (PStr s) = true) as -> by (simpl; by apply negb_true_iff, String.eqb_neq).
    unfold lift at 1. rewrite Hiso. exact (Hcmp d).
  - subst d0. exact (Hcmp d).
Qed.

Lemma track_click_not_http code ip ua now w status detail :
  (URLService._track_click code ip ua now w).1 ≠ Raise (HTTPException status detail).
Proof.
  unfold URLService._track_click, bind. rewrite rows_with_code_select.
  unfold lift, Session.scalar_one_or_none. cbn [Session.rows].
  destruct (rows_with_code w code) as [|[id u] [|]]; try done.
  destruct (clicks u); [|done]. cbn.
  unfold CacheService.increment_click_count.
  match goal with |- context [RedisCache.increment_key ?k ?w0] =>
    destruct (cache_only_increment_key k w0) as (r & w' & E & _) end.
  rewrite E. unfold RedisCache.increment_key, RedisCache.call, RedisServer.incr,
    RedisServer.run in E.
  destruct r; [done| |done]. simpl.
  repeat case_match; simplify_eq/=; done.
Qed.

(** C5 (as amended): for a redirect whose lookup yields an entry with an
    expiry [d] (a datetime of the row, or a cached text that [fromisoformat]
    reads as [d]; a naive [d] read as UTC).  When [d] is strictly before now
    the redirect ends in 410 GONE: "URL has expired", or "URL has been
    deactivated" when the entry is not active.  When now is at or before [d]
    the link is not expired: the redirect never ends in "URL has expired",
    and for an active entry it goes on to record the click, ends as the
    recording does, and returns the URL when the recording returns. *)
Theorem expired_when_strictly_past `{PyLib} code ip ua now w found_url is_active expires_at w1 d :
  URLService.get_original_url_lookup code w
    = (Return (found_url, is_active, expires_at), w1) →
  denotes expires_at d →
  (utc_instant d < now →
   URLService.get_original_url code ip ua now w
   = (Raise (HTTPException HTTP_410_GONE
               (if truthy is_active then "URL has expired"
                else "URL has been deactivated")), w1))
  ∧ (now ≤ utc_instant d →
     (URLService.get_original_url code ip ua now w).1
     ≠ Raise (HTTPException HTTP_410_GONE "URL has expired")
     ∧ (truthy is_active = true →
        URLService.get_original_url code ip ua now w
        = (URLService._track_click code ip ua now ;;; ret found_url) w1)
     ∧ (truthy is_active = true →
        ∀ w2, URLService._track_click code ip ua now w1 = (Return tt, w2) →
              URLService.get_original_url code ip ua now w = (Return found_url, w2))).
Proof.
  intros Hlook Hden. unfold URLService.get_original_url.
  destruct (truthy is_active) eqn:Hact.
  - split; [intros Hcmp|intros Hcmp; split; [|split]].
    + unfold bind at 1. rewrite Hlook. unfold bind at 1.
      rewrite (check_expiry_spec _ _ d _ _ Hact Hden).
      by assert ((utc_instant d <? now) = true) as -> by lia.
    + unfold bind at 1. rewrite Hlook. unfold bind at 1.
      rewrite (check_expiry_spec _ _ d _ _ Hact Hden).
      assert ((utc_instant d <? now) = false) as -> by lia.
      unfold bind.
      pose proof (track_click_not_http code ip ua now w1 HTTP_410_GONE "URL has expired")
        as Hno.
      destruct (URLService._track_click code ip ua now w1) as [[[]|e|] w2];
        simpl in *; congruence.
    + intros _. unfold bind at 1. rewrite Hlook. unfold bind at 1.
      rewrite (check_expiry_spec _ _ d _ _ Hact Hden).
      by assert ((utc_instant d <? now) = false) as -> by lia.
    + intros _ w2 Htrack. unfold bind at 1. rewrite Hlook. unfold bind at 1.
      rewrite (check_expiry_spec _ _ d _ _ Hact Hden).
      assert ((utc_instant d <? now) = false) as -> by lia.
      unfold bind. by rewrite Htrack.
  - assert (URLService.get_original_url_check is_active expires_at now w1
            = (Raise (HTTPException HTTP_410_GONE "URL has been deactivated"), w1))
      as Hcheck.
    { unfold URLService.get_original_url_check, bind. by rewrite Hact. }
    split; [intros _|intros _; split; [|split; [done|done]]].
    + unfold bind at 1. rewrite Hlook. unfold bind at 1. by rewrite Hcheck.
    + unfold bind at 1. rewrite Hlook. unfold bind at 1. by rewrite Hcheck.
Qed.

(** *** Reading the cache *)

Lemma world_eta w : {| db := db w; redis := redis w |} = w.
Proof. by destruct w. Qed.

Lemma get_key_spec key w :
  RedisCache.get_key key w
  = (if faulty (redis w) GET then Raise RedisError
     else match keys (redis w) !! key with
          | None => Return None
          | Some {| value := RString s |} => Return (Some s)
          | Some {| value := RZSet _ |} => Raise RedisError
          end, w).
Proof.
  unfold RedisCache.get_key, RedisCache.call, RedisServer.get, RedisServer.run.
  destruct w as [d r]; simpl. destruct (faulty r GET); [done|].
  destruct (keys r !! key) as [[[s|z] t]|]; done.
Qed.

Lemma get_cached_url_spec `{PyLib} code w :
  CacheService.get_cached_url code w
  = (if faulty (redis w) GET then Raise RedisError
     else match keys (redis w) !! CacheService.generate_url_key code with
          | None => Return PNone
          | Some {| value := RString payload |} =>
              if negb (payload =? "")%string then json_loads payload else Return PNone
          | Some {| value := RZSet _ |} => Raise RedisError
          end, w).
Proof.
  unfold CacheService.get_cached_url, bind. rewrite get_key_spec.
  destruct (faulty (redis w) GET); [done|].
  destruct (keys (redis w) !! _) as [[[s|z] t]|]; try done.
  simpl. by destruct (negb _).
Qed.

Lemma get_cached_url_world `{PyLib} code w :
  (CacheService.get_cached_url code w).2 = w.
Proof.
  unfold CacheService.get_cached_url, bind. rewrite get_key_spec.
  destruct (faulty (redis w) GET); [done|].
  destruct (keys (redis w) !! _) as [[[s|z] t]|]; try done.
  simpl. by destruct (negb _).
Qed.

(** C8 (as amended): with GET available, [get_cached_url] returns None on a
    miss and on an empty payload, and on any other payload it ends as
    [json.loads] does: with the decoded value when the text is well formed,
    and with the decoder's exception when it is not. *)
Theorem get_cached_url_decodes `{PyLib} code w :
  faulty (redis w) GET = false →
  (keys (redis w) !! CacheService.generate_url_key code = None →
   CacheService.get_cached_url code w = (Return PNone, w))
  ∧ (∀ t, keys (redis w) !! CacheService.generate_url_key code
          = Some {| value := RString ""; ttl := t |} →
     CacheService.get_cached_url code w = (Return PNone, w))
  ∧ (∀ payload t, keys (redis w) !! CacheService.generate_url_key code
                  = Some {| value := RString payload; ttl := t |} →
     payload ≠ "" →
     CacheService.get_cached_url code w = (json_loads payload, w)).
Proof.
  intros Hget. unfold CacheService.get_cached_url, bind.
  rewrite get_key_spec, Hget. repeat split.
  - by intros ->.
  - by intros t ->.
  - intros payload t -> Hne. simpl.
    by assert (negb (payload =? "")%string = true) as ->
      by by apply negb_true_iff, String.eqb_neq.
Qed.

Lemma lookup_world `{PyLib} code w :
  (URLService.get_original_url_lookup code w).2 = w.
Proof.
  unfold URLService.get_original_url_lookup. unfold bind at 1.
  pose proof (get_cached_url_world code w) as Hw.
  destruct (CacheService.get_cached_url code w) as [[cached|e|] w0]; simpl in Hw; subst w0;
    [|done|done].
  destruct (truthy cached).
  - unfold bind, lift, ret.
    destruct (subscript cached "original_url"); [|done|done].
    destruct (subscript cached "is_active"); [|done|done].
    by destruct (method_get cached "expires_at").
  - unfold bind. rewrite rows_with_code_select. unfold lift.
    destruct (Session.scalar_one_or_none _) as [[[id u]|]|e|]; done.
Qed.

Lemma check_world `{PyLib} is_active expires_at now w :
  (URLService.get_original_url_check is_active expires_at now w).2 = w.
Proof.
  unfold URLService.get_original_url_check, bind, lift, ret, raise.
  destruct (negb (truthy is_active)); [done|].
  destruct (truthy expires_at); [|done].
  destruct expires_at; try done.
  - destruct (fromisoformat s) as [d|e|]; [|done|done].
    destruct (datetime_lt _ _) as [[]|e|]; done.
  - destruct (datetime_lt _ _) as [[]|e|]; done.
Qed.

(** *** Recording a click *)

Lemma next_id_fresh {A} (tbl : gmap Z A) : tbl !! Session.next_id tbl = None.
Proof. apply not_elem_of_dom, is_fresh. Qed.

Lemma url_key_not_analytics code code' :
  CacheService.generate_analytics_key code' ≠ CacheService.generate_url_key code.
Proof. done. Qed.

Lemma increment_key_keeps key other w n w' :
  key ≠ other →
  RedisCache.increment_key key w = (Return n, w') →
  keys (redis w') !! other = keys (redis w) !! other ∧ db w' = db w.
Proof.
  intros Hne. unfold RedisCache.increment_key, RedisCache.call, RedisServer.incr,
    RedisServer.run.
  repeat case_match; intros; simplify_eq/=; by rewrite ?lookup_insert_ne.
Qed.

Lemma track_click_spec code ip ua now w id u w' :
  rows_with_code w code = [(id, u)] →
  URLService._track_click code ip ua now w = (Return tt, w') →
  ∃ n, clicks u = Some n
    ∧ urls (db w') = <[id := with_clicks u (Some (n + 1))]> (urls (db w))
    ∧ click_rows (db w')
      = <[Session.next_id (click_rows (db w)) :=
            {| url_id := id; timestamp := Some (datetime_now_utc now);
               ip_address := ip; user_agent := ua;
               country := None; referrer := None |}]> (click_rows (db w))
    ∧ keys (redis w') !! CacheService.generate_url_key code
      = keys (redis w) !! CacheService.generate_url_key code.
Proof.
  intros Hrows. unfold URLService._track_click. unfold bind at 1.
  rewrite rows_with_code_select. unfold bind at 1.
  unfold lift, Session.scalar_one_or_none. cbn [Session.rows]. rewrite Hrows.
  destruct (clicks u) as [n|]; [|done]. intros Hrun. exists n. split; [done|].
  unfold bind, Session.write, Session.add_click, CacheService.increment_click_count in Hrun.
  cbn in Hrun.
  match type of Hrun with context [RedisCache.increment_key ?k ?w0] =>
    destruct (RedisCache.increment_key k w0) as [[m|e|] w2] eqn:Hincr; [|done|done];
    destruct (increment_key_keeps k (CacheService.generate_url_key code) w0 m w2
                (url_key_not_analytics code code) Hincr) as [Hk Hd]
  end.
  unfold ret in Hrun. simplify_eq. by rewrite Hd, Hk.
Qed.

Lemma rows_with_code_elem w code id u :
  (id, u) ∈ rows_with_code w code ↔ urls (db w) !! id = Some u ∧ short_code u = code.
Proof.
  unfold rows_with_code. rewrite elem_of_map_to_list, map_lookup_filter_Some. cbn.
  by rewrite String.eqb_eq.
Qed.

Lemma track_click_return_rows code ip ua now w w' id u :
  URLService._track_click code ip ua now w = (Return tt, w') →
  (id, u) ∈ rows_with_code w code →
  rows_with_code w code = [(id, u)].
Proof.
  unfold URLService._track_click. unfold bind at 1.
  rewrite rows_with_code_select. unfold bind at 1.
  unfold lift, Session.scalar_one_or_none. cbn [Session.rows].
  destruct (rows_with_code w code) as [|x [|]]; [|by intros _ ->%list_elem_of_singleton|done].
  by intros _ ?%elem_of_nil.
Qed.


(** *** Failures of the cache backend *)

Lemma delete_key_spec key w :
  RedisCache.delete_key key w
  = if faulty (redis w) DEL then (Raise RedisError, w)
    else (Return tt, {| db := db w;
                        redis := RedisServer.with_keys (redis w) (delete key (keys (redis w))) |}).
Proof.
  unfold RedisCache.delete_key, RedisCache.call, RedisServer.del, RedisServer.run.
  destruct w as [d r]; simpl. by destruct (faulty r DEL).
Qed.

(** C6 (as amended): the cache service catches nothing.  A failing GET fails
    every redirect; a failing INCR fails a redirect that passed the lookup
    and the validity checks; a failing DEL fails an update (without alias)
    and a delete of an existing link.  Each request ends with the backend's
    error and the table rolled back. *)
Theorem cache_failures_reach_the_client `{PyLib} code ip ua now update_data w id u :
  (faulty (redis w) GET = true →
   url_controller.redirect_to_original code ip ua now w = (Raise RedisError, w))
  ∧ (faulty (redis w) INCR = true →
     ∀ found, URLService.get_original_url_lookup code w = (Return found, w) →
     URLService.get_original_url_check found.1.2 found.2 now w = (Return tt, w) →
     rows_with_code w code = [(id, u)] → is_Some (clicks u) →
     url_controller.redirect_to_original code ip ua now w = (Raise RedisError, w))
  ∧ (faulty (redis w) DEL = true →
     rows_with_code w code = [(id, u)] →
     truthy_str (update_custom_alias update_data) = false →
     url_controller.update_short_url code update_data now w = (Raise RedisError, w))
  ∧ (faulty (redis w) DEL = true →
     rows_with_code w code = [(id, u)] →
     url_controller.delete_short_url code w = (Raise RedisError, w)).
Proof.
  repeat split.
  - intros Hget. unfold url_controller.redirect_to_original, Session.get_db,
      URLService.get_original_url, URLService.get_original_url_lookup,
      CacheService.get_cached_url.
    unfold bind. rewrite get_key_spec, Hget. by rewrite world_eta.
  - intros Hincr [[o a] e] Hlook Hcheck Hrows [n Hn].
    unfold url_controller.redirect_to_original, Session.get_db,
      URLService.get_original_url.
    unfold bind at 1. rewrite Hlook. unfold bind at 1. simpl in Hcheck. rewrite Hcheck.
    unfold bind at 1. unfold URLService._track_click. unfold bind at 1.
    rewrite rows_with_code_select. unfold bind at 1.
    unfold lift, Session.scalar_one_or_none. cbn [Session.rows]. rewrite Hrows, Hn.
    unfold bind, Session.write, Session.add_click, CacheService.increment_click_count,
      RedisCache.increment_key, RedisCache.call, RedisServer.incr, RedisServer.run.
    cbn. rewrite Hincr. cbn. by rewrite world_eta.
  - intros Hdel Hrows Halias.
    unfold url_controller.update_short_url, Session.get_db, URLService.update_url.
    unfold bind at 1. rewrite rows_with_code_select. cbn [Session.Result_bool].
    unfold bind at 1. unfold lift, Session.scalar_one_or_none. cbn [Session.rows].
    rewrite Hrows, Halias. unfold bind at 1. unfold ret at 1.
    unfold CacheService.delete_cached_url.
    destruct (truthy_int (update_expiration_days update_data)).
    + unfold bind, Session.write, ret. cbn. rewrite delete_key_spec. cbn.
      rewrite Hdel. cbn. by rewrite world_eta.
    + unfold bind, ret. rewrite delete_key_spec, Hdel. by rewrite world_eta.
  - intros Hdel Hrows.
    unfold url_controller.delete_short_url, Session.get_db, URLService.delete_url.
    unfold bind at 1. rewrite rows_with_code_select. cbn [Session.Result_bool].
    unfold bind at 1. unfold lift, Session.scalar_one_or_none. cbn [Session.rows].
    rewrite Hrows. unfold bind, Session.delete, CacheService.delete_cached_url.
    rewrite delete_key_spec. cbn. rewrite Hdel. cbn. by rewrite world_eta.
Qed.

(** *** The invariant of the service *)

Lemma triple_ret {A} (P : World → Prop) E (a : A) : triple P (ret a) (fun _ => P) E.
Proof. by intros w Hw. Qed.

Lemma triple_raise {A} (P : World → Prop) Q e : triple P (@raise A e) Q P.
Proof. by intros w Hw. Qed.

Lemma triple_lift {A} (P : World → Prop) (r : res A) :
  triple P (lift r) (fun a w => P w ∧ r = Return a) P.
Proof. intros w Hw. unfold lift. by destruct r. Qed.

Lemma triple_bind {A B} P (c : M A) (k : A → M B) Q Q' E :
  triple P c Q E → (∀ a, triple (Q a) (k a) Q' E) → triple P (bind c k) Q' E.
Proof.
  intros Hc Hk w Hw. specialize (Hc w Hw). unfold bind.
  destruct (c w) as [[a|e|] w1]; [|done|done]. by apply Hk.
Qed.

Lemma triple_weaken {A} (P P' : World → Prop) (c : M A) (Q Q' : A → World → Prop) E :
  triple P' c Q' E → (∀ w, P w → P' w) → (∀ a w, Q' a w → Q a w) → triple P c Q E.
Proof.
  intros Hc HP HQ w Hw. specialize (Hc w (HP w Hw)).
  destruct (c w) as [[a|e|] w1]; auto.
Qed.

Lemma triple_try_except {A} P (c : M A) (h : exn → M A) Q E E' :
  triple P c Q E → (∀ e, triple E (h e) Q E') → (∀ w, E w → E' w) →
  triple P (try_except c h) Q E'.
Proof.
  intros Hc Hh HE w Hw. specialize (Hc w Hw). unfold try_except.
  destruct (c w) as [[a|e|] w1]; [done| |by apply HE]. by apply Hh.
Qed.

Lemma triple_unchanged {A} (P : World → Prop) (c : M A) :
  (∀ w, (c w).2 = w) → triple P c (fun _ => P) P.
Proof.
  intros Hc w Hw. specialize (Hc w). destruct (c w) as [[a|e|] w1]; simpl in Hc; by subst.
Qed.

Lemma triple_call {A} (f : Redis → res A * Redis) :
  spares_links f → triple inv (RedisCache.call f) (fun _ => inv) inv.
Proof.
  intros Hf w [Hact Hkeys]. unfold RedisCache.call.
  destruct (f (redis w)) as [r rd] eqn:Ef.
  assert (inv {| db := db w; redis := rd |}) as Hinv.
  { split; [exact Hact|]. intros code. specialize (Hf (redis w) code (Hkeys code)).
    by rewrite Ef in Hf. }
  by destruct r.
Qed.

Lemma rate_limit_key_not_url ip endpoint code :
  CacheService.generate_url_key code ≠ "rate_limit:" +:+ ip +:+ ":" +:+ endpoint.
Proof. done. Qed.

Lemma spares_zremrangebyscore ip endpoint lo hi :
  spares_links (RedisServer.zremrangebyscore ("rate_limit:" +:+ ip +:+ ":" +:+ endpoint) lo hi).
Proof.
  intros r code Hk. pose proof (rate_limit_key_not_url ip endpoint code).
  unfold RedisServer.zremrangebyscore, RedisServer.run.
  repeat case_match; simpl; rewrite ?lookup_delete_ne, ?lookup_insert_ne; done.
Qed.

Lemma spares_zcard key : spares_links (RedisServer.zcard key).
Proof.
  intros r code Hk. unfold RedisServer.zcard, RedisServer.run.
  repeat case_match; done.
Qed.

Lemma spares_zadd ip endpoint mapping :
  spares_links (RedisServer.zadd ("rate_limit:" +:+ ip +:+ ":" +:+ endpoint) mapping).
Proof.
  intros r code Hk. pose proof (rate_limit_key_not_url ip endpoint code).
  unfold RedisServer.zadd, RedisServer.run.
  repeat case_match; simpl; rewrite ?lookup_insert_ne; done.
Qed.

Lemma spares_expire ip endpoint t :
  spares_links (RedisServer.expire ("rate_limit:" +:+ ip +:+ ":" +:+ endpoint) t).
Proof.
  intros r code Hk. pose proof (rate_limit_key_not_url ip endpoint code).
  unfold RedisServer.expire, RedisServer.run.
  repeat case_match; simpl; rewrite ?lookup_delete_ne, ?lookup_insert_ne; done.
Qed.

Lemma spares_del key : spares_links (RedisServer.del key).
Proof.
  intros r code Hk. unfold RedisServer.del, RedisServer.run.
  case_match; simpl; [done|]. by apply lookup_delete_None; right.
Qed.

Lemma spares_incr code' :
  spares_links (RedisServer.incr (CacheService.generate_analytics_key code')).
Proof.
  intros r code Hk. pose proof (url_key_not_analytics code code').
  unfold RedisServer.incr, RedisServer.run.
  repeat case_match; simpl; rewrite ?lookup_insert_ne; done.
Qed.

Lemma triple_check_rate_limit self ip endpoint now :
  triple inv (check_rate_limit self ip endpoint now) (fun _ => inv) inv.
Proof.
  unfold check_rate_limit.
  apply triple_try_except with (E := inv); [|intros e; apply triple_ret|done].
  eapply triple_bind; [apply triple_call, spares_zremrangebyscore|intros ?].
  eapply triple_bind; [apply triple_call, spares_zcard|intros n].
  eapply triple_bind.
  { instantiate (1 := fun _ => inv).
    destruct (n >=? requests self); [apply triple_raise|apply triple_ret]. }
  intros ?. eapply triple_bind; [apply triple_call, spares_zadd|intros ?].
  apply triple_call, spares_expire.
Qed.

(** The rows a query returns are rows of the table. *)
Lemma triple_execute_select where_ :
  triple inv (Session.execute_select where_)
    (fun r w => inv w ∧ ∀ id u, (id, u) ∈ Session.rows r → urls (db w) !! id = Some u)
    inv.
Proof.
  intros w Hw. rewrite execute_select_returns. split; [done|].
  intros id u Hin. cbn [Session.rows] in Hin.
  apply elem_of_map_to_list in Hin. by apply map_lookup_filter_Some in Hin as [? _].
Qed.

Lemma inv_write id u u' w :
  inv w → urls (db w) !! id = Some u → is_active u' = is_active u →
  inv (Session.write id u' w).2.
Proof.
  intros [Hact Hkeys] Hu Hsame. split; [|exact Hkeys].
  intros id' v. cbn. rewrite lookup_insert. case_decide.
  - intros [= <-]. rewrite Hsame. eauto.
  - apply Hact.
Qed.

Lemma triple_cache_url `{PyLib} code data :
  triple inv (CacheService.cache_url code data) (fun _ => inv) inv.
Proof. by intros w Hw. Qed.

Lemma triple_delete_cached_url code :
  triple inv (CacheService.delete_cached_url code) (fun _ => inv) inv.
Proof. apply triple_call, spares_del. Qed.

Lemma triple_generate_unique fuel rand pos :
  triple inv (URLService.generate_unique fuel rand pos) (fun _ => inv) inv.
Proof. intros w Hw. by rewrite generate_unique_hangs. Qed.

Lemma set_expiration_is_active u days now :
  is_active (set_expiration u days now) = is_active u.
Proof. unfold set_expiration. destruct days; [|done]. by destruct (truthy_int _). Qed.

Lemma triple_add_flush u now :
  is_active u = None →
  triple inv (Session.add_flush u now) (fun _ => inv) inv.
Proof.
  intros Hnone w [Hact Hkeys]. unfold Session.add_flush.
  case_bool_decide; [done|]. split; [|exact Hkeys].
  intros id v. cbn. rewrite lookup_insert. case_decide.
  - intros [= <-]. cbn. by rewrite Hnone.
  - apply Hact.
Qed.

Lemma triple_create_short_url `{PyLib} fuel rand url_data ip now :
  triple inv (URLService.create_short_url fuel rand url_data ip now) (fun _ => inv) inv.
Proof.
  unfold URLService.create_short_url.
  eapply triple_bind; [apply triple_check_rate_limit|intros ?].
  eapply triple_bind.
  { instantiate (1 := fun _ => inv).
    destruct (negb _); [apply triple_raise|apply triple_ret]. }
  intros ?. eapply triple_bind.
  { instantiate (1 := fun _ => inv).
    destruct (truthy_str _); [|apply triple_ret].
    eapply triple_bind; [apply triple_execute_select|intros r].
    eapply triple_bind.
    { eapply triple_weaken; [apply triple_lift| |]; [by intros w0 [? _]|].
      intros x w0 [Hw0 _]. exact Hw0. }
    intros existing. destruct (Session.object_bool existing);
      [apply triple_raise|apply triple_ret]. }
  intros ?. eapply triple_bind.
  { instantiate (1 := fun _ => inv).
    destruct (truthy_str _); [apply triple_ret|apply triple_generate_unique]. }
  intros code. eapply triple_bind.
  { apply triple_add_flush. by rewrite set_expiration_is_active. }
  intros created. eapply triple_bind; [apply triple_cache_url|intros ?].
  apply triple_ret.
Qed.

Lemma triple_track_click code ip ua now :
  triple inv (URLService._track_click code ip ua now) (fun _ => inv) inv.
Proof.
  intros w Hw. unfold URLService._track_click. unfold bind at 1.
  rewrite rows_with_code_select. unfold bind at 1.
  unfold lift, Session.scalar_one_or_none. cbn [Session.rows].
  destruct (rows_with_code w code) as [|[id u] [|]] eqn:Hrows; try done.
  destruct (clicks u) as [n|]; [|done].
  assert (urls (db w) !! id = Some u) as Hu.
  { assert ((id, u) ∈ rows_with_code w code) as Hin by (rewrite Hrows; set_solver).
    apply elem_of_map_to_list in Hin. by apply map_lookup_filter_Some in Hin as [? _]. }
  unfold bind at 1. unfold bind at 1.
  pose proof (inv_write id u (with_clicks u (Some (n + 1))) w Hw Hu eq_refl) as Hw1.
  destruct (Session.write id (with_clicks u (Some (n + 1))) w) as [[[]|?|] w1] eqn:E1;
    [|done|done].
  unfold bind at 1. cbn [snd] in Hw1.
  set (click := {| url_id := id |}).
  assert (inv (Session.add_click click now w1).2) as Hw2.
  { destruct Hw1 as [Hact Hkeys]. by split. }
  destruct (Session.add_click click now w1) as [[[]|?|] w2] eqn:E2; [|done|done].
  cbn [snd] in Hw2. unfold bind.
  pose proof (triple_call _ (spares_incr code) w2 Hw2) as Hw3.
  unfold CacheService.increment_click_count, RedisCache.increment_key.
  by destruct (RedisCache.call _ w2) as [[m|?|] w3].
Qed.

Lemma triple_get_original_url `{PyLib} code ip ua now :
  triple inv (URLService.get_original_url code ip ua now) (fun _ => inv) inv.
Proof.
  unfold URLService.get_original_url.
  eapply triple_bind; [apply triple_unchanged, lookup_world|intros [[o a] e]].
  eapply triple_bind; [apply triple_unchanged, check_world|intros ?].
  eapply triple_bind; [apply triple_track_click|intros ?].
  apply triple_ret.
Qed.

Lemma triple_update_url code update_data now :
  triple inv (URLService.update_url code update_data now) (fun _ => inv) inv.
Proof.
  intros w Hw. unfold URLService.update_url. unfold bind at 1.
  rewrite rows_with_code_select. cbn [Session.Result_bool]. unfold bind at 1.
  unfold lift, Session.scalar_one_or_none. cbn [Session.rows].
  destruct (rows_with_code w code) as [|[id u] [|]] eqn:Hrows; try done.
  assert (urls (db w) !! id = Some u) as Hu.
  { assert ((id, u) ∈ rows_with_code w code) as Hin by (rewrite Hrows; set_solver).
    apply elem_of_map_to_list in Hin. by apply map_lookup_filter_Some in Hin as [? _]. }
  destruct (truthy_str (update_custom_alias update_data)); [done|].
  unfold bind at 1. unfold ret at 1.
  destruct (truthy_int (update_expiration_days update_data)).
  - unfold bind at 1. unfold bind at 1.
    pose proof (inv_write id u (set_expiration u (update_expiration_days update_data) now)
                  w Hw Hu (set_expiration_is_active _ _ _)) as Hw1.
    destruct (Session.write _ _ w) as [[[]|?|] w1]; [|done|done].
    unfold ret at 1. unfold bind.
    pose proof (triple_delete_cached_url code w1 Hw1) as Hw2.
    by destruct (CacheService.delete_cached_url code w1) as [[[]|?|] w2].
  - unfold bind at 1. unfold ret at 1. unfold bind.
    pose proof (triple_delete_cached_url code w Hw) as Hw2.
    by destruct (CacheService.delete_cached_url code w) as [[[]|?|] w2].
Qed.

Lemma triple_delete_url code :
  triple inv (URLService.delete_url code) (fun _ => inv) inv.
Proof.
  intros w Hw. unfold URLService.delete_url. unfold bind at 1.
  rewrite rows_with_code_select. cbn [Session.Result_bool]. unfold bind at 1.
  unfold lift, Session.scalar_one_or_none. cbn [Session.rows].
  destruct (rows_with_code w code) as [|[id u] [|]] eqn:Hrows; try done.
  unfold bind.
  assert (inv (Session.delete id w).2) as Hw1.
  { destruct Hw as [Hact Hkeys]. split; [|exact Hkeys].
    intros id' v. cbn. intros [_ Hv]%lookup_delete_Some. by apply (Hact id'). }
  destruct (Session.delete id w) as [[[]|?|] w1]; [|done|done].
  pose proof (triple_delete_cached_url code w1 Hw1) as Hw2.
  by destruct (CacheService.delete_cached_url code w1) as [[[]|?|] w2].
Qed.

(** The session of a request keeps the invariant whether it commits or rolls
    back. *)
Lemma get_db_inv {A} (c : M A) w :
  triple inv c (fun _ => inv) inv → inv w → inv (Session.get_db c w).2.
Proof.
  intros Hc Hw. specialize (Hc w Hw). unfold Session.get_db.
  destruct (c w) as [[a|e|] w1]; [destruct (Session.commit_fails _ _); [|done]| |];
    destruct Hw, Hc; by split.
Qed.

Lemma step_inv `{PyLib} e now w : inv w → inv (step e now w).
Proof.
  intros Hw. destruct e; cbn [step].
  - apply get_db_inv; [apply triple_create_short_url|done].
  - apply get_db_inv; [apply triple_get_original_url|done].
  - apply get_db_inv; [apply triple_update_url|done].
  - apply get_db_inv; [apply triple_delete_url|done].
  - destruct Hw. by split.
  - destruct Hw as [Hact Hkeys]. split; [done|].
    intros code. cbn. apply lookup_delete_None. by right.
Qed.

Lemma run_inv `{PyLib} history w : inv w → inv (run history w).
Proof.
  revert w. induction history as [|[e now] rest IH]; intros w Hw; [done|].
  cbn [run]. by apply IH, step_inv.
Qed.

Lemma fresh_world_inv failing : inv (fresh_world failing).
Proof.
  split; [intros id u; cbn; by rewrite lookup_empty|intros code; apply lookup_empty].
Qed.

Lemma check_not_deactivated `{PyLib} is_active expires now w :
  truthy is_active = true →
  (URLService.get_original_url_check is_active (URLService.opt_datetime expires) now w).1
  ≠ Raise (HTTPException HTTP_410_GONE "URL has been deactivated").
Proof.
  intros Hact. unfold URLService.get_original_url_check, bind, lift, ret, raise.
  rewrite Hact. cbn [negb].
  destruct expires as [[wl [off|]]|]; [| |by simpl];
    cbn [URLService.opt_datetime truthy tzinfo wall]; unfold datetime_lt, datetime_now_utc;
    cbn [tzinfo wall]; case_match; simpl; by try intros [=].
Qed.

Lemma redirect_not_deactivated `{PyLib} code ip ua now w :
  inv w →
  (URLService.get_original_url code ip ua now w).1
  ≠ Raise (HTTPException HTTP_410_GONE "URL has been deactivated").
Proof.
  intros [Hact Hkeys]. unfold URLService.get_original_url. unfold bind at 1.
  unfold URLService.get_original_url_lookup. unfold bind at 1.
  rewrite get_cached_url_spec, Hkeys. destruct (faulty (redis w) GET); [by simpl|].
  cbn [truthy]. unfold bind at 1.
  rewrite rows_with_code_select. unfold bind at 1.
  unfold lift, Session.scalar_one_or_none. cbn [Session.rows].
  destruct (rows_with_code w code) as [|[id u] [|]] eqn:Hrows; [by simpl| |by simpl].
  assert (is_active u = Some true) as Hu.
  { assert ((id, u) ∈ rows_with_code w code) as Hin by (rewrite Hrows; set_solver).
    apply elem_of_map_to_list in Hin. apply map_lookup_filter_Some in Hin as [Hin _].
    by apply (Hact id). }
  unfold bind at 1. rewrite cache_url_skips. unfold ret at 1. rewrite Hu.
  cbn [URLService.opt_bool]. unfold bind at 1.
  pose proof (check_not_deactivated (PBool true) (expires_at u) now w eq_refl) as Hcheck.
  pose proof (check_world (PBool true) (URLService.opt_datetime (expires_at u)) now w) as Hw1.
  destruct (URLService.get_original_url_check _ _ now w) as [[[]|e|] w1];
    simpl in Hw1, Hcheck; subst w1; [|simpl; intros [= ->]; by apply Hcheck|by simpl].
  unfold bind.
  pose proof (track_click_not_http code ip ua now w HTTP_410_GONE
                "URL has been deactivated") as Hno.
  destruct (URLService._track_click code ip ua now w) as [[[]|e|] w2];
    [by simpl|simpl in *; intros [= ->]; by apply Hno|by simpl].
Qed.

(** C10: after any history of requests (create, redirect, update, delete),
    outages and key expiries from a fresh deployment, every link of the table
    has [is_active = True], and no redirect ends in 410 "URL has been
    deactivated". *)
Theorem deactivated_is_unreachable `{PyLib} history failing code ip ua now :
  all_active (run history (fresh_world failing))
  ∧ (url_controller.redirect_to_original code ip ua now
       (run history (fresh_world failing))).1
    ≠ Raise (HTTPException HTTP_410_GONE "URL has been deactivated").
Proof.
  pose proof (run_inv history _ (fresh_world_inv failing)) as Hinv.
  split; [apply Hinv|].
  pose proof (redirect_not_deactivated code ip ua now _ Hinv) as Hno.
  unfold url_controller.redirect_to_original, Session.get_db.
  destruct (URLService.get_original_url code ip ua now _) as [[v|e|] w1];
    [by destruct (Session.commit_fails _ _)|exact Hno|by simpl].
Qed.

(** *** Recording a click, on the worlds the service reaches *)

Lemma lookup_miss `{PyLib} code w :
  faulty (redis w) GET = false →
  keys (redis w) !! CacheService.generate_url_key code = None →
  URLService.get_original_url_lookup code w
  = match rows_with_code w code with
    | [] => (Raise (HTTPException HTTP_404_NOT_FOUND "URL not found"), w)
    | [(_, u)] =>
        (Return (PStr (original_url u), URLService.opt_bool (is_active u),
                 URLService.opt_datetime (expires_at u)), w)
    | _ => (Raise MultipleResultsFound, w)
    end.
Proof.
  intros Hget Hkey. unfold URLService.get_original_url_lookup. unfold bind at 1.
  rewrite get_cached_url_spec, Hget, Hkey. cbn [truthy]. unfold bind at 1.
  rewrite rows_with_code_select. unfold bind at 1.
  unfold lift, Session.scalar_one_or_none. cbn [Session.rows].
  by destruct (rows_with_code w code) as [|[id u] [|]].
Qed.

Lemma rows_with_code_only w code id u :
  rows_with_code w code = [(id, u)] →
  urls (db w) !! id = Some u ∧ short_code u = code
  ∧ ∀ id' u', urls (db w) !! id' = Some u' → short_code u' = code → id' = id.
Proof.
  intros Hrows.
  assert ((id, u) ∈ rows_with_code w code) as Hin by (rewrite Hrows; set_solver).
  apply rows_with_code_elem in Hin as [Hu Hcode]. repeat split; [done|done|].
  intros id' u' Hu' Hcode'.
  assert ((id', u') ∈ rows_with_code w code) as Hin' by by apply rows_with_code_elem.
  rewrite Hrows in Hin'. apply list_elem_of_singleton in Hin'. congruence.
Qed.


(** * Worked examples, counterexamples and witnesses *)

(** The example set has one hundred members. *)
Example hundred_size : size hundred_requests = 100%nat.
Proof. vm_compute. reflexivity. Qed.

(** C1, at the failing input: the default limiter (100 per hour), one hundred
    requests recorded in the last hundred seconds; the next check returns and
    the set is as before. *)
Example limit_reached_not_rejected :
  check_rate_limit rate_limiter "1.2.3.4" "create_url" 1100000000
    (window_world hundred_requests)
  = (Return tt, window_world hundred_requests).
Proof. vm_compute. reflexivity. Qed.

(** C9, counterexample: window 60, limit 1, the set holds one member scored
    100 and the check runs at second 160, so [T - W = 100].  The member is
    gone after the check, and the request was let in and recorded. *)
Lemma boundary_member_is_trimmed :
  let self := {| requests := 1; window := 60 |} in
  let w := window_world {[ "100" := 100 ]} in
  let key := "rate_limit:1.2.3.4:create_url" in
  time_time 160000000 - window self = 100
  ∧ zset_at w key !! "100" = Some 100
  ∧ zset_at (check_rate_limit self "1.2.3.4" "create_url" 160000000 w).2 key
    = {[ "160" := 160 ]}.
Proof. vm_compute. split; [reflexivity|]. split; reflexivity. Qed.

(** C9, witness: the same check. *)
Lemma trim_is_inclusive_witness :
  let self := {| requests := 1; window := 60 |} in
  let w := window_world {[ "100" := 100 ]} in
  let key := "rate_limit:1.2.3.4:create_url" in
  no_faults w ∧ zset_or_absent w key ∧ 0 < window self
  ∧ zset_at (check_rate_limit self "1.2.3.4" "create_url" 160000000 w).2 key
    = if Z.of_nat (size (filter (fun p : string * Z =>
                                   ¬ (0 ≤ p.2 ∧ p.2 ≤ time_time 160000000 - window self))
                                (zset_at w key))) <? requests self
      then <[pretty (time_time 160000000) := time_time 160000000]>
             (filter (fun p : string * Z =>
                        ¬ (0 ≤ p.2 ∧ p.2 ≤ time_time 160000000 - window self))
                     (zset_at w key))
      else filter (fun p : string * Z =>
                     ¬ (0 ≤ p.2 ∧ p.2 ≤ time_time 160000000 - window self))
                  (zset_at w key).
Proof.
  intros self w key.
  assert (no_faults w) as H1 by (intros c; reflexivity).
  assert (zset_or_absent w key) as H2 by exact I.
  assert (0 < window self) as H3 by reflexivity.
  split; [exact H1|]. split; [exact H2|]. split; [exact H3|].
  exact (trim_is_inclusive self "1.2.3.4" "create_url" 160000000 w H1 H2 H3).
Defined.

(** C2, at the failing input: caching the entry of promo1 on an empty cache and
    reading it back is a miss. *)
Example round_trip_misses :
  (CacheService.cache_url (H := python_lib) "promo1"
     (URLService.url_data_dict (H := python_lib) (example_link None)) ;;;
   CacheService.get_cached_url (H := python_lib) "promo1") (fresh_world healthy)
  = (Return PNone, fresh_world healthy).
Proof. vm_compute. reflexivity. Qed.

(** C3, witness: the request of the scenario (no alias, thirty days) on a fresh
    deployment, followed for a thousand iterations. *)
Lemma create_without_alias_hangs_witness :
  truthy_str (create_custom_alias page_request) = false
  ∧ validators_url (PyLib := python_lib) (create_original_url page_request) = true
  ∧ (URLService.create_short_url (H := python_lib) 1000 (fun n => n) page_request
       "1.2.3.4" new_year (fresh_world healthy)).1 = Hang.
Proof.
  split; [reflexivity|]. split; [reflexivity|].
  apply (create_without_alias_hangs (H := python_lib)); reflexivity.
Defined.

(** C4, witness: renaming promo1 to newname. *)
Lemma update_with_alias_raises_NameError_witness :
  rows_with_code (world_with_link healthy None) "promo1" = [(1, example_link None)]
  ∧ truthy_str (update_custom_alias rename_request) = true
  ∧ URLService.update_url "promo1" rename_request new_year (world_with_link healthy None)
    = (Raise (NameError "db"), world_with_link healthy None).
Proof.
  assert (rows_with_code (world_with_link healthy None) "promo1" = [(1, example_link None)])
    as H1 by (vm_compute; reflexivity).
  split; [exact H1|]. split; [reflexivity|].
  apply (update_with_alias_raises_NameError _ _ _ _ 1 (example_link None) H1). reflexivity.
Defined.

(** C5, counterexample: the link expires at the very instant of the request,
    and the redirect returns its URL. *)
Lemma expiring_now_still_redirects :
  (url_controller.redirect_to_original (H := python_lib) "promo1" "9.9.9.9" (Some "UA")
     new_year (world_with_link healthy (Some expires_now))).1
  = Return (PStr "https://example.com/page").
Proof. vm_compute. reflexivity. Qed.

(** C5, witness: the same link, one microsecond later and at the instant of
    its expiry. *)
Lemma expired_when_strictly_past_witness :
  let w := world_with_link healthy (Some expires_now) in
  URLService.get_original_url_lookup (H := python_lib) "promo1" w
    = (Return (PStr "https://example.com/page", PBool true, PDatetime expires_now), w)
  ∧ denotes (H := python_lib) (PDatetime expires_now) expires_now
  ∧ utc_instant expires_now < new_year + 1
  ∧ URLService.get_original_url (H := python_lib) "promo1" "9.9.9.9" (Some "UA")
      (new_year + 1) w
    = (Raise (HTTPException HTTP_410_GONE "URL has expired"), w)
  ∧ new_year ≤ utc_instant expires_now
  ∧ URLService.get_original_url (H := python_lib) "promo1" "9.9.9.9" (Some "UA")
      new_year w
    = (URLService._track_click "promo1" "9.9.9.9" (Some "UA") new_year ;;;
       ret (PStr "https://example.com/page")) w.
Proof.
  intros w.
  assert (URLService.get_original_url_lookup (H := python_lib) "promo1" w
          = (Return (PStr "https://example.com/page", PBool true, PDatetime expires_now), w))
    as H1 by (vm_compute; reflexivity).
  assert (utc_instant expires_now < new_year + 1) as H3 by (vm_compute; reflexivity).
  assert (new_year ≤ utc_instant expires_now) as H4 by (vm_compute; discriminate).
  split; [exact H1|]. split; [reflexivity|]. split; [exact H3|].
  split.
  { exact (proj1 (expired_when_strictly_past (H := python_lib) "promo1" "9.9.9.9"
                    (Some "UA") (new_year + 1) w _ _ _ w expires_now H1 eq_refl) H3). }
  split; [exact H4|].
  exact (proj1 (proj2 (proj2 (expired_when_strictly_past (H := python_lib) "promo1"
                                "9.9.9.9" (Some "UA") new_year w _ _ _ w expires_now
                                H1 eq_refl) H4)) eq_refl).
Defined.

(** C6, counterexample: the table holds the active link promo1 and GET fails;
    the redirect ends with the backend's error instead of falling back to the
    table. *)
Lemma failed_read_fails_the_redirect :
  url_controller.redirect_to_original (H := python_lib) "promo1" "9.9.9.9" (Some "UA")
    new_year (world_with_link (failing_only GET) None)
  = (Raise RedisError, world_with_link (failing_only GET) None).
Proof. vm_compute. reflexivity. Qed.

(** C8, counterexample: the payload of ghost is the text oops; reading it
    raises the decoder's error. *)
Lemma malformed_payload_raises :
  CacheService.get_cached_url (H := python_lib) "ghost" (cached_only_world "oops")
  = (Raise JSONDecodeError, cached_only_world "oops").
Proof. vm_compute. reflexivity. Qed.

(** C6, witness: the link promo1 with GET, INCR and DEL failing in turn. *)
Lemma cache_failures_reach_the_client_witness :
  let link := example_link None in
  let found := (PStr "https://example.com/page", PBool true, PNone) in
  let w_get := world_with_link (failing_only GET) None in
  let w_incr := world_with_link (failing_only INCR) None in
  let w_del := world_with_link (failing_only DEL) None in
  (faulty (redis w_get) GET = true
   ∧ url_controller.redirect_to_original (H := python_lib) "promo1" "9.9.9.9" (Some "UA")
       new_year w_get = (Raise RedisError, w_get))
  ∧ (faulty (redis w_incr) INCR = true
     ∧ URLService.get_original_url_lookup (H := python_lib) "promo1" w_incr
       = (Return found, w_incr)
     ∧ URLService.get_original_url_check (H := python_lib) found.1.2 found.2 new_year w_incr
       = (Return tt, w_incr)
     ∧ rows_with_code w_incr "promo1" = [(1, link)]
     ∧ is_Some (clicks link)
     ∧ url_controller.redirect_to_original (H := python_lib) "promo1" "9.9.9.9" (Some "UA")
         new_year w_incr = (Raise RedisError, w_incr))
  ∧ (faulty (redis w_del) DEL = true
     ∧ rows_with_code w_del "promo1" = [(1, link)]
     ∧ truthy_str (update_custom_alias extend_request) = false
     ∧ url_controller.update_short_url "promo1" extend_request new_year w_del
       = (Raise RedisError, w_del)
     ∧ url_controller.delete_short_url "promo1" w_del = (Raise RedisError, w_del)).
Proof.
  intros link found w_get w_incr w_del.
  assert (rows_with_code w_incr "promo1" = [(1, link)]) as Hrows_incr
    by (vm_compute; reflexivity).
  assert (rows_with_code w_del "promo1" = [(1, link)]) as Hrows_del
    by (vm_compute; reflexivity).
  assert (URLService.get_original_url_lookup (H := python_lib) "promo1" w_incr
          = (Return found, w_incr)) as Hlook by (vm_compute; reflexivity).
  assert (URLService.get_original_url_check (H := python_lib) found.1.2 found.2 new_year w_incr
          = (Return tt, w_incr)) as Hcheck by (vm_compute; reflexivity).
  split; [|split].
  - split; [reflexivity|].
    exact (proj1 (cache_failures_reach_the_client (H := python_lib) "promo1" "9.9.9.9"
                    (Some "UA") new_year extend_request w_get 1 link) eq_refl).
  - split; [reflexivity|]. split; [exact Hlook|]. split; [exact Hcheck|].
    split; [exact Hrows_incr|]. split; [by exists 5|].
    exact (proj1 (proj2 (cache_failures_reach_the_client (H := python_lib) "promo1"
                           "9.9.9.9" (Some "UA") new_year extend_request w_incr 1 link))
             eq_refl found Hlook Hcheck Hrows_incr (ex_intro _ 5 eq_refl)).
  - split; [reflexivity|]. split; [exact Hrows_del|]. split; [reflexivity|]. split.
    + exact (proj1 (proj2 (proj2 (cache_failures_reach_the_client (H := python_lib)
                 "promo1" "9.9.9.9" (Some "UA") new_year extend_request w_del 1 link)))
               eq_refl Hrows_del eq_refl).
    + exact (proj2 (proj2 (proj2 (cache_failures_reach_the_client (H := python_lib)
                 "promo1" "9.9.9.9" (Some "UA") new_year extend_request w_del 1 link)))
               eq_refl Hrows_del).
Defined.


(** The commit of a redirect whose count leaves the range of the column is
    refused: the request ends in DBAPIError and neither the count nor the
    click row is stored. *)
Example redirect_past_the_column_range_rolls_back :
  let w := world_with_row saturated_link in
  let r := url_controller.redirect_to_original (H := python_lib) "promo1" "9.9.9.9"
             (Some "UA") new_year w in
  r.1 = Raise DBAPIError ∧ db r.2 = db w.
Proof. vm_compute. split; reflexivity. Qed.

(** C8, witness: the well-formed entry of ghost. *)
Lemma get_cached_url_decodes_witness :
  let w := cached_only_world ghost_payload in
  faulty (redis w) GET = false
  ∧ keys (redis w) !! CacheService.generate_url_key "ghost"
    = Some {| value := RString ghost_payload; ttl := Some 3600 |}
  ∧ ghost_payload ≠ ""
  ∧ CacheService.get_cached_url (H := python_lib) "ghost" w
    = (json_loads (PyLib := python_lib) ghost_payload, w).
Proof.
  intros w.
  assert (keys (redis w) !! CacheService.generate_url_key "ghost"
          = Some {| value := RString ghost_payload; ttl := Some 3600 |}) as H2
    by (vm_compute; reflexivity).
  assert (ghost_payload ≠ "") as H3 by discriminate.
  split; [reflexivity|]. split; [exact H2|]. split; [exact H3|].
  exact (proj2 (proj2 (get_cached_url_decodes (H := python_lib) "ghost" w eq_refl))
           ghost_payload (Some 3600) H2 H3).
Defined.

(** The entry that the payload of ghost decodes to. *)
Example well_formed_payload_is_decoded :
  CacheService.get_cached_url (H := python_lib) "ghost" (cached_only_world ghost_payload)
  = (Return (PDict [("original_url", PStr "https://example.com/page");
                    ("is_active", PBool true); ("expires_at", PNone)]),
     cached_only_world ghost_payload).
Proof. vm_compute. reflexivity. Qed.

(** * Further properties of the code *)

(** *** Short codes and cache keys *)

Lemma secrets_choice_alphanumeric n : is_alphanumeric (secrets_choice n) = true.
Proof.
  unfold secrets_choice.
  assert (n mod 62 < 62)%nat as Hlt by (apply Nat.mod_upper_bound; lia).
  generalize dependent (n mod 62)%nat. intros k Hk.
  do 62 (destruct k as [|k]; [reflexivity|]). lia.
Qed.

(** X1: [generate_short_code] returns a code of exactly [length] characters,
    each of them an ASCII letter or a digit, whatever the draws of the
    generator. *)
Theorem generate_short_code_alphanumeric rand pos length :
  String.length (generate_short_code rand pos length) = length
  ∧ all_chars is_alphanumeric (generate_short_code rand pos length) = true.
Proof.
  revert pos. induction length as [|n IH]; intros pos; [done|].
  cbn [generate_short_code String.length all_chars].
  destruct (IH (S pos)) as [-> ->]. by rewrite secrets_choice_alphanumeric.
Qed.

Lemma append_cancel_r t s1 s2 : s1 +:+ t = s2 +:+ t → s1 = s2.
Proof.
  assert (∀ a b, String.length (a +:+ b) = (String.length a + String.length b)%nat) as Hlen.
  { intros a b. induction a as [|c a IH]; [done|].
    change (String.length (String c a +:+ b)) with (S (String.length (a +:+ b))).
    by rewrite IH. }
  revert s2. induction s1 as [|c s1 IH]; intros [|c' s2] Heq.
  - done.
  - apply (f_equal String.length) in Heq. rewrite !Hlen in Heq. cbn in Heq. lia.
  - apply (f_equal String.length) in Heq. rewrite !Hlen in Heq. cbn in Heq. lia.
  - change (String c (s1 +:+ t) = String c' (s2 +:+ t)) in Heq.
    injection Heq as -> Heq. f_equal. by apply IH.
Qed.

(** X2: the three key generators of the cache service never produce the same
    key for two different purposes (link entry, click counter, rate-limit
    record), and within a namespace different codes, or different clients of
    one endpoint, get different keys. *)
Theorem cache_keys_are_namespaced :
  (∀ c c', CacheService.generate_url_key c = CacheService.generate_url_key c' → c = c')
  ∧ (∀ c c', CacheService.generate_analytics_key c = CacheService.generate_analytics_key c'
             → c = c')
  ∧ (∀ ip ip' endpoint,
       CacheService.generate_rate_limit_key ip endpoint
       = CacheService.generate_rate_limit_key ip' endpoint → ip = ip')
  ∧ (∀ c c', CacheService.generate_url_key c ≠ CacheService.generate_analytics_key c')
  ∧ (∀ c ip endpoint,
       CacheService.generate_url_key c ≠ CacheService.generate_rate_limit_key ip endpoint)
  ∧ (∀ c ip endpoint,
       CacheService.generate_analytics_key c
       ≠ CacheService.generate_rate_limit_key ip endpoint).
Proof.
  repeat split; try done.
  - intros c c' Heq. by injection Heq.
  - intros c c' Heq. by injection Heq.
  - intros ip ip' endpoint Heq. injection Heq as Heq.
    exact (append_cancel_r (":" +:+ endpoint) ip ip' Heq).
Qed.

(** *** What a check of the rate limiter leaves alone *)

Lemma triple_call_keeps {A} (f : Redis → res A * Redis) (P : World → Prop) :
  (∀ w rd, P w → (∃ r, f (redis w) = (r, rd)) → P {| db := db w; redis := rd |}) →
  triple P (RedisCache.call f) (fun _ => P) P.
Proof.
  intros Hf w Hw. unfold RedisCache.call.
  destruct (f (redis w)) as [r rd] eqn:Ef.
  assert (P {| db := db w; redis := rd |}) as HP by (apply Hf; eauto).
  by destruct r.
Qed.

Lemma check_rate_limit_frame self ip endpoint now other w :
  other ≠ "rate_limit:" +:+ ip +:+ ":" +:+ endpoint →
  keys (redis (check_rate_limit self ip endpoint now w).2) !! other
  = keys (redis w) !! other.
Proof.
  intros Hne.
  set (P := fun w' : World => keys (redis w') !! other = keys (redis w) !! other).
  assert (triple P (check_rate_limit self ip endpoint now) (fun _ => P) P) as Ht.
  { unfold check_rate_limit.
    apply triple_try_except with (E := P); [|intros e; apply triple_ret|done].
    eapply triple_bind.
    { apply triple_call_keeps. intros w0 rd Hw0 [r Hr]. unfold P in *. cbn. rewrite <- Hw0.
      revert Hr. unfold RedisServer.zremrangebyscore, RedisServer.run.
      repeat case_match; intros; simplify_eq/=;
        rewrite ?lookup_delete_ne, ?lookup_insert_ne; done. }
    intros ?. eapply triple_bind.
    { apply triple_call_keeps. intros w0 rd Hw0 [r Hr]. unfold P in *. cbn. rewrite <- Hw0.
      revert Hr. unfold RedisServer.zcard, RedisServer.run.
      repeat case_match; intros; simplify_eq/=; done. }
    intros n. eapply triple_bind.
    { instantiate (1 := fun _ => P).
      destruct (n >=? requests self); [apply triple_raise|apply triple_ret]. }
    intros ?. eapply triple_bind.
    { apply triple_call_keeps. intros w0 rd Hw0 [r Hr]. unfold P in *. cbn. rewrite <- Hw0.
      revert Hr. unfold RedisServer.zadd, RedisServer.run.
      repeat case_match; intros; simplify_eq/=; rewrite ?lookup_insert_ne; done. }
    intros ?. apply triple_call_keeps. intros w0 rd Hw0 [r Hr]. unfold P in *. cbn.
    rewrite <- Hw0. revert Hr. unfold RedisServer.expire, RedisServer.run.
    repeat case_match; intros; simplify_eq/=;
      rewrite ?lookup_delete_ne, ?lookup_insert_ne; done. }
  specialize (Ht w eq_refl).
  by destruct (check_rate_limit self ip endpoint now w) as [[[]|e|] w'].
Qed.

(** X3: a check changes no table and no key but its own
    [rate_limit:<ip>:<endpoint>]; in particular the record of another client
    on the same endpoint stays as it was, whatever the state of the backend. *)
Theorem check_rate_limit_is_per_client self ip endpoint now w :
  let w' := (check_rate_limit self ip endpoint now w).2 in
  db w' = db w
  ∧ (∀ other, other ≠ CacheService.generate_rate_limit_key ip endpoint →
       keys (redis w') !! other = keys (redis w) !! other)
  ∧ (∀ ip', ip' ≠ ip →
       keys (redis w') !! CacheService.generate_rate_limit_key ip' endpoint
       = keys (redis w) !! CacheService.generate_rate_limit_key ip' endpoint).
Proof.
  cbn zeta. split; [|split].
  - by destruct (check_rate_limit_returns self ip endpoint now w) as (w' & -> & ? & _).
  - intros other Hne. by apply check_rate_limit_frame.
  - intros ip' Hne. apply check_rate_limit_frame.
    intros Heq. apply Hne. injection Heq as Heq.
    exact (append_cancel_r (":" +:+ endpoint) ip' ip Heq).
Qed.

(** *** Two checks in one second *)

Lemma expire_keeps key t w :
  no_faults w → 0 < t → zset_or_absent w key →
  ∃ w', RedisCache.expire key t w = (Return tt, w')
        ∧ zset_at w' key = zset_at w key
        ∧ no_faults w' ∧ zset_or_absent w' key.
Proof.
  intros Hnf Ht. unfold zset_at, zset_or_absent, no_faults in *. run_redis.
  destruct w as [d [k f]]; simpl in *. rewrite Hnf.
  destruct (k !! key) as [[v t']|] eqn:Ek.
  - assert ((t <=? 0) = false) as -> by lia. intros Hz.
    eexists; split; [done|]. simpl. rewrite lookup_insert_eq. simpl. by destruct v.
  - intros _. eexists; split; [done|]. simpl. by rewrite Ek.
Qed.

Lemma check_rate_limit_healthy self ip endpoint now w :
  let key := "rate_limit:" +:+ ip +:+ ":" +:+ endpoint in
  let T := time_time now in
  let kept := filter (RedisServer.outside 0 (T - window self)) (zset_at w key) in
  no_faults w → zset_or_absent w key → 0 < window self →
  ∃ w', check_rate_limit self ip endpoint now w = (Return tt, w')
    ∧ zset_at w' key
      = (if Z.of_nat (size kept) <? requests self then <[pretty T := T]> kept else kept)
    ∧ no_faults w' ∧ zset_or_absent w' key.
Proof.
  intros key T kept Hnf Hz Hw.
  unfold check_rate_limit, try_except, bind. fold key T.
  destruct (zremrangebyscore_spec key 0 (T - window self) w Hnf Hz)
    as (w1 & -> & Hset1 & Hnf1 & Hz1).
  fold kept in Hset1.
  rewrite (zcard_spec key w1 Hnf1 Hz1), Hset1.
  destruct (Z.of_nat (size kept) >=? requests self) eqn:Hcount.
  - assert ((Z.of_nat (size kept) <? requests self) = false) as -> by lia.
    exists w1. by repeat split.
  - assert ((Z.of_nat (size kept) <? requests self) = true) as -> by lia.
    unfold ret at 1.
    destruct (zadd_spec key (pretty T) T w1 Hnf1 Hz1) as (w2 & -> & Hset2 & Hnf2 & Hz2).
    destruct (expire_keeps key (window self) w2 Hnf2 Hw Hz2) as (w3 & -> & Hset3 & Hnf3 & Hz3).
    exists w3. repeat split; try done. by rewrite Hset3, Hset2, Hset1.
Qed.

(** X4: on a healthy backend and with a positive window, a second check of
    the same client in the same second leaves the recorded set as the first
    check left it: the member is the second itself ([str(current)]), so the
    requests of one second count once at most. *)
Theorem same_second_requests_count_once self ip endpoint now now' w :
  let key := CacheService.generate_rate_limit_key ip endpoint in
  no_faults w → zset_or_absent w key → 0 < window self →
  time_time now' = time_time now →
  let w1 := (check_rate_limit self ip endpoint now w).2 in
  zset_at (check_rate_limit self ip endpoint now' w1).2 key = zset_at w1 key.
Proof.
  intros key Hnf Hz Hw Hsame. subst key.
  unfold CacheService.generate_rate_limit_key in *.
  destruct (check_rate_limit_healthy self ip endpoint now w Hnf Hz Hw)
    as (w1 & E1 & Hset1 & Hnf1 & Hz1).
  rewrite E1. cbn [snd].
  destruct (check_rate_limit_healthy self ip endpoint now' w1 Hnf1 Hz1 Hw)
    as (w2 & E2 & Hset2 & _).
  rewrite E2. cbn [snd]. rewrite Hsame in Hset2.
  set (key := "rate_limit:" +:+ ip +:+ ":" +:+ endpoint) in *.
  set (T := time_time now) in *.
  set (out := RedisServer.outside 0 (T - window self)) in *.
  assert (filter out (filter out (zset_at w key)) = filter out (zset_at w key)) as Hidem.
  { by apply map_filter_filter_r. }
  assert (filter out (zset_at w1 key) = zset_at w1 key) as Hkept.
  { rewrite Hset1.
    destruct (Z.of_nat (size (filter out (zset_at w key))) <? requests self);
      [|exact Hidem].
    rewrite map_filter_insert_True; [by rewrite Hidem|].
    unfold out, RedisServer.outside. cbn. lia. }
  rewrite Hset2, Hkept.
  destruct (Z.of_nat (size (zset_at w1 key)) <? requests self) eqn:Hroom; [|done].
  revert Hroom. rewrite Hset1.
  destruct (Z.of_nat (size (filter out (zset_at w key))) <? requests self) eqn:Hfirst.
  - intros _. by rewrite insert_insert_eq.
  - by rewrite Hfirst.
Qed.

(** *** Invalidating a cache entry *)

Lemma delete_absent_key key w :
  faulty (redis w) DEL = false → keys (redis w) !! key = None →
  RedisCache.delete_key key w = (Return tt, w).
Proof.
  intros Hdel Hk. rewrite delete_key_spec, Hdel. f_equal.
  destruct w as [d [k f]]; cbn in *. unfold RedisServer.with_keys. cbn.
  by rewrite delete_id.
Qed.

(** X5: with DEL and GET available, reading a code right after its entry was
    invalidated is a miss, whatever the entry held; and invalidating a code
    that has no entry returns normally and changes nothing. *)
Theorem invalidated_entry_is_a_miss `{PyLib} code w :
  faulty (redis w) DEL = false → faulty (redis w) GET = false →
  (∃ w', (CacheService.delete_cached_url code ;;; CacheService.get_cached_url code) w
         = (Return PNone, w')
         ∧ keys (redis w') = delete (CacheService.generate_url_key code) (keys (redis w))
         ∧ db w' = db w)
  ∧ (keys (redis w) !! CacheService.generate_url_key code = None →
     CacheService.delete_cached_url code w = (Return tt, w)).
Proof.
  intros Hdel Hget. split.
  - unfold bind, CacheService.delete_cached_url. rewrite delete_key_spec, Hdel.
    rewrite get_cached_url_spec. cbn. rewrite Hget, lookup_delete_eq.
    eexists. split; [done|]. by split.
  - intros Hk. by apply delete_absent_key.
Qed.

(** *** Creating a link *)

Lemma select_none where_ w :
  (∀ id r, urls (db w) !! id = Some r → where_ id r = false) →
  Session.execute_select where_ w = (Return {| Session.rows := [] |}, w).
Proof.
  intros Hno. rewrite execute_select_returns. f_equal. f_equal. f_equal.
  apply map_to_list_empty_iff, map_empty_filter.
  intros id r Hr. cbn. by rewrite (Hno id r Hr).
Qed.

Lemma select_one where_ w id r :
  urls (db w) !! id = Some r → where_ id r = true →
  (∀ id' r', urls (db w) !! id' = Some r' → where_ id' r' = true → id' = id) →
  Session.execute_select where_ w = (Return {| Session.rows := [(id, r)] |}, w).
Proof.
  intros Hr Hyes Honly. rewrite execute_select_returns. f_equal. f_equal. f_equal.
  rewrite <- map_to_list_singleton. f_equal.
  apply map_eq. intros i. apply option_eq. intros x.
  rewrite map_lookup_filter_Some, lookup_singleton_Some. cbn. split.
  - intros [Hx Hw]. pose proof (Honly i x Hx Hw) as ->. split; [done|]. congruence.
  - intros [<- <-]. by split.
Qed.

Lemma select_some where_ w id r :
  urls (db w) !! id = Some r → where_ id r = true →
  ∃ x rest, Session.execute_select where_ w = (Return {| Session.rows := x :: rest |}, w).
Proof.
  intros Hr Hyes. rewrite execute_select_returns.
  destruct (map_to_list _) as [|x rest] eqn:Hl; [|eauto].
  apply map_to_list_empty_iff in Hl.
  assert (filter (fun kv : Z * URL => where_ kv.1 kv.2 = true) (urls (db w)) !! id = Some r)
    as Hin by by apply map_lookup_filter_Some.
  rewrite Hl in Hin. by rewrite lookup_empty in Hin.
Qed.

Lemma create_with_alias_spec `{PyLib} fuel rand url_data ip now w alias :
  validators_url (create_original_url url_data) = true →
  create_custom_alias url_data = Some alias → alias ≠ "" →
  (∀ id r, urls (db w) !! id = Some r →
           short_code r ≠ alias ∧ custom_alias r ≠ Some alias) →
  let id := Session.next_id (urls (db w)) in
  let row := {| original_url := create_original_url url_data;
                short_code := alias;
                custom_alias := Some alias;
                created_at := Some (datetime_now_utc now);
                expires_at := match create_expiration_days url_data with
                              | Some n => if n =? 0 then None
                                          else Some (add_days (datetime_utcnow now) n)
                              | None => None
                              end;
                is_active := Some true;
                clicks := Some 0 |} in
  URLService.create_short_url fuel rand url_data ip now w
  = (Return (id, row),
     {| db := {| urls := <[id := row]> (urls (db w)); click_rows := click_rows (db w) |};
        redis := redis (check_rate_limit rate_limiter ip "create_url" now w).2 |}).
Proof.
  intros Hvalid Halias Hne Hfree id row.
  unfold URLService.create_short_url. unfold bind at 1.
  destruct (check_rate_limit_returns rate_limiter ip "create_url" now w)
    as (w1 & E1 & Hdb & _).
  rewrite E1. cbn [snd]. rewrite Hvalid. cbn [negb]. unfold bind at 1. unfold ret at 1.
  assert (truthy_str (create_custom_alias url_data) = true) as Htruthy.
  { rewrite Halias. cbn. by apply negb_true_iff, String.eqb_neq. }
  rewrite Htruthy, Halias. cbn [default].
  unfold bind at 1. unfold bind at 1.
  rewrite select_none; cycle 1.
  { intros i r Hr. rewrite Hdb in Hr. destruct (Hfree i r Hr) as [Hc Ha].
    apply orb_false_iff. split; [by apply String.eqb_neq|by apply bool_decide_eq_false]. }
  unfold bind at 1. unfold lift, Session.scalar_one_or_none. cbn [Session.rows Session.object_bool].
  unfold ret at 1. unfold bind at 1. unfold ret at 1. unfold bind at 1.
  unfold Session.add_flush. rewrite Hdb.
  rewrite bool_decide_eq_false_2; cycle 1.
  { intros (i & r & Hr & Hcol). destruct (Hfree i r Hr) as [Hc Ha].
    destruct Hcol as [Hcol|[_ Hcol]]; revert Hcol; unfold set_expiration;
      destruct (create_expiration_days url_data) as [n|]; cbn;
      try destruct (negb (n =? 0)); cbn; congruence. }
  unfold bind. rewrite cache_url_skips. unfold ret. f_equal.
  - f_equal. f_equal. subst row. unfold set_expiration.
    destruct (create_expiration_days url_data) as [n|]; cbn; [|done].
    by destruct (n =? 0).
  - f_equal. f_equal. f_equal. subst row. unfold set_expiration.
    destruct (create_expiration_days url_data) as [n|]; cbn; [|done].
    by destruct (n =? 0).
Qed.

(** X6: a creation request with a valid URL and a custom alias that no row
    carries (as short code or as alias) returns the new row: stored under an
    id no row held, with the alias as its short code, active, with no click,
    expiring [expiration_days] days after now (never, when the days are None
    or 0); no other row and no click row changes. *)
Theorem create_with_free_alias `{PyLib} fuel rand url_data ip now w alias :
  validators_url (create_original_url url_data) = true →
  create_custom_alias url_data = Some alias → alias ≠ "" →
  (∀ id r, urls (db w) !! id = Some r →
           short_code r ≠ alias ∧ custom_alias r ≠ Some alias) →
  ∃ id row w',
    URLService.create_short_url fuel rand url_data ip now w = (Return (id, row), w')
    ∧ urls (db w) !! id = None
    ∧ urls (db w') = <[id := row]> (urls (db w))
    ∧ click_rows (db w') = click_rows (db w)
    ∧ original_url row = create_original_url url_data
    ∧ short_code row = alias ∧ custom_alias row = Some alias
    ∧ is_active row = Some true ∧ clicks row = Some 0
    ∧ expires_at row = match create_expiration_days url_data with
                       | Some n => if n =? 0 then None
                                   else Some {| wall := now + n * 86400000000;
                                                tzinfo := None |}
                       | None => None
                       end.
Proof.
  intros Hvalid Halias Hne Hfree.
  rewrite (create_with_alias_spec fuel rand url_data ip now w alias Hvalid Halias Hne Hfree).
  do 3 eexists. split; [reflexivity|]. repeat split. apply next_id_fresh.
Qed.

Lemma select_elem where_ w rows id r :
  Session.execute_select where_ w = (Return {| Session.rows := rows |}, w) →
  urls (db w) !! id = Some r → where_ id r = true → (id, r) ∈ rows.
Proof.
  rewrite execute_select_returns. intros [= <-] Hr Hyes.
  by apply elem_of_map_to_list, map_lookup_filter_Some.
Qed.

(** X7: a creation request whose alias a row already carries, as its short
    code or as its alias, is refused and inserts nothing: with 400 "Custom
    alias already exists" when that row is the only one, and with
    MultipleResultsFound of [scalar_one_or_none] when a second row matches. *)
Theorem create_rejects_a_taken_alias `{PyLib} fuel rand url_data ip now w alias id r :
  validators_url (create_original_url url_data) = true →
  create_custom_alias url_data = Some alias → alias ≠ "" →
  urls (db w) !! id = Some r →
  short_code r = alias ∨ custom_alias r = Some alias →
  ∃ e w',
    URLService.create_short_url fuel rand url_data ip now w = (Raise e, w')
    ∧ db w' = db w
    ∧ (e = HTTPException HTTP_400_BAD_REQUEST "Custom alias already exists"
       ∨ e = MultipleResultsFound)
    ∧ ((∀ id' r', urls (db w) !! id' = Some r' →
                  short_code r' = alias ∨ custom_alias r' = Some alias → id' = id) →
       e = HTTPException HTTP_400_BAD_REQUEST "Custom alias already exists")
    ∧ (∀ id' r', id' ≠ id → urls (db w) !! id' = Some r' →
                 short_code r' = alias ∨ custom_alias r' = Some alias →
                 e = MultipleResultsFound).
Proof.
  intros Hvalid Halias Hne Hr Hmatch.
  unfold URLService.create_short_url. unfold bind at 1.
  destruct (check_rate_limit_returns rate_limiter ip "create_url" now w)
    as (w1 & E1 & Hdb & _).
  rewrite E1. rewrite Hvalid. cbn [negb]. unfold bind at 1. unfold ret at 1.
  assert (truthy_str (create_custom_alias url_data) = true) as Htruthy.
  { rewrite Halias. cbn. by apply negb_true_iff, String.eqb_neq. }
  rewrite Htruthy, Halias. cbn [default]. change (Datatypes.id alias) with alias.
  set (where_ := fun (_ : Z) (r0 : URL) =>
         String.eqb (short_code r0) alias || bool_decide (custom_alias r0 = Some alias)).
  assert (∀ i r0, where_ i r0 = true ↔ short_code r0 = alias ∨ custom_alias r0 = Some alias)
    as Hwhere.
  { intros i r0. unfold where_. rewrite orb_true_iff, String.eqb_eq, bool_decide_eq_true.
    done. }
  assert (where_ id r = true) as Hyes by by apply Hwhere.
  rewrite <- Hdb in Hr.
  destruct (select_some where_ w1 id r Hr Hyes) as (x & rest & Esel).
  unfold bind at 1. unfold bind at 1. rewrite Esel.
  unfold bind at 1. unfold lift, Session.scalar_one_or_none. cbn [Session.rows].
  destruct rest as [|y rest].
  - cbn. eexists _, w1. split; [done|]. split; [done|]. split; [by left|].
    split; [done|].
    intros id' r' Hne' Hr' Hmatch'. exfalso. apply Hne'.
    rewrite <- Hdb in Hr'.
    pose proof (select_elem where_ w1 _ id r Esel Hr Hyes) as Hin.
    pose proof (select_elem where_ w1 _ id' r' Esel Hr' (proj2 (Hwhere id' r') Hmatch'))
      as Hin'.
    apply list_elem_of_singleton in Hin, Hin'. congruence.
  - eexists _, w1. split; [done|]. split; [done|]. split; [by right|].
    split; [|done].
    intros Honly. exfalso.
    assert (Session.execute_select where_ w1
            = (Return {| Session.rows := [(id, r)] |}, w1)) as Eone.
    { apply select_one; [done|done|].
      intros id' r' Hr' Hw'. rewrite Hdb in Hr'. apply (Honly id' r' Hr').
      by apply (Hwhere id'). }
    rewrite Esel in Eone. by injection Eone.
Qed.

(** X8: a creation request whose URL the validator refuses ends in 400
    "Invalid URL provided" and stores nothing; the rate limiter has run
    before, so the refused request is recorded like any other. *)
Theorem create_rejects_an_invalid_url `{PyLib} fuel rand url_data ip now w :
  validators_url (create_original_url url_data) = false →
  URLService.create_short_url fuel rand url_data ip now w
  = (Raise (HTTPException HTTP_400_BAD_REQUEST "Invalid URL provided"),
     (check_rate_limit rate_limiter ip "create_url" now w).2)
  ∧ db (check_rate_limit rate_limiter ip "create_url" now w).2 = db w.
Proof.
  intros Hvalid. unfold URLService.create_short_url. unfold bind at 1.
  destruct (check_rate_limit_returns rate_limiter ip "create_url" now w)
    as (w1 & E1 & Hdb & _).
  rewrite E1. rewrite Hvalid. by cbn.
Qed.

(** *** Redirecting *)

Lemma rows_with_code_none w code :
  (∀ id u, urls (db w) !! id = Some u → short_code u ≠ code) →
  rows_with_code w code = [].
Proof.
  intros Hno. apply map_to_list_empty_iff, map_empty_filter.
  intros id u Hu. cbn. rewrite String.eqb_eq. exact (Hno id u Hu).
Qed.

(** X9: with GET available and no cache entry for the code, a redirect for a
    code that no row carries ends in 404 "URL not found" and records
    nothing. *)
Theorem redirect_of_unknown_code_is_404 `{PyLib} code ip ua now w :
  faulty (redis w) GET = false →
  keys (redis w) !! CacheService.generate_url_key code = None →
  (∀ id u, urls (db w) !! id = Some u → short_code u ≠ code) →
  URLService.get_original_url code ip ua now w
  = (Raise (HTTPException HTTP_404_NOT_FOUND "URL not found"), w).
Proof.
  intros Hget Hkey Hno. unfold URLService.get_original_url. unfold bind at 1.
  by rewrite (lookup_miss code w Hget Hkey), (rows_with_code_none w code Hno).
Qed.

(** X10: a redirect whose lookup (cache or table) yields an entry with a
    false [is_active] ends in 410 "URL has been deactivated" before any
    click is recorded; in particular for the row of the code, read from the
    table, when its [is_active] is False or NULL. *)
Theorem redirect_of_inactive_link_is_410 `{PyLib} code ip ua now w :
  (∀ found_url is_active expires_at w1,
     URLService.get_original_url_lookup code w
       = (Return (found_url, is_active, expires_at), w1) →
     truthy is_active = false →
     URLService.get_original_url code ip ua now w
     = (Raise (HTTPException HTTP_410_GONE "URL has been deactivated"), w))
  ∧ (∀ id u,
       faulty (redis w) GET = false →
       keys (redis w) !! CacheService.generate_url_key code = None →
       rows_with_code w code = [(id, u)] →
       is_active u ≠ Some true →
       URLService.get_original_url code ip ua now w
       = (Raise (HTTPException HTTP_410_GONE "URL has been deactivated"), w)).
Proof.
  assert (∀ found_url is_active expires_at w1,
            URLService.get_original_url_lookup code w
              = (Return (found_url, is_active, expires_at), w1) →
            truthy is_active = false →
            URLService.get_original_url code ip ua now w
            = (Raise (HTTPException HTTP_410_GONE "URL has been deactivated"), w)) as Hgen.
  { intros o a e w1 Hlook Hinactive.
    pose proof (lookup_world code w) as Hw1. rewrite Hlook in Hw1. cbn in Hw1. subst w1.
    unfold URLService.get_original_url. unfold bind at 1. rewrite Hlook.
    unfold bind at 1. unfold URLService.get_original_url_check. unfold bind at 1.
    by rewrite Hinactive. }
  split; [exact Hgen|].
  intros id u Hget Hkey Hrows Hinactive.
  eapply Hgen.
  - rewrite (lookup_miss code w Hget Hkey), Hrows. reflexivity.
  - destruct (is_active u) as [[]|]; done.
Qed.

(** *** Deleting and updating *)

(** The commit goes through when every count it sends fits the column. *)
Lemma commit_ok before after :
  (∀ id u u0, urls after !! id = Some u → urls before !! id = Some u0 →
              clicks u0 = clicks u ∨ Session.fits_integer (clicks u) = true) →
  Session.commit_fails before after = false.
Proof.
  intros Hrows. unfold Session.commit_fails. apply bool_decide_eq_false.
  intros (id & u & Hu & Hbad). apply andb_true_iff in Hbad as [Hsent Hfit].
  apply negb_true_iff in Hfit. unfold Session.sends_clicks in Hsent.
  destruct (urls before !! id) as [u0|] eqn:Hu0; [|done].
  apply negb_true_iff, bool_decide_eq_false in Hsent.
  destruct (Hrows id u u0 Hu Hu0); congruence.
Qed.

Lemma delete_url_spec code w id u :
  faulty (redis w) DEL = false → rows_with_code w code = [(id, u)] →
  URLService.delete_url code w
  = (Return tt,
     {| db := {| urls := delete id (urls (db w)); click_rows := click_rows (db w) |};
        redis := RedisServer.with_keys (redis w)
                   (delete (CacheService.generate_url_key code) (keys (redis w))) |}).
Proof.
  intros Hdel Hrows. unfold URLService.delete_url. unfold bind at 1.
  rewrite rows_with_code_select. cbn [Session.Result_bool]. unfold bind at 1.
  unfold lift, Session.scalar_one_or_none. cbn [Session.rows]. rewrite Hrows.
  unfold bind, Session.delete, CacheService.delete_cached_url.
  rewrite delete_key_spec. cbn. by rewrite Hdel.
Qed.

Lemma update_url_spec code data now w id u :
  faulty (redis w) DEL = false → rows_with_code w code = [(id, u)] →
  truthy_str (update_custom_alias data) = false →
  URLService.update_url code data now w
  = (Return (id, set_expiration u (update_expiration_days data) now),
     {| db := {| urls := <[id := set_expiration u (update_expiration_days data) now]>
                           (urls (db w));
                 click_rows := click_rows (db w) |};
        redis := RedisServer.with_keys (redis w)
                   (delete (CacheService.generate_url_key code) (keys (redis w))) |}).
Proof.
  intros Hdel Hrows Halias.
  destruct (rows_with_code_only w code id u Hrows) as (Hu & _ & _).
  unfold URLService.update_url. unfold bind at 1.
  rewrite rows_with_code_select. cbn [Session.Result_bool]. unfold bind at 1.
  unfold lift, Session.scalar_one_or_none. cbn [Session.rows].
  rewrite Hrows, Halias. unfold bind at 1. unfold ret at 1.
  unfold CacheService.delete_cached_url.
  destruct (truthy_int (update_expiration_days data)) eqn:Hdays.
  - unfold bind, Session.write, ret. cbn. rewrite delete_key_spec. cbn. by rewrite Hdel.
  - unfold bind, ret. rewrite delete_key_spec, Hdel.
    assert (set_expiration u (update_expiration_days data) now = u) as ->.
    { unfold set_expiration. destruct (update_expiration_days data); [|done].
      by rewrite Hdays. }
    rewrite insert_id by done. by destruct w as [[] ?].
Qed.

(** X11: with DEL available, deleting the code of a row removes that row and
    the cache entry [url:<code>], and nothing else: the other rows stay, and
    so does every click row, those of the deleted link included. *)
Theorem delete_removes_row_and_cache_entry code w id u :
  faulty (redis w) DEL = false → rows_with_code w code = [(id, u)] →
  ∃ w', URLService.delete_url code w = (Return tt, w')
    ∧ urls (db w') = delete id (urls (db w))
    ∧ click_rows (db w') = click_rows (db w)
    ∧ keys (redis w') = delete (CacheService.generate_url_key code) (keys (redis w)).
Proof.
  intros Hdel Hrows. rewrite (delete_url_spec code w id u Hdel Hrows).
  eexists. by repeat split.
Qed.

(** X12: after a successful delete, a redirect for the code ends in 404 "URL
    not found", also when the cache held an entry for the code before the
    delete (GET and DEL available). *)
Theorem deleted_link_is_gone `{PyLib} code ip ua now w id u :
  faulty (redis w) DEL = false → faulty (redis w) GET = false →
  rows_with_code w code = [(id, u)] →
  let w' := (url_controller.delete_short_url code w).2 in
  url_controller.delete_short_url code w = (Return tt, w')
  ∧ url_controller.redirect_to_original code ip ua now w'
    = (Raise (HTTPException HTTP_404_NOT_FOUND "URL not found"), w').
Proof.
  intros Hdel Hget Hrows.
  destruct (rows_with_code_only w code id u Hrows) as (Hu & Hcode & Honly).
  unfold url_controller.delete_short_url, Session.get_db.
  rewrite (delete_url_spec code w id u Hdel Hrows). cbn zeta.
  rewrite commit_ok; cycle 1.
  { cbn. intros id' u' u0 [_ Hu']%lookup_delete_Some Hu0. left. congruence. }
  cbn [snd]. split; [done|].
  unfold url_controller.redirect_to_original, Session.get_db.
  unfold URLService.get_original_url. unfold bind at 1.
  rewrite lookup_miss; [|done|apply lookup_delete_eq].
  rewrite rows_with_code_none; [done|].
  cbn. intros id' u' [Hne Hu']%lookup_delete_Some Hc. apply Hne. symmetry. by eapply Honly.
Qed.

(** X13: an update or a delete for a code that no row carries ends in 404
    "URL not found" and changes nothing, the cache included. *)
Theorem unknown_code_is_404_for_update_and_delete code data now w :
  (∀ id u, urls (db w) !! id = Some u → short_code u ≠ code) →
  URLService.update_url code data now w
  = (Raise (HTTPException HTTP_404_NOT_FOUND "URL not found"), w)
  ∧ URLService.delete_url code w
    = (Raise (HTTPException HTTP_404_NOT_FOUND "URL not found"), w).
Proof.
  intros Hno. pose proof (rows_with_code_none w code Hno) as Hrows.
  unfold URLService.update_url, URLService.delete_url. unfold bind.
  rewrite rows_with_code_select. cbn [Session.Result_bool].
  unfold lift, Session.scalar_one_or_none. cbn [Session.rows]. by rewrite Hrows.
Qed.

(** X14: with DEL available, an update without alias of the code of a row
    returns the row with its expiry set to [expiration_days] days after now
    (left as it was when the days are None or 0), stores it under the same
    id, and removes the cache entry [url:<code>]; short code, alias, target,
    activity and click count of the row are not changed, nor is any other
    row or any click row. *)
Theorem update_sets_expiry_and_invalidates code data now w id u :
  faulty (redis w) DEL = false → rows_with_code w code = [(id, u)] →
  truthy_str (update_custom_alias data) = false →
  ∃ u' w',
    URLService.update_url code data now w = (Return (id, u'), w')
    ∧ urls (db w') = <[id := u']> (urls (db w))
    ∧ click_rows (db w') = click_rows (db w)
    ∧ keys (redis w') = delete (CacheService.generate_url_key code) (keys (redis w))
    ∧ u' = with_expires_at u
             (match update_expiration_days data with
              | Some n => if n =? 0 then expires_at u
                          else Some {| wall := now + n * 86400000000; tzinfo := None |}
              | None => expires_at u
              end).
Proof.
  intros Hdel Hrows Halias. rewrite (update_url_spec code data now w id u Hdel Hrows Halias).
  do 2 eexists. split; [reflexivity|]. repeat split.
  unfold set_expiration. destruct (update_expiration_days data) as [n|]; cbn.
  - destruct (n =? 0); cbn; [by destruct u|done].
  - by destruct u.
Qed.

(** *** From creation to redirect *)

Lemma rows_with_code_one w code id u :
  urls (db w) !! id = Some u → short_code u = code →
  (∀ id' u', urls (db w) !! id' = Some u' → short_code u' = code → id' = id) →
  rows_with_code w code = [(id, u)].
Proof.
  intros Hu Hcode Honly.
  pose proof (select_one (fun _ r => String.eqb (short_code r) code) w id u Hu) as Hsel.
  rewrite rows_with_code_select in Hsel.
  assert ((Return {| Session.rows := rows_with_code w code |}, w)
          = (Return {| Session.rows := [(id, u)] |}, w)) as Heq.
  { apply Hsel; [by apply String.eqb_eq|].
    intros id' u' Hu' Hc. apply (Honly id' u' Hu'). by apply String.eqb_eq. }
  by injection Heq.
Qed.

Lemma track_first_click code ip ua now w id u :
  rows_with_code w code = [(id, u)] → clicks u = Some 0 →
  faulty (redis w) INCR = false →
  keys (redis w) !! CacheService.generate_analytics_key code = None →
  URLService._track_click code ip ua now w
  = (Return tt,
     {| db := {| urls := <[id := with_clicks u (Some 1)]> (urls (db w));
                 click_rows :=
                   <[Session.next_id (click_rows (db w)) :=
                       {| url_id := id; timestamp := Some (datetime_now_utc now);
                          ip_address := ip; user_agent := ua;
                          country := None; referrer := None |}]> (click_rows (db w)) |};
        redis := RedisServer.with_keys (redis w)
                   (<[CacheService.generate_analytics_key code :=
                        {| value := RString "1"; ttl := None |}]> (keys (redis w))) |}).
Proof.
  intros Hrows Hclicks Hincr Hkey. unfold URLService._track_click. unfold bind at 1.
  rewrite rows_with_code_select. unfold bind at 1.
  unfold lift, Session.scalar_one_or_none. cbn [Session.rows]. rewrite Hrows, Hclicks.
  unfold bind, Session.write, Session.add_click, CacheService.increment_click_count,
    RedisCache.increment_key, RedisCache.call, RedisServer.incr, RedisServer.run.
  cbn. rewrite Hincr. by rewrite Hkey.
Qed.

(** X15: a link created with a free alias is served by the next redirect for
    that alias, from the table: the redirect returns the submitted URL, sets
    the click count of the row to 1, inserts one click row and starts the
    analytics counter at 1.  It does so as long as [later], the time of the
    redirect, is at or before the creation time plus [expiration_days] days
    (always, when the days are None or 0), and ends in 410 "URL has expired"
    after that.  GET and INCR are available and the cache holds neither a
    link entry nor a counter for the alias. *)
Theorem created_link_redirects_until_expiry `{PyLib}
    fuel rand url_data ip now w alias ip' ua later :
  validators_url (create_original_url url_data) = true →
  create_custom_alias url_data = Some alias → alias ≠ "" →
  (∀ id r, urls (db w) !! id = Some r →
           short_code r ≠ alias ∧ custom_alias r ≠ Some alias) →
  faulty (redis w) GET = false → faulty (redis w) INCR = false →
  keys (redis w) !! CacheService.generate_url_key alias = None →
  keys (redis w) !! CacheService.generate_analytics_key alias = None →
  let w1 := (url_controller.create_short_url fuel rand url_data ip now w).2 in
  let expired :=
    match create_expiration_days url_data with
    | Some n => negb (n =? 0) && (now + n * 86400000000 <? later)
    | None => false
    end in
  if expired
  then url_controller.redirect_to_original alias ip' ua later w1
       = (Raise (HTTPException HTTP_410_GONE "URL has expired"), w1)
  else ∃ id row w2,
         urls (db w1) !! id = Some row
         ∧ url_controller.redirect_to_original alias ip' ua later w1
           = (Return (PStr (create_original_url url_data)), w2)
         ∧ urls (db w2) = <[id := with_clicks row (Some 1)]> (urls (db w1))
         ∧ size (click_rows (db w2)) = S (size (click_rows (db w)))
         ∧ keys (redis w2) !! CacheService.generate_analytics_key alias
           = Some {| value := RString "1"; ttl := None |}.
Proof.
  intros Hvalid Halias Hne Hfree Hget Hincr Hkey Hcount.
  unfold url_controller.create_short_url, Session.get_db.
  rewrite (create_with_alias_spec fuel rand url_data ip now w alias Hvalid Halias Hne Hfree).
  cbn zeta. rewrite commit_ok; cycle 1.
  { cbn. intros id' u' u0. rewrite lookup_insert.
    case_decide; [intros [= <-]; by right|intros Hu' Hu0; left; congruence]. }
  cbn [snd].
  destruct (check_rate_limit_returns rate_limiter ip "create_url" now w)
    as (w0 & E0 & _ & Hfaulty).
  pose proof (check_rate_limit_frame rate_limiter ip "create_url" now
                (CacheService.generate_url_key alias) w
                (rate_limit_key_not_url ip "create_url" alias)) as Hkey0.
  assert (CacheService.generate_analytics_key alias
          ≠ "rate_limit:" +:+ ip +:+ ":" +:+ "create_url") as Hother by done.
  pose proof (check_rate_limit_frame rate_limiter ip "create_url" now
                (CacheService.generate_analytics_key alias) w Hother) as Hcount0.
  rewrite E0 in *. cbn [snd] in *.
  rewrite Hkey in Hkey0. rewrite Hcount in Hcount0. rewrite <- Hfaulty in Hget, Hincr.
  set (id := Session.next_id (urls (db w))).
  set (expiry := match create_expiration_days url_data with
                 | Some n => if n =? 0 then None
                             else Some (add_days (datetime_utcnow now) n)
                 | None => None
                 end).
  set (row := {| original_url := create_original_url url_data; short_code := alias;
                 custom_alias := Some alias; created_at := Some (datetime_now_utc now);
                 expires_at := expiry; is_active := Some true; clicks := Some 0 |}).
  set (w1 := {| db := {| urls := <[id := row]> (urls (db w));
                         click_rows := click_rows (db w) |};
                redis := redis w0 |}).
  assert (rows_with_code w1 alias = [(id, row)]) as Hrows.
  { apply rows_with_code_one; [apply lookup_insert_eq|done|].
    intros id' u'. cbn. rewrite lookup_insert. case_decide; [done|].
    intros Hu' Hc. by destruct (Hfree id' u' Hu'). }
  assert (URLService.get_original_url_lookup alias w1
          = (Return (PStr (create_original_url url_data), PBool true,
                     URLService.opt_datetime expiry), w1)) as Hlook.
  { rewrite lookup_miss; [|done|done]. by rewrite Hrows. }
  set (expired := match create_expiration_days url_data with
                  | Some n => negb (n =? 0) && (now + n * 86400000000 <? later)
                  | None => false
                  end).
  assert (URLService.get_original_url_check (PBool true) (URLService.opt_datetime expiry)
            later w1
          = (if expired then Raise (HTTPException HTTP_410_GONE "URL has expired")
             else Return tt, w1)) as Hcheck.
  { subst expiry expired. destruct (create_expiration_days url_data) as [n|]; [|done].
    destruct (n =? 0); [done|]. cbn [negb andb URLService.opt_datetime].
    rewrite (check_expiry_spec (PBool true) _ (add_days (datetime_utcnow now) n));
      [|done|done].
    unfold utc_instant, add_days, datetime_utcnow, utc. cbn.
    by replace (now + n * 86400000000 - 0) with (now + n * 86400000000) by lia. }
  unfold url_controller.redirect_to_original, Session.get_db.
  unfold URLService.get_original_url.
  destruct expired.
  - unfold bind at 1. rewrite Hlook. unfold bind at 1. rewrite Hcheck.
    by rewrite world_eta.
  - unfold bind at 1. rewrite Hlook. unfold bind at 1. rewrite Hcheck.
    unfold bind at 1.
    rewrite (track_first_click alias ip' ua later w1 id row Hrows eq_refl Hincr Hcount0).
    unfold bind, ret. rewrite commit_ok; cycle 1.
    { cbn. intros id' u' u0. rewrite lookup_insert.
      case_decide; [intros [= <-]; by right|intros Hu' Hu0; left; congruence]. }
    exists id, row. eexists. split; [apply lookup_insert_eq|].
    split; [reflexivity|]. split; [done|]. split.
    + cbn. rewrite map_size_insert_None; [done|apply next_id_fresh].
    + cbn. apply lookup_insert_eq.
Qed.

(** *** The shape of the tables *)

Lemma store_inv_db w w' : db w' = db w → store_inv w → store_inv w'.
Proof.
  unfold store_inv, codes_unique, links_well_formed, clicks_well_formed.
  by intros ->.
Qed.

Lemma triple_store_unchanged {A} (c : M A) :
  (∀ w, db (c w).2 = db w) → triple store_inv c (fun _ => store_inv) store_inv.
Proof.
  intros Hc w Hw. specialize (Hc w).
  destruct (c w) as [[a|e|] w1]; cbn in Hc; by apply (store_inv_db w).
Qed.

Lemma call_db {A} (f : Redis → res A * Redis) w : db (RedisCache.call f w).2 = db w.
Proof. unfold RedisCache.call. by destruct (f (redis w)). Qed.

Lemma set_expiration_keeps u days now :
  short_code (set_expiration u days now) = short_code u
  ∧ custom_alias (set_expiration u days now) = custom_alias u
  ∧ clicks (set_expiration u days now) = clicks u.
Proof. unfold set_expiration. destruct days; [|done]. by destruct (truthy_int _). Qed.

Lemma store_inv_write id u u' w :
  store_inv w → urls (db w) !! id = Some u →
  short_code u' = short_code u → custom_alias u' = custom_alias u →
  (∃ n, clicks u' = Some n ∧ 0 ≤ n) →
  store_inv (Session.write id u' w).2.
Proof.
  intros (Huniq & Hlinks & Hclicks) Hu Hcode Halias Hn. split; [|split; [|exact Hclicks]].
  - intros i i' v v'. cbn. rewrite !lookup_insert.
    repeat case_decide; subst; intros; simplify_eq; try done.
    + eapply Huniq; [done|done|congruence].
    + eapply Huniq; [done|done|congruence].
    + by eapply Huniq.
  - intros i v. cbn. rewrite lookup_insert. case_decide; [|apply Hlinks].
    intros [= <-]. destruct (Hlinks id u Hu) as (Ha & Hne & _).
    rewrite Hcode, Halias. by repeat split.
Qed.

Lemma store_inv_add_flush u now w :
  store_inv w → custom_alias u = Some (short_code u) → short_code u ≠ "" →
  clicks u = None →
  store_inv (Session.add_flush u now w).2.
Proof.
  intros (Huniq & Hlinks & Hclicks) Halias Hne Hnone. unfold Session.add_flush.
  case_bool_decide as Hcol; [done|]. split; [|split; [|exact Hclicks]].
  - assert (∀ i v, urls (db w) !! i = Some v → short_code v ≠ short_code u) as Hfree.
    { intros i v Hv Hc. apply Hcol. exists i, v. split; [done|]. by left. }
    intros i i' v v'. cbn. rewrite !lookup_insert.
    repeat case_decide; subst; intros; simplify_eq/=; try done.
    + exfalso. by eapply Hfree.
    + exfalso. by eapply Hfree.
    + by eapply Huniq.
  - intros i v. cbn. rewrite lookup_insert. case_decide; [|apply Hlinks].
    intros [= <-]. cbn. rewrite Hnone. repeat split; [done|done|]. by exists 0.
Qed.

Lemma triple_store_check_rate_limit self ip endpoint now :
  triple store_inv (check_rate_limit self ip endpoint now) (fun _ => store_inv) store_inv.
Proof.
  apply triple_store_unchanged. intros w.
  by destruct (check_rate_limit_returns self ip endpoint now w) as (w' & -> & ? & _).
Qed.

Lemma triple_store_create `{PyLib} fuel rand url_data ip now :
  triple store_inv (URLService.create_short_url fuel rand url_data ip now)
    (fun _ => store_inv) store_inv.
Proof.
  unfold URLService.create_short_url.
  eapply triple_bind; [apply triple_store_check_rate_limit|intros ?].
  eapply triple_bind.
  { instantiate (1 := fun _ => store_inv).
    destruct (negb _); [apply triple_raise|apply triple_ret]. }
  intros ?. eapply triple_bind.
  { instantiate (1 := fun _ => store_inv).
    destruct (truthy_str _); [|apply triple_ret].
    eapply triple_bind; [apply triple_unchanged; by intros w|intros r].
    eapply triple_bind.
    { eapply triple_weaken; [apply triple_lift| |]; [by intros w0 ?|].
      intros x w0 [Hw0 _]. exact Hw0. }
    intros existing. destruct (Session.object_bool existing);
      [apply triple_raise|apply triple_ret]. }
  intros ? w Hw. unfold bind at 1.
  destruct (truthy_str (create_custom_alias url_data)) eqn:Htruthy;
    [|by rewrite generate_unique_hangs].
  destruct (create_custom_alias url_data) as [alias|] eqn:Halias; [|done].
  cbn in Htruthy. apply negb_true_iff, String.eqb_neq in Htruthy.
  unfold ret at 1. cbn [default]. change (Datatypes.id alias) with alias.
  set (u := set_expiration _ _ _).
  assert (store_inv (Session.add_flush u now w).2) as Hpost.
  { destruct (set_expiration_keeps
                (with_short_code
                   {| original_url := create_original_url url_data; short_code := "";
                      custom_alias := Some alias; created_at := None;
                      expires_at := None; is_active := None; clicks := None |} alias)
                (create_expiration_days url_data) now) as (Hc & Ha & Hn).
    subst u. apply store_inv_add_flush; [done|by rewrite Ha, Hc|by rewrite Hc|by rewrite Hn]. }
  unfold bind.
  destruct (Session.add_flush u now w) as [[created|e|] w2]; cbn in Hpost; [|done|done].
  by rewrite cache_url_skips.
Qed.

Lemma store_inv_add_click c now w :
  store_inv w → country c = None → referrer c = None →
  store_inv (Session.add_click c now w).2.
Proof.
  intros (Huniq & Hlinks & Hclicks) Hcountry Hreferrer. split; [done|split; [done|]].
  intros i v. cbn. rewrite lookup_insert. case_decide; [|apply Hclicks].
  intros [= <-]. cbn. by repeat split.
Qed.

Lemma store_inv_delete id w : store_inv w → store_inv (Session.delete id w).2.
Proof.
  intros (Huniq & Hlinks & Hclicks). split; [|split; [|exact Hclicks]].
  - intros i i' v v'. cbn. intros [_ Hv]%lookup_delete_Some [_ Hv']%lookup_delete_Some.
    by apply Huniq.
  - intros i v. cbn. intros [_ Hv]%lookup_delete_Some. by apply (Hlinks i).
Qed.

Lemma triple_store_call {A} (f : Redis → res A * Redis) :
  triple store_inv (RedisCache.call f) (fun _ => store_inv) store_inv.
Proof. apply triple_store_unchanged. intros w. apply call_db. Qed.

Lemma triple_store_track_click code ip ua now :
  triple store_inv (URLService._track_click code ip ua now) (fun _ => store_inv) store_inv.
Proof.
  intros w Hw. unfold URLService._track_click. unfold bind at 1.
  rewrite rows_with_code_select. unfold bind at 1.
  unfold lift, Session.scalar_one_or_none. cbn [Session.rows].
  destruct (rows_with_code w code) as [|[id u] [|]] eqn:Hrows; try done.
  destruct (clicks u) as [n|] eqn:Hn; [|done].
  destruct (rows_with_code_only w code id u Hrows) as (Hu & _ & _).
  assert (0 ≤ n) as Hpos.
  { destruct Hw as (_ & Hlinks & _). destruct (Hlinks id u Hu) as (_ & _ & m & Hm & ?).
    congruence. }
  unfold bind at 1. unfold bind at 1.
  assert (store_inv (Session.write id (with_clicks u (Some (n + 1))) w).2) as Hw1.
  { apply (store_inv_write id u); [done|done|done|done|]. exists (n + 1). split; [done|lia]. }
  destruct (Session.write id (with_clicks u (Some (n + 1))) w) as [[[]|?|] w1] eqn:E1;
    [|done|done].
  unfold bind at 1. cbn [snd] in Hw1.
  set (click := {| url_id := id |}).
  pose proof (store_inv_add_click click now w1 Hw1 eq_refl eq_refl) as Hw2.
  destruct (Session.add_click click now w1) as [[[]|?|] w2] eqn:E2; [|done|done].
  cbn [snd] in Hw2. unfold bind.
  pose proof (triple_store_call
                (RedisServer.incr (CacheService.generate_analytics_key code)) w2 Hw2) as Hw3.
  unfold CacheService.increment_click_count, RedisCache.increment_key.
  by destruct (RedisCache.call _ w2) as [[m|?|] w3].
Qed.

Lemma triple_store_redirect `{PyLib} code ip ua now :
  triple store_inv (URLService.get_original_url code ip ua now)
    (fun _ => store_inv) store_inv.
Proof.
  unfold URLService.get_original_url.
  eapply triple_bind; [apply triple_unchanged, lookup_world|intros [[o a] e]].
  eapply triple_bind; [apply triple_unchanged, check_world|intros ?].
  eapply triple_bind; [apply triple_store_track_click|intros ?].
  apply triple_ret.
Qed.

Lemma triple_store_update code update_data now :
  triple store_inv (URLService.update_url code update_data now)
    (fun _ => store_inv) store_inv.
Proof.
  intros w Hw. unfold URLService.update_url. unfold bind at 1.
  rewrite rows_with_code_select. cbn [Session.Result_bool]. unfold bind at 1.
  unfold lift, Session.scalar_one_or_none. cbn [Session.rows].
  destruct (rows_with_code w code) as [|[id u] [|]] eqn:Hrows; try done.
  destruct (rows_with_code_only w code id u Hrows) as (Hu & _ & _).
  destruct (truthy_str (update_custom_alias update_data)); [done|].
  unfold bind at 1. unfold ret at 1.
  destruct (truthy_int (update_expiration_days update_data)).
  - unfold bind at 1. unfold bind at 1.
    assert (store_inv (Session.write id
              (set_expiration u (update_expiration_days update_data) now) w).2) as Hw1.
    { destruct (set_expiration_keeps u (update_expiration_days update_data) now)
        as (Hc & Ha & Hn).
      apply (store_inv_write id u); [done|done|done|done|]. rewrite Hn.
      destruct Hw as (_ & Hlinks & _). by destruct (Hlinks id u Hu) as (_ & _ & ?). }
    destruct (Session.write _ _ w) as [[[]|?|] w1]; [|done|done].
    unfold ret at 1. unfold bind. cbn [snd] in Hw1.
    pose proof (triple_store_call
                  (RedisServer.del (CacheService.generate_url_key code)) w1 Hw1) as Hw2.
    unfold CacheService.delete_cached_url, RedisCache.delete_key.
    by destruct (RedisCache.call _ w1) as [[[]|?|] w2].
  - unfold bind at 1. unfold ret at 1. unfold bind.
    pose proof (triple_store_call
                  (RedisServer.del (CacheService.generate_url_key code)) w Hw) as Hw2.
    unfold CacheService.delete_cached_url, RedisCache.delete_key.
    by destruct (RedisCache.call _ w) as [[[]|?|] w2].
Qed.

Lemma triple_store_delete code :
  triple store_inv (URLService.delete_url code) (fun _ => store_inv) store_inv.
Proof.
  intros w Hw. unfold URLService.delete_url. unfold bind at 1.
  rewrite rows_with_code_select. cbn [Session.Result_bool]. unfold bind at 1.
  unfold lift, Session.scalar_one_or_none. cbn [Session.rows].
  destruct (rows_with_code w code) as [|[id u] [|]] eqn:Hrows; try done.
  unfold bind.
  pose proof (store_inv_delete id w Hw) as Hw1.
  destruct (Session.delete id w) as [[[]|?|] w1]; [|done|done].
  cbn [snd] in Hw1.
  pose proof (triple_store_call
                (RedisServer.del (CacheService.generate_url_key code)) w1 Hw1) as Hw2.
  unfold CacheService.delete_cached_url, RedisCache.delete_key.
  by destruct (RedisCache.call _ w1) as [[[]|?|] w2].
Qed.

Lemma get_db_store {A} (c : M A) w :
  triple store_inv c (fun _ => store_inv) store_inv → store_inv w →
  store_inv (Session.get_db c w).2.
Proof.
  intros Hc Hw. specialize (Hc w Hw). unfold Session.get_db.
  destruct (c w) as [[a|e|] w1]; [destruct (Session.commit_fails _ _); [|done]| |];
    by apply (store_inv_db w).
Qed.

Lemma step_store `{PyLib} e now w : store_inv w → store_inv (step e now w).
Proof.
  intros Hw. destruct e; cbn [step].
  - apply get_db_store; [apply triple_store_create|done].
  - apply get_db_store; [apply triple_store_redirect|done].
  - apply get_db_store; [apply triple_store_update|done].
  - apply get_db_store; [apply triple_store_delete|done].
  - by apply (store_inv_db w).
  - by apply (store_inv_db w).
Qed.

Lemma run_store `{PyLib} history w : store_inv w → store_inv (run history w).
Proof.
  revert w. induction history as [|[e now] rest IH]; intros w Hw; [done|].
  cbn [run]. by apply IH, step_store.
Qed.

Lemma fresh_world_store failing : store_inv (fresh_world failing).
Proof.
  split; [|split].
  - intros id id' u u'. cbn. by rewrite lookup_empty.
  - intros id u. cbn. by rewrite lookup_empty.
  - intros id c. cbn. by rewrite lookup_empty.
Qed.

Lemma rows_with_code_short w code :
  codes_unique w → (length (rows_with_code w code) ≤ 1)%nat.
Proof.
  intros Huniq.
  destruct (rows_with_code w code) as [|[i u] [|[j v] rest]] eqn:Hrows; cbn; [lia|lia|].
  exfalso.
  assert ((i, u) ∈ rows_with_code w code) as Hi by (rewrite Hrows; set_solver).
  assert ((j, v) ∈ rows_with_code w code) as Hj by (rewrite Hrows; set_solver).
  apply rows_with_code_elem in Hi as [Hu Hcu]. apply rows_with_code_elem in Hj as [Hv Hcv].
  assert (i = j) as -> by (eapply Huniq; [done|done|congruence]).
  assert (u = v) as -> by congruence.
  assert (NoDup (rows_with_code w code)) as Hnd by apply NoDup_map_to_list.
  rewrite Hrows in Hnd. apply NoDup_cons in Hnd as [Hnotin _]. apply Hnotin. set_solver.
Qed.

(** X16: after any history of requests, outages and key expiries from a
    fresh deployment, no two rows carry the same short code; so the query by
    short code that every endpoint starts with finds one row at most, and
    [scalar_one_or_none] never raises MultipleResultsFound on it. *)
Theorem short_codes_stay_unique `{PyLib} history failing code :
  let w := run history (fresh_world failing) in
  codes_unique w
  ∧ (length (rows_with_code w code) ≤ 1)%nat
  ∧ Session.scalar_one_or_none {| Session.rows := rows_with_code w code |}
    ≠ Raise MultipleResultsFound.
Proof.
  cbn zeta. pose proof (run_store history _ (fresh_world_store failing)) as (Huniq & _).
  split; [exact Huniq|].
  pose proof (rows_with_code_short _ code Huniq) as Hlen. split; [exact Hlen|].
  unfold Session.scalar_one_or_none. cbn [Session.rows].
  destruct (rows_with_code _ code) as [|x [|y rest]]; [done|done|cbn in Hlen; lia].
Qed.

(** X17: after any such history, every row of the table has its custom alias
    as short code (no generated code is ever stored: a creation without
    alias never completes, and no update changes a code), the code is not
    empty, and the click count is set and not negative. *)
Theorem stored_links_carry_their_alias `{PyLib} history failing id u :
  urls (db (run history (fresh_world failing))) !! id = Some u →
  custom_alias u = Some (short_code u) ∧ short_code u ≠ ""
  ∧ ∃ n, clicks u = Some n ∧ 0 ≤ n.
Proof.
  pose proof (run_store history _ (fresh_world_store failing)) as (_ & Hlinks & _).
  apply Hlinks.
Qed.

(** X18: after any such history, every click row has its timestamp, and
    neither a country nor a referrer: [_track_click] fills the link, the
    address and the user agent only. *)
Theorem click_rows_carry_no_location `{PyLib} history failing id c :
  click_rows (db (run history (fresh_world failing))) !! id = Some c →
  is_Some (timestamp c) ∧ country c = None ∧ referrer c = None.
Proof.
  pose proof (run_store history _ (fresh_world_store failing)) as (_ & _ & Hclicks).
  apply Hclicks.
Qed.

(** *** What one request writes *)

Lemma create_change `{PyLib} fuel rand url_data ip now w a w' :
  URLService.create_short_url fuel rand url_data ip now w = (Return a, w') →
  ∃ id row, urls (db w) !! id = None ∧ clicks row = Some 0
            ∧ db w' = {| urls := <[id := row]> (urls (db w));
                         click_rows := click_rows (db w) |}.
Proof.
  unfold URLService.create_short_url. unfold bind at 1.
  destruct (check_rate_limit_returns rate_limiter ip "create_url" now w)
    as (w1 & -> & Hdb & _).
  unfold bind at 1. destruct (negb _); [done|]. unfold ret at 1.
  destruct (truthy_str (create_custom_alias url_data)) eqn:Ht; cycle 1.
  { unfold bind at 1. unfold ret at 1. unfold bind at 1.
    by rewrite generate_unique_hangs. }
  unfold bind at 1. unfold bind at 1. rewrite execute_select_returns.
  unfold bind at 1. unfold lift.
  destruct (Session.scalar_one_or_none _) as [x| |]; [|done|done].
  destruct (Session.object_bool x); [done|]. unfold ret at 1.
  unfold bind at 1. unfold ret at 1. unfold bind at 1.
  set (u := set_expiration _ _ _).
  assert (clicks u = None) as Hnone.
  { subst u. by destruct (set_expiration_keeps
                 (with_short_code
                    {| original_url := create_original_url url_data; short_code := "";
                       custom_alias := create_custom_alias url_data; created_at := None;
                       expires_at := None; is_active := None; clicks := None |}
                    (default "" (create_custom_alias url_data)))
                 (create_expiration_days url_data) now) as (_ & _ & ->). }
  unfold Session.add_flush. case_bool_decide; [by cbn|].
  unfold bind. rewrite cache_url_skips. unfold ret. intros [= <- <-]. cbn.
  rewrite Hdb. eexists _, _. split; [apply next_id_fresh|]. split; [|reflexivity].
  cbn. by rewrite Hnone.
Qed.

Lemma redirect_change `{PyLib} code ip ua now w a w' :
  URLService.get_original_url code ip ua now w = (Return a, w') →
  db w' = db w
  ∨ ∃ id u n cid c,
      urls (db w) !! id = Some u ∧ short_code u = code ∧ clicks u = Some n
      ∧ click_rows (db w) !! cid = None ∧ url_id c = id ∧ ip_address c = ip
      ∧ db w' = {| urls := <[id := with_clicks u (Some (n + 1))]> (urls (db w));
                   click_rows := <[cid := c]> (click_rows (db w)) |}.
Proof.
  unfold URLService.get_original_url. unfold bind at 1.
  pose proof (lookup_world code w) as Hw1.
  destruct (URLService.get_original_url_lookup code w) as [[[[o act] e]|?|] w1];
    cbn in Hw1; subst w1; [|done|done].
  unfold bind at 1. pose proof (check_world act e now w) as Hw2.
  destruct (URLService.get_original_url_check act e now w) as [[[]|?|] w1];
    cbn in Hw2; subst w1; [|done|done].
  unfold bind at 1.
  destruct (URLService._track_click code ip ua now w) as [[[]|?|] w3] eqn:Htrack;
    [|done|done].
  unfold ret. intros [= <- <-].
  destruct (rows_with_code w code) as [|[id u] rest] eqn:Hrows.
  - revert Htrack. unfold URLService._track_click, bind. rewrite rows_with_code_select.
    unfold lift, Session.scalar_one_or_none. cbn [Session.rows]. rewrite Hrows.
    unfold ret. intros [= <-]. by left.
  - assert (rows_with_code w code = [(id, u)]) as Hone.
    { eapply track_click_return_rows; [exact Htrack|]. rewrite Hrows. set_solver. }
    destruct (rows_with_code_only w code id u Hone) as (Hu & Hcode & _).
    destruct (track_click_spec _ _ _ _ _ _ _ _ Hone Htrack) as (n & Hn & Hurls & Hrowsc & _).
    right. exists id, u, n. eexists _, _.
    split; [exact Hu|]. split; [exact Hcode|]. split; [exact Hn|].
    split; [apply next_id_fresh|].
    destruct (db w3) as [t c]. cbn in *. rewrite Hurls, Hrowsc. by repeat split.
Qed.

Lemma set_expiration_shape u days now :
  ∃ e, set_expiration u days now = with_expires_at u e.
Proof.
  unfold set_expiration. destruct days as [n|].
  - destruct (truthy_int _); [by eexists|]. exists (expires_at u). by destruct u.
  - exists (expires_at u). by destruct u.
Qed.

Lemma update_change code data now w a w' :
  URLService.update_url code data now w = (Return a, w') →
  ∃ id u e, urls (db w) !! id = Some u ∧ short_code u = code
            ∧ db w' = {| urls := <[id := with_expires_at u e]> (urls (db w));
                         click_rows := click_rows (db w) |}.
Proof.
  unfold URLService.update_url. unfold bind at 1.
  rewrite rows_with_code_select. cbn [Session.Result_bool]. unfold bind at 1.
  unfold lift, Session.scalar_one_or_none. cbn [Session.rows].
  destruct (rows_with_code w code) as [|[id u] [|]] eqn:Hrows; try done.
  destruct (rows_with_code_only w code id u Hrows) as (Hu & Hcode & _).
  destruct (truthy_str (update_custom_alias data)); [done|].
  unfold bind at 1. unfold ret at 1. unfold CacheService.delete_cached_url.
  destruct (truthy_int (update_expiration_days data)).
  - unfold bind, Session.write, ret. cbn. rewrite delete_key_spec. cbn.
    destruct (faulty (redis w) DEL); [done|]. intros [= <- <-]. cbn.
    destruct (set_expiration_shape u (update_expiration_days data) now) as [e ->].
    by exists id, u, e.
  - unfold bind, ret. rewrite delete_key_spec.
    destruct (faulty (redis w) DEL); [done|]. intros [= <- <-].
    exists id, u, (expires_at u). split; [done|]. split; [done|]. cbn.
    assert (with_expires_at u (expires_at u) = u) as -> by by destruct u.
    rewrite insert_id by done. by destruct (db w).
Qed.

Lemma delete_change code w a w' :
  URLService.delete_url code w = (Return a, w') →
  ∃ id u, urls (db w) !! id = Some u ∧ short_code u = code
          ∧ db w' = {| urls := delete id (urls (db w));
                       click_rows := click_rows (db w) |}.
Proof.
  unfold URLService.delete_url. unfold bind at 1.
  rewrite rows_with_code_select. cbn [Session.Result_bool]. unfold bind at 1.
  unfold lift, Session.scalar_one_or_none. cbn [Session.rows].
  destruct (rows_with_code w code) as [|[id u] [|]] eqn:Hrows; try done.
  destruct (rows_with_code_only w code id u Hrows) as (Hu & Hcode & _).
  unfold bind, Session.delete, CacheService.delete_cached_url.
  rewrite delete_key_spec. cbn.
  destruct (faulty (redis w) DEL); [done|]. intros [= <- <-]. by exists id, u.
Qed.

(** X19: what each endpoint can do to the tables.  A creation leaves them as
    they were or inserts one link, under an unused id, with a click count of
    0.  A redirect leaves them as they were or raises the click count of one
    link carrying the code by one and inserts one click row for that link,
    with the client's address, under an unused id.  An update leaves them as
    they were or replaces the expiry of one link carrying the code.  A delete
    leaves them as they were or removes one link carrying the code.  So no
    endpoint changes the target, the short code, the alias or the activity
    of a stored link, and none removes or rewrites a click row. *)
Theorem each_request_changes_one_thing `{PyLib} fuel rand url_data code ip ua data now w :
  (let d' := db (url_controller.create_short_url fuel rand url_data ip now w).2 in
   d' = db w
   ∨ ∃ id row, urls (db w) !! id = None ∧ clicks row = Some 0
               ∧ d' = {| urls := <[id := row]> (urls (db w));
                         click_rows := click_rows (db w) |})
  ∧ (let d' := db (url_controller.redirect_to_original code ip ua now w).2 in
     d' = db w
     ∨ ∃ id u n cid c,
         urls (db w) !! id = Some u ∧ short_code u = code ∧ clicks u = Some n
         ∧ click_rows (db w) !! cid = None ∧ url_id c = id ∧ ip_address c = ip
         ∧ d' = {| urls := <[id := with_clicks u (Some (n + 1))]> (urls (db w));
                   click_rows := <[cid := c]> (click_rows (db w)) |})
  ∧ (let d' := db (url_controller.update_short_url code data now w).2 in
     d' = db w
     ∨ ∃ id u e, urls (db w) !! id = Some u ∧ short_code u = code
                 ∧ d' = {| urls := <[id := with_expires_at u e]> (urls (db w));
                           click_rows := click_rows (db w) |})
  ∧ (let d' := db (url_controller.delete_short_url code w).2 in
     d' = db w
     ∨ ∃ id u, urls (db w) !! id = Some u ∧ short_code u = code
               ∧ d' = {| urls := delete id (urls (db w));
                         click_rows := click_rows (db w) |}).
Proof.
  cbn zeta. repeat split.
  - unfold url_controller.create_short_url, Session.get_db.
    destruct (URLService.create_short_url fuel rand url_data ip now w)
      as [[a|e|] w1] eqn:E; [destruct (Session.commit_fails _ _)|..]; cbn;
      [by left|right; by eapply create_change|by left..].
  - unfold url_controller.redirect_to_original, Session.get_db.
    destruct (URLService.get_original_url code ip ua now w)
      as [[a|e|] w1] eqn:E; [destruct (Session.commit_fails _ _)|..]; cbn;
      [by left|by eapply redirect_change|by left..].
  - unfold url_controller.update_short_url, Session.get_db.
    destruct (URLService.update_url code data now w)
      as [[a|e|] w1] eqn:E; [destruct (Session.commit_fails _ _)|..]; cbn;
      [by left|right; by eapply update_change|by left..].
  - unfold url_controller.delete_short_url, Session.get_db.
    destruct (URLService.delete_url code w)
      as [[a|e|] w1] eqn:E; [destruct (Session.commit_fails _ _)|..]; cbn;
      [by left|right; by eapply delete_change|by left..].
Qed.

(** *** Click counts and click rows *)

Lemma total_insert_fresh (t : gmap Z URL) id r :
  t !! id = None →
  map_fold (fun _ u acc => acc + default 0 (clicks u)) 0 (<[id := r]> t)
  = map_fold (fun _ u acc => acc + default 0 (clicks u)) 0 t + default 0 (clicks r).
Proof.
  intros Hid. rewrite map_fold_insert_L; [done| |done]. intros. lia.
Qed.

Lemma total_delete (t : gmap Z URL) id u :
  t !! id = Some u →
  map_fold (fun _ u acc => acc + default 0 (clicks u)) 0 t
  = map_fold (fun _ u acc => acc + default 0 (clicks u)) 0 (delete id t)
    + default 0 (clicks u).
Proof.
  intros Hid. rewrite (map_fold_delete_L _ _ id u t); [done| |done]. intros. lia.
Qed.

Lemma total_replace (t : gmap Z URL) id u u' :
  t !! id = Some u →
  map_fold (fun _ u acc => acc + default 0 (clicks u)) 0 (<[id := u']> t)
  = map_fold (fun _ u acc => acc + default 0 (clicks u)) 0 t
    - default 0 (clicks u) + default 0 (clicks u').
Proof.
  intros Hid. rewrite <- insert_delete_eq.
  rewrite total_insert_fresh by apply lookup_delete_eq.
  rewrite (total_delete t id u Hid). lia.
Qed.

Lemma step_change `{PyLib} e now w : table_change (db w) (db (step e now w)).
Proof.
  destruct e as [fuel rand url_data ip|code ip ua|code data|code|failing|key]; cbn [step].
  - unfold url_controller.create_short_url, Session.get_db.
    destruct (URLService.create_short_url fuel rand url_data ip now w)
      as [[a|e|] w1] eqn:E; [destruct (Session.commit_fails _ _)|..]; cbn;
      [by apply unchanged| |by apply unchanged..].
    destruct (create_change _ _ _ _ _ _ _ _ E) as (id & row & ? & ? & Hd).
    by eapply link_inserted.
  - unfold url_controller.redirect_to_original, Session.get_db.
    destruct (URLService.get_original_url code ip ua now w)
      as [[a|e|] w1] eqn:E; [destruct (Session.commit_fails _ _)|..]; cbn;
      [by apply unchanged| |by apply unchanged..].
    destruct (redirect_change _ _ _ _ _ _ _ E)
      as [Hsame|(id & u & n & cid & c & ? & ? & ? & ? & ? & ? & Hd)];
      [by apply unchanged|by eapply click_recorded].
  - unfold url_controller.update_short_url, Session.get_db.
    destruct (URLService.update_url code data now w)
      as [[a|e|] w1] eqn:E; [destruct (Session.commit_fails _ _)|..]; cbn;
      [by apply unchanged| |by apply unchanged..].
    destruct (update_change _ _ _ _ _ _ E) as (id & u & x & ? & ? & Hd).
    by eapply expiry_set.
  - unfold url_controller.delete_short_url, Session.get_db.
    destruct (URLService.delete_url code w)
      as [[a|e|] w1] eqn:E; [destruct (Session.commit_fails _ _)|..]; cbn;
      [by apply unchanged| |by apply unchanged..].
    destruct (delete_change _ _ _ _ E) as (id & u & ? & ? & Hd).
    by eapply link_deleted.
  - by apply unchanged.
  - by apply unchanged.
Qed.

Lemma counted_step `{PyLib} e now w :
  store_inv w →
  counted_clicks w ≤ Z.of_nat (size (click_rows (db w))) →
  counted_clicks (step e now w) ≤ Z.of_nat (size (click_rows (db (step e now w)))).
Proof.
  intros (_ & Hlinks & _) Hle. unfold counted_clicks in *.
  destruct (step_change e now w)
    as [->|id row Hid Hrow ->|id u n cid c Hu Hn Hcid _ ->|id u x Hu ->|id u Hu ->];
    cbn [urls click_rows].
  - done.
  - rewrite total_insert_fresh by done. rewrite Hrow. cbn. lia.
  - rewrite (total_replace _ id u) by done. rewrite Hn. cbn.
    rewrite map_size_insert_None by done. lia.
  - rewrite (total_replace _ id u) by done. cbn. lia.
  - rewrite (total_delete _ id u Hu) in Hle.
    destruct (Hlinks id u Hu) as (_ & _ & n & Hc & Hn). rewrite Hc in Hle.
    cbn in Hle. lia.
Qed.

(** X20: after any history of requests, outages and key expiries from a
    fresh deployment, the click counts of the links sum to no more than the
    number of click rows: a count is only raised together with the insertion
    of a click row, and click rows are never removed (the two are equal until
    a link that has clicks is deleted). *)
Theorem counted_clicks_have_their_rows `{PyLib} history failing :
  counted_clicks (run history (fresh_world failing))
  ≤ Z.of_nat (size (click_rows (db (run history (fresh_world failing))))).
Proof.
  assert (∀ w, store_inv w →
               counted_clicks w ≤ Z.of_nat (size (click_rows (db w))) →
               counted_clicks (run history w)
               ≤ Z.of_nat (size (click_rows (db (run history w))))) as Hrun.
  { induction history as [|[e now] rest IH]; intros w Hw Hle; [done|].
    cbn [run]. apply IH; [by apply step_store|by apply counted_step]. }
  apply Hrun; [apply fresh_world_store|]. unfold counted_clicks. cbn.
  by rewrite map_fold_empty.
Qed.

(** *** The size of the recorded set *)

(** X21: on a healthy backend and with a positive window, a check never takes
    the recorded set of a client beyond the limit: a set of at most
    [requests] members has at most [requests] members after the check, the
    request being recorded only while fewer than [requests] members remain
    in the window. *)
Theorem recorded_requests_stay_within_the_limit self ip endpoint now w :
  let key := CacheService.generate_rate_limit_key ip endpoint in
  no_faults w → zset_or_absent w key → 0 < window self →
  Z.of_nat (size (zset_at w key)) ≤ requests self →
  Z.of_nat (size (zset_at (check_rate_limit self ip endpoint now w).2 key)) ≤ requests self.
Proof.
  intros key Hnf Hz Hw Hsize. subst key.
  unfold CacheService.generate_rate_limit_key in *.
  destruct (check_rate_limit_healthy self ip endpoint now w Hnf Hz Hw)
    as (w1 & -> & Hset & _).
  cbn [snd]. rewrite Hset.
  set (kept := filter _ _).
  assert (size kept ≤ size (zset_at w ("rate_limit:" +:+ ip +:+ ":" +:+ endpoint)))%nat
    as Hkept by apply map_subseteq_size, map_filter_subseteq.
  destruct (Z.of_nat (size kept) <? requests self) eqn:Hroom; [|lia].
  apply Z.ltb_lt in Hroom.
  pose proof (map_size_insert (pretty (time_time now)) (time_time now) kept) as Hins.
  rewrite Hins. destruct (kept !! pretty (time_time now)); cbn; lia.
Qed.

(** *** A redirect served from the cache *)

(** X22: a redirect that finds a cache entry reads [original_url] and
    [is_active] by subscript and [expires_at] by [get].  An entry that is
    not a dictionary ends the redirect in TypeError, a dictionary without
    [original_url] or without [is_active] in KeyError for that key, and a
    dictionary without [expires_at] is served as a link that never expires;
    nothing is recorded in the first three cases. *)
Theorem cached_entry_fields `{PyLib} code ip ua now w cached :
  CacheService.get_cached_url code w = (Return cached, w) →
  truthy cached = true →
  ((∀ items, cached ≠ PDict items) →
   URLService.get_original_url code ip ua now w = (Raise TypeError, w))
  ∧ (∀ items, cached = PDict items →
       (dict_get items "original_url" = None →
        URLService.get_original_url code ip ua now w
        = (Raise (KeyError "original_url"), w))
       ∧ (is_Some (dict_get items "original_url") → dict_get items "is_active" = None →
          URLService.get_original_url code ip ua now w
          = (Raise (KeyError "is_active"), w))
       ∧ (∀ target active,
            dict_get items "original_url" = Some target →
            dict_get items "is_active" = Some active → truthy active = true →
            dict_get items "expires_at" = None →
            URLService.get_original_url code ip ua now w
            = (URLService._track_click code ip ua now ;;; ret target) w)).
Proof.
  intros Hcached Htruthy.
  unfold URLService.get_original_url, URLService.get_original_url_lookup.
  split.
  - intros Hnot. unfold bind at 1. unfold bind at 1. rewrite Hcached, Htruthy.
    unfold bind at 1. unfold lift, subscript.
    destruct cached; try done. by destruct (Hnot items).
  - intros items ->. repeat split.
    + intros Hurl. unfold bind at 1. unfold bind at 1. rewrite Hcached, Htruthy.
      unfold bind at 1. unfold lift, subscript. by rewrite Hurl.
    + intros [target Hurl] Hact. unfold bind at 1. unfold bind at 1.
      rewrite Hcached, Htruthy.
      unfold bind at 1. unfold lift at 1, subscript at 1. rewrite Hurl.
      unfold bind at 1. unfold lift, subscript. by rewrite Hact.
    + intros target active Hurl Hact Hactive Hexp.
      unfold bind at 1. unfold bind at 1. rewrite Hcached, Htruthy.
      unfold bind at 1. unfold lift at 1, subscript at 1. rewrite Hurl.
      unfold bind at 1. unfold lift at 1, subscript at 1. rewrite Hact.
      unfold bind at 1. unfold lift at 1, method_get. rewrite Hexp.
      unfold ret at 1. unfold bind at 1.
      unfold URLService.get_original_url_check. unfold bind at 1. rewrite Hactive.
      cbn [negb truthy]. by unfold ret at 1.
Qed.

(** * Witnesses of the further properties *)

(** X3, witness: a check for 5.6.7.8 leaves the record of 1.2.3.4 alone. *)
Lemma check_rate_limit_is_per_client_witness :
  let w := window_world {[ "100" := 100 ]} in
  let w' := (check_rate_limit rate_limiter "5.6.7.8" "create_url" 160000000 w).2 in
  "1.2.3.4" ≠ "5.6.7.8"
  ∧ keys (redis w') !! CacheService.generate_rate_limit_key "1.2.3.4" "create_url"
    = keys (redis w) !! CacheService.generate_rate_limit_key "1.2.3.4" "create_url".
Proof.
  intros w w'. assert ("1.2.3.4" ≠ "5.6.7.8") as H1 by discriminate.
  split; [exact H1|].
  exact (proj2 (proj2 (check_rate_limit_is_per_client rate_limiter "5.6.7.8" "create_url"
                         160000000 w)) "1.2.3.4" H1).
Defined.

(** X4, witness: two checks of 1.2.3.4 within second 160. *)
Lemma same_second_requests_count_once_witness :
  let w := window_world {[ "100" := 100 ]} in
  let key := CacheService.generate_rate_limit_key "1.2.3.4" "create_url" in
  let w1 := (check_rate_limit rate_limiter "1.2.3.4" "create_url" 160000000 w).2 in
  no_faults w ∧ zset_or_absent w key ∧ 0 < window rate_limiter
  ∧ time_time 160900000 = time_time 160000000
  ∧ zset_at (check_rate_limit rate_limiter "1.2.3.4" "create_url" 160900000 w1).2 key
    = zset_at w1 key.
Proof.
  intros w key w1.
  assert (no_faults w) as H1 by (intros c; reflexivity).
  assert (zset_or_absent w key) as H2 by exact I.
  assert (0 < window rate_limiter) as H3 by reflexivity.
  assert (time_time 160900000 = time_time 160000000) as H4 by reflexivity.
  split; [exact H1|]. split; [exact H2|]. split; [exact H3|]. split; [exact H4|].
  exact (same_second_requests_count_once rate_limiter "1.2.3.4" "create_url"
           160000000 160900000 w H1 H2 H3 H4).
Defined.

(** X5, witness: the entry of ghost, invalidated and read. *)
Lemma invalidated_entry_is_a_miss_witness :
  let w := cached_only_world ghost_payload in
  faulty (redis w) DEL = false ∧ faulty (redis w) GET = false
  ∧ ∃ w', (CacheService.delete_cached_url "ghost" ;;;
           CacheService.get_cached_url (H := python_lib) "ghost") w = (Return PNone, w')
          ∧ keys (redis w') = delete (CacheService.generate_url_key "ghost") (keys (redis w))
          ∧ db w' = db w.
Proof.
  intros w. split; [reflexivity|]. split; [reflexivity|].
  exact (proj1 (invalidated_entry_is_a_miss (H := python_lib) "ghost" w eq_refl eq_refl)).
Defined.

(** X6, witness: promo1 created on a fresh deployment. *)
Lemma create_with_free_alias_witness :
  let w := fresh_world healthy in
  validators_url (PyLib := python_lib) (create_original_url alias_request) = true
  ∧ create_custom_alias alias_request = Some "promo1" ∧ "promo1" ≠ ""
  ∧ (∀ id r, urls (db w) !! id = Some r →
             short_code r ≠ "promo1" ∧ custom_alias r ≠ Some "promo1")
  ∧ ∃ id row w',
      URLService.create_short_url (H := python_lib) 0 (fun n => n) alias_request
        "1.2.3.4" new_year w = (Return (id, row), w')
      ∧ short_code row = "promo1" ∧ is_active row = Some true ∧ clicks row = Some 0.
Proof.
  intros w.
  assert ("promo1" ≠ "") as H3 by discriminate.
  assert (∀ id r, urls (db w) !! id = Some r →
                  short_code r ≠ "promo1" ∧ custom_alias r ≠ Some "promo1") as H4.
  { intros id r Hr. cbn in Hr. rewrite lookup_empty in Hr. discriminate Hr. }
  split; [reflexivity|]. split; [reflexivity|]. split; [exact H3|]. split; [exact H4|].
  destruct (create_with_free_alias (H := python_lib) 0 (fun n => n) alias_request
              "1.2.3.4" new_year w "promo1" eq_refl eq_refl H3 H4)
    as (id & row & w' & E & _ & _ & _ & _ & Hc & _ & Ha & Hn & _).
  exists id, row, w'. split; [exact E|]. split; [exact Hc|]. split; [exact Ha|exact Hn].
Defined.

(** X7, witness: promo1 requested again while the link promo1 exists, and
    while a second row carries promo1 as its alias. *)
Lemma create_rejects_a_taken_alias_witness :
  let w := world_with_link healthy None in
  let w2 := world_with_two_matches in
  validators_url (PyLib := python_lib) (create_original_url alias_request) = true
  ∧ create_custom_alias alias_request = Some "promo1" ∧ "promo1" ≠ ""
  ∧ urls (db w) !! 1 = Some (example_link None)
  ∧ (short_code (example_link None) = "promo1"
     ∨ custom_alias (example_link None) = Some "promo1")
  ∧ (∃ w',
      URLService.create_short_url (H := python_lib) 0 (fun n => n) alias_request
        "1.2.3.4" new_year w
      = (Raise (HTTPException HTTP_400_BAD_REQUEST "Custom alias already exists"), w')
      ∧ db w' = db w)
  ∧ urls (db w2) !! 1 = Some plain_link
  ∧ urls (db w2) !! 2 = Some renamed_link
  ∧ ∃ w',
      URLService.create_short_url (H := python_lib) 0 (fun n => n) alias_request
        "1.2.3.4" new_year w2
      = (Raise MultipleResultsFound, w')
      ∧ db w' = db w2.
Proof.
  intros w w2.
  assert ("promo1" ≠ "") as H3 by discriminate.
  assert (urls (db w) !! 1 = Some (example_link None)) as H4 by (vm_compute; reflexivity).
  assert (short_code (example_link None) = "promo1"
          ∨ custom_alias (example_link None) = Some "promo1") as H5 by (left; reflexivity).
  assert (urls (db w2) !! 1 = Some plain_link) as H6 by (vm_compute; reflexivity).
  assert (urls (db w2) !! 2 = Some renamed_link) as H7 by (vm_compute; reflexivity).
  split; [reflexivity|]. split; [reflexivity|]. split; [exact H3|]. split; [exact H4|].
  split; [exact H5|]. split.
  { destruct (create_rejects_a_taken_alias (H := python_lib) 0 (fun n => n) alias_request
                "1.2.3.4" new_year w "promo1" 1 (example_link None)
                eq_refl eq_refl H3 H4 H5) as (e & w' & E & Hdb & _ & Honly & _).
    exists w'. split; [|exact Hdb]. rewrite E. f_equal. f_equal. apply Honly.
    intros id' r' Hr' _. cbn in Hr'. apply lookup_singleton_Some in Hr'. symmetry.
    apply Hr'. }
  split; [exact H6|]. split; [exact H7|].
  destruct (create_rejects_a_taken_alias (H := python_lib) 0 (fun n => n) alias_request
              "1.2.3.4" new_year w2 "promo1" 1 plain_link
              eq_refl eq_refl H3 H6 (or_introl eq_refl)) as (e & w' & E & Hdb & _ & _ & Htwo).
  exists w'. split; [|exact Hdb]. rewrite E. f_equal. f_equal.
  apply (Htwo 2 renamed_link); [discriminate|exact H7|right; reflexivity].
Defined.

(** X8, witness: a request whose URL has no scheme. *)
Lemma create_rejects_an_invalid_url_witness :
  let w := fresh_world healthy in
  validators_url (PyLib := python_lib) (create_original_url bad_request) = false
  ∧ URLService.create_short_url (H := python_lib) 0 (fun n => n) bad_request
      "1.2.3.4" new_year w
    = (Raise (HTTPException HTTP_400_BAD_REQUEST "Invalid URL provided"),
       (check_rate_limit rate_limiter "1.2.3.4" "create_url" new_year w).2)
  ∧ db (check_rate_limit rate_limiter "1.2.3.4" "create_url" new_year w).2 = db w.
Proof.
  intros w. split; [reflexivity|].
  exact (create_rejects_an_invalid_url (H := python_lib) 0 (fun n => n) bad_request
           "1.2.3.4" new_year w eq_refl).
Defined.

(** X9, witness: a redirect on a fresh deployment. *)
Lemma redirect_of_unknown_code_is_404_witness :
  let w := fresh_world healthy in
  faulty (redis w) GET = false
  ∧ keys (redis w) !! CacheService.generate_url_key "promo1" = None
  ∧ (∀ id u, urls (db w) !! id = Some u → short_code u ≠ "promo1")
  ∧ URLService.get_original_url (H := python_lib) "promo1" "9.9.9.9" None new_year w
    = (Raise (HTTPException HTTP_404_NOT_FOUND "URL not found"), w).
Proof.
  intros w.
  assert (keys (redis w) !! CacheService.generate_url_key "promo1" = None) as H2
    by (vm_compute; reflexivity).
  assert (∀ id u, urls (db w) !! id = Some u → short_code u ≠ "promo1") as H3.
  { intros id u Hu. cbn in Hu. rewrite lookup_empty in Hu. discriminate Hu. }
  split; [reflexivity|]. split; [exact H2|]. split; [exact H3|].
  exact (redirect_of_unknown_code_is_404 (H := python_lib) "promo1" "9.9.9.9" None
           new_year w eq_refl H2 H3).
Defined.

(** X10, witness: a redirect of promo1, deactivated. *)
Lemma redirect_of_inactive_link_is_410_witness :
  let w := world_with_row inactive_link in
  faulty (redis w) GET = false
  ∧ keys (redis w) !! CacheService.generate_url_key "promo1" = None
  ∧ rows_with_code w "promo1" = [(1, inactive_link)]
  ∧ is_active inactive_link ≠ Some true
  ∧ URLService.get_original_url (H := python_lib) "promo1" "9.9.9.9" None new_year w
    = (Raise (HTTPException HTTP_410_GONE "URL has been deactivated"), w).
Proof.
  intros w.
  assert (keys (redis w) !! CacheService.generate_url_key "promo1" = None) as H2
    by (vm_compute; reflexivity).
  assert (rows_with_code w "promo1" = [(1, inactive_link)]) as H3
    by (vm_compute; reflexivity).
  assert (is_active inactive_link ≠ Some true) as H4 by discriminate.
  split; [reflexivity|]. split; [exact H2|]. split; [exact H3|]. split; [exact H4|].
  exact (proj2 (redirect_of_inactive_link_is_410 (H := python_lib) "promo1" "9.9.9.9" None
                  new_year w) 1 inactive_link eq_refl H2 H3 H4).
Defined.

(** X11, witness: promo1 deleted. *)
Lemma delete_removes_row_and_cache_entry_witness :
  let w := world_with_link healthy None in
  faulty (redis w) DEL = false
  ∧ rows_with_code w "promo1" = [(1, example_link None)]
  ∧ ∃ w', URLService.delete_url "promo1" w = (Return tt, w')
      ∧ urls (db w') = delete 1 (urls (db w))
      ∧ click_rows (db w') = click_rows (db w)
      ∧ keys (redis w') = delete (CacheService.generate_url_key "promo1") (keys (redis w)).
Proof.
  intros w.
  assert (rows_with_code w "promo1" = [(1, example_link None)]) as H2
    by (vm_compute; reflexivity).
  split; [reflexivity|]. split; [exact H2|].
  exact (delete_removes_row_and_cache_entry "promo1" w 1 (example_link None) eq_refl H2).
Defined.

(** X12, witness: promo1 deleted, then requested. *)
Lemma deleted_link_is_gone_witness :
  let w := world_with_link healthy None in
  let w' := (url_controller.delete_short_url "promo1" w).2 in
  faulty (redis w) DEL = false ∧ faulty (redis w) GET = false
  ∧ rows_with_code w "promo1" = [(1, example_link None)]
  ∧ url_controller.delete_short_url "promo1" w = (Return tt, w')
  ∧ url_controller.redirect_to_original (H := python_lib) "promo1" "9.9.9.9" None
      new_year w'
    = (Raise (HTTPException HTTP_404_NOT_FOUND "URL not found"), w').
Proof.
  intros w w'.
  assert (rows_with_code w "promo1" = [(1, example_link None)]) as H3
    by (vm_compute; reflexivity).
  split; [reflexivity|]. split; [reflexivity|]. split; [exact H3|].
  exact (deleted_link_is_gone (H := python_lib) "promo1" "9.9.9.9" None new_year w 1
           (example_link None) eq_refl eq_refl H3).
Defined.

(** X13, witness: an update and a delete on a fresh deployment. *)
Lemma unknown_code_is_404_for_update_and_delete_witness :
  let w := fresh_world healthy in
  (∀ id u, urls (db w) !! id = Some u → short_code u ≠ "promo1")
  ∧ URLService.update_url "promo1" extend_request new_year w
    = (Raise (HTTPException HTTP_404_NOT_FOUND "URL not found"), w)
  ∧ URLService.delete_url "promo1" w
    = (Raise (HTTPException HTTP_404_NOT_FOUND "URL not found"), w).
Proof.
  intros w.
  assert (∀ id u, urls (db w) !! id = Some u → short_code u ≠ "promo1") as H1.
  { intros id u Hu. cbn in Hu. rewrite lookup_empty in Hu. discriminate Hu. }
  split; [exact H1|].
  exact (unknown_code_is_404_for_update_and_delete "promo1" extend_request new_year w H1).
Defined.

(** X14, witness: promo1 extended by seven days. *)
Lemma update_sets_expiry_and_invalidates_witness :
  let w := world_with_link healthy None in
  faulty (redis w) DEL = false
  ∧ rows_with_code w "promo1" = [(1, example_link None)]
  ∧ truthy_str (update_custom_alias extend_request) = false
  ∧ ∃ u' w',
      URLService.update_url "promo1" extend_request new_year w = (Return (1, u'), w')
      ∧ urls (db w') = <[1 := u']> (urls (db w))
      ∧ expires_at u' = Some {| wall := new_year + 7 * 86400000000; tzinfo := None |}.
Proof.
  intros w.
  assert (rows_with_code w "promo1" = [(1, example_link None)]) as H2
    by (vm_compute; reflexivity).
  split; [reflexivity|]. split; [exact H2|]. split; [reflexivity|].
  destruct (update_sets_expiry_and_invalidates "promo1" extend_request new_year w 1
              (example_link None) eq_refl H2 eq_refl)
    as (u' & w' & E & Hurls & _ & _ & Hu').
  exists u', w'. split; [exact E|]. split; [exact Hurls|]. rewrite Hu'. reflexivity.
Defined.

(** X15, witness: promo1 created at the new year for thirty days and
    requested one second later. *)
Lemma created_link_redirects_until_expiry_witness :
  let w := fresh_world healthy in
  let w1 := (url_controller.create_short_url (H := python_lib) 0 (fun n => n)
               alias_request "1.2.3.4" new_year w).2 in
  validators_url (PyLib := python_lib) (create_original_url alias_request) = true
  ∧ create_custom_alias alias_request = Some "promo1" ∧ "promo1" ≠ ""
  ∧ (∀ id r, urls (db w) !! id = Some r →
             short_code r ≠ "promo1" ∧ custom_alias r ≠ Some "promo1")
  ∧ faulty (redis w) GET = false ∧ faulty (redis w) INCR = false
  ∧ keys (redis w) !! CacheService.generate_url_key "promo1" = None
  ∧ keys (redis w) !! CacheService.generate_analytics_key "promo1" = None
  ∧ ∃ id row w2,
      urls (db w1) !! id = Some row
      ∧ url_controller.redirect_to_original (H := python_lib) "promo1" "9.9.9.9"
          (Some "UA") (new_year + 1000000) w1
        = (Return (PStr "https://example.com/page"), w2)
      ∧ urls (db w2) = <[id := with_clicks row (Some 1)]> (urls (db w1))
      ∧ size (click_rows (db w2)) = S (size (click_rows (db w)))
      ∧ keys (redis w2) !! CacheService.generate_analytics_key "promo1"
        = Some {| value := RString "1"; ttl := None |}.
Proof.
  intros w w1.
  assert ("promo1" ≠ "") as H3 by discriminate.
  assert (∀ id r, urls (db w) !! id = Some r →
                  short_code r ≠ "promo1" ∧ custom_alias r ≠ Some "promo1") as H4.
  { intros id r Hr. cbn in Hr. rewrite lookup_empty in Hr. discriminate Hr. }
  assert (keys (redis w) !! CacheService.generate_url_key "promo1" = None) as H7
    by (vm_compute; reflexivity).
  assert (keys (redis w) !! CacheService.generate_analytics_key "promo1" = None) as H8
    by (vm_compute; reflexivity).
  split; [reflexivity|]. split; [reflexivity|]. split; [exact H3|]. split; [exact H4|].
  split; [reflexivity|]. split; [reflexivity|]. split; [exact H7|]. split; [exact H8|].
  exact (created_link_redirects_until_expiry (H := python_lib) 0 (fun n => n) alias_request
           "1.2.3.4" new_year w "promo1" "9.9.9.9" (Some "UA") (new_year + 1000000)
           eq_refl eq_refl H3 H4 eq_refl eq_refl H7 H8).
Defined.

(** X17, witness: the row of promo1 after its creation. *)
Lemma stored_links_carry_their_alias_witness :
  let w := run (H := python_lib)
             [ (Create 0 (fun n => n) alias_request "1.2.3.4", new_year) ]
             (fresh_world healthy) in
  urls (db w) !! 0 = Some promo_row
  ∧ custom_alias promo_row = Some (short_code promo_row) ∧ short_code promo_row ≠ ""
  ∧ ∃ n, clicks promo_row = Some n ∧ 0 ≤ n.
Proof.
  intros w.
  assert (urls (db w) !! 0 = Some promo_row) as H1 by (vm_compute; reflexivity).
  split; [exact H1|].
  exact (stored_links_carry_their_alias (H := python_lib)
           [ (Create 0 (fun n => n) alias_request "1.2.3.4", new_year) ] healthy 0
           promo_row H1).
Defined.

(** X18, witness: the click row of the redirect of promo1. *)
Lemma click_rows_carry_no_location_witness :
  let w := run (H := python_lib) promo_history (fresh_world healthy) in
  let c := {| url_id := 0; timestamp := Some (datetime_now_utc (new_year + 1000000));
              ip_address := "9.9.9.9"; user_agent := Some "UA";
              country := None; referrer := None |} in
  click_rows (db w) !! 0 = Some c
  ∧ is_Some (timestamp c) ∧ country c = None ∧ referrer c = None.
Proof.
  intros w c.
  assert (click_rows (db w) !! 0 = Some c) as H1 by (vm_compute; reflexivity).
  split; [exact H1|].
  exact (click_rows_carry_no_location (H := python_lib) promo_history healthy 0 c H1).
Defined.

(** X21, witness: a check of 1.2.3.4, whose set holds one member. *)
Lemma recorded_requests_stay_within_the_limit_witness :
  let w := window_world {[ "100" := 100 ]} in
  let key := CacheService.generate_rate_limit_key "1.2.3.4" "create_url" in
  no_faults w ∧ zset_or_absent w key ∧ 0 < window rate_limiter
  ∧ Z.of_nat (size (zset_at w key)) ≤ requests rate_limiter
  ∧ Z.of_nat (size (zset_at (check_rate_limit rate_limiter "1.2.3.4" "create_url"
                               160000000 w).2 key)) ≤ requests rate_limiter.
Proof.
  intros w key.
  assert (no_faults w) as H1 by (intros c; reflexivity).
  assert (zset_or_absent w key) as H2 by exact I.
  assert (0 < window rate_limiter) as H3 by reflexivity.
  assert (Z.of_nat (size (zset_at w key)) ≤ requests rate_limiter) as H4
    by (vm_compute; discriminate).
  split; [exact H1|]. split; [exact H2|]. split; [exact H3|]. split; [exact H4|].
  exact (recorded_requests_stay_within_the_limit rate_limiter "1.2.3.4" "create_url"
           160000000 w H1 H2 H3 H4).
Defined.

(** X22, witness: an entry of ghost without the key expires_at. *)
Lemma cached_entry_fields_witness :
  let w := cached_only_world short_payload in
  let cached := PDict [ ("original_url", PStr "https://example.com/page");
                        ("is_active", PBool true) ] in
  CacheService.get_cached_url (H := python_lib) "ghost" w = (Return cached, w)
  ∧ truthy cached = true
  ∧ URLService.get_original_url (H := python_lib) "ghost" "9.9.9.9" None new_year w
    = (URLService._track_click "ghost" "9.9.9.9" None new_year ;;;
       ret (PStr "https://example.com/page")) w.
Proof.
  intros w cached.
  assert (CacheService.get_cached_url (H := python_lib) "ghost" w = (Return cached, w))
    as H1 by (vm_compute; reflexivity).
  split; [exact H1|]. split; [reflexivity|].
  exact (proj2 (proj2 (proj2 (cached_entry_fields (H := python_lib) "ghost" "9.9.9.9" None
                                new_year w cached H1 eq_refl)
                         [ ("original_url", PStr "https://example.com/page");
                           ("is_active", PBool true) ] eq_refl))
           (PStr "https://example.com/page") (PBool true) eq_refl eq_refl eq_refl eq_refl).
Defined.
